(** * grapple: streaming dataset loaders ([grapple/data/torch.py])

    A shallow embedding of the two iterable datasets [PUDataset] and
    [METDataset]: file selection, length accounting, per-event masking,
    adjacency construction, MET standardisation and batch collation.

    The two classes are embedded with the entries of the float arrays
    modelled by the real numbers of the Standard Library: arithmetic is
    exact, there is no rounding, no NaN and no infinity.  This model carries
    the data flow: masks, indices, shapes, and which entry is compared with
    which.  The functions that compute with the entries ([cone_adj], the
    adjacency of an event, [standardize_met], [unstandardize_met] and
    [_compute_met]) are embedded a second time over binary64 floats, in the
    module [Float64], and what depends on the arithmetic of floats is stated
    there.  Integer arrays are lists over [Z], boolean arrays lists over
    [bool]; a two-dimensional array is a list of rows, so the shape below an
    empty axis is not recorded.  Python exceptions (IndexError, KeyError,
    ValueError, TypeError, a file that cannot be loaded) are modelled by
    [None]; an archive that loads holds all of its named arrays.
    [np.random.shuffle] is the Fisher-Yates loop of numpy over an explicit
    stream of draws, and a generator is run to the list of samples it
    yields. *)

From Stdlib Require Import String.
From Stdlib Require Import Reals Lra ZArith Lia Bool Arith List.
From Stdlib Require Import Sorting.Mergesort Orders Permutation.
From Stdlib Require Floats.
Import ListNotations.

Set Implicit Arguments.

(* ================================================================== *)
(** ** Array primitives *)

Module Np.

Local Open Scope R_scope.

(** Comparisons on array entries, as booleans. *)
Definition Rleb (x y : R) : bool := if Rle_dec x y then true else false.
Definition Rgtb (x y : R) : bool := if Rgt_dec x y then true else false.
Definition Reqb (x y : R) : bool := if Req_dec_T x y then true else false.

(** Python truthiness of a float and of an int. *)
Definition truthyR (x : R) : bool := negb (Reqb x 0).
Definition truthyZ (z : Z) : bool := negb (Z.eqb z 0).

(** [.astype(int)] of a boolean. *)
Definition int_of_bool (b : bool) : Z := if b then 1%Z else 0%Z.

(** Sequencing of a fallible function over a list. *)
Fixpoint mapM {A B : Type} (f : A -> option B) (l : list A) : option (list B) :=
  match l with
  | [] => Some []
  | x :: xs =>
      match f x with
      | None => None
      | Some y =>
          match mapM f xs with
          | None => None
          | Some ys => Some (y :: ys)
          end
      end
  end.

(** Broadcasting of a binary operation along one axis: the two lengths are
    equal, or one of them is 1; anything else is a ValueError. *)
Definition broadcast {A B C : Type} (f : A -> B -> option C)
    (a : list A) (b : list B) : option (list C) :=
  if Nat.eqb (length a) (length b) then
    mapM (fun p => f (fst p) (snd p)) (combine a b)
  else
    match b with
    | [y] => mapM (fun x => f x y) a
    | _ =>
        match a with
        | [x] => mapM (fun y => f x y) b
        | _ => None
        end
    end.

(** Entry-wise [f a b] on two lists of one length. *)
Definition zip_with {A B C : Type} (f : A -> B -> C) (a : list A) (b : list B)
    : list C :=
  map (fun p : A * B => f (fst p) (snd p)) (combine a b).

(** [a + b] on two-dimensional float arrays. *)
Definition add2 (a b : list (list R)) : option (list (list R)) :=
  broadcast (broadcast (fun x y => Some (x + y))) a b.

(** [v[:, np.newaxis] - v]: entry (i, j) is [v_i - v_j]. *)
Definition outer_sub (v : list R) : list (list R) :=
  map (fun a => map (fun b => a - b) v) v.

(** [np.square] on a two-dimensional array. *)
Definition square2 (m : list (list R)) : list (list R) :=
  map (map (fun d => d * d)) m.

(** [np.eye(n, n)]: a float array. *)
Definition eye (n : nat) : list (list R) :=
  map (fun i => map (fun j => if Nat.eqb i j then 1 else 0) (seq 0 n)) (seq 0 n).

(** A two-dimensional array is either of floats or of booleans. *)
Inductive ndarray2 : Type :=
| FloatMat (m : list (list R))
| BoolMat (m : list (list bool)).

(** Entry (i, j) of a list of rows. *)
Definition entry {A : Type} (m : list (list A)) (i j : nat) : option A :=
  match nth_error m i with
  | Some row => nth_error row j
  | None => None
  end.

(** Entry (i, j) of an adjacency array, read for its truth value. *)
Definition truth_at (a : ndarray2) (i j : nat) : option bool :=
  match a with
  | FloatMat m => option_map truthyR (entry m i j)
  | BoolMat m => entry m i j
  end.

(** The truth values of a whole adjacency array. *)
Definition truth2 (a : ndarray2) : list (list bool) :=
  match a with
  | FloatMat m => map (map truthyR) m
  | BoolMat m => m
  end.

(** [np.logical_and] on two-dimensional arrays of truth values. *)
Definition logical_and2 (a b : list (list bool)) : option (list (list bool)) :=
  broadcast (broadcast (fun x y => Some (x && y))) a b.

(** [v[:, None]] and-ed with [v]: entry (i, j) is [v_i and v_j]. *)
Definition outer_and (v : list bool) : list (list bool) :=
  map (fun a => map (fun b => a && b) v) v.

(** [a[k] = v] on a list; out of range the list is returned as it is (the
    callers check the range first). *)
Fixpoint set_nth {A : Type} (k : nat) (v : A) (l : list A) : list A :=
  match l, k with
  | [], _ => []
  | _ :: xs, O => v :: xs
  | x :: xs, S k' => x :: set_nth k' v xs
  end.

(** Python's [l[:stop]]: [None] keeps everything, a negative stop counts
    from the end. *)
Definition slice_to {A : Type} (stop : option Z) (l : list A) : list A :=
  match stop with
  | None => l
  | Some k =>
      if (k <? 0)%Z then firstn (Z.to_nat (Z.of_nat (length l) + k)) l
      else firstn (Z.to_nat k) l
  end.

(** A Python index into an axis of length [len]: negative indices wrap once,
    anything outside is an IndexError. *)
Definition norm_index (len : nat) (k : Z) : option nat :=
  let k' := if (k <? 0)%Z then (k + Z.of_nat len)%Z else k in
  if ((0 <=? k')%Z && (k' <? Z.of_nat len)%Z)%bool then Some (Z.to_nat k')
  else None.

(** [a[idxs] = v] with an integer index array. *)
Definition put_at {A : Type} (a : list A) (idxs : list Z) (v : A) : option (list A) :=
  match mapM (norm_index (length a)) idxs with
  | None => None
  | Some ks => Some (fold_left (fun acc k => set_nth k v acc) ks a)
  end.

(** [a[m] = v] with a boolean mask: the mask has the length of [a]. *)
Definition put_mask {A : Type} (a : list A) (m : list bool) (v : A) : option (list A) :=
  if Nat.eqb (length m) (length a) then
    Some (zip_with (fun (x : A) (b : bool) => if b then v else x) a m)
  else None.

(** [a[m]] with a boolean mask. *)
Definition bool_index {A : Type} (a : list A) (m : list bool) : option (list A) :=
  if Nat.eqb (length m) (length a) then
    Some (map fst (filter (fun p : A * bool => snd p) (combine a m)))
  else None.

(** [x[:, k]] on a two-dimensional array. *)
Definition column {A : Type} (k : nat) (x : list (list A)) : option (list A) :=
  mapM (fun row => nth_error row k) x.

(** [X.shape[1]] of an array given as a list of rows. *)
Definition shape1 {A : Type} (X : list (list A)) : nat :=
  match X with
  | [] => 0
  | r :: _ => length r
  end.

(** The rows of an array all have the length [X.shape[1]]. *)
Definition rectangular {A : Type} (X : list (list A)) : Prop :=
  forall row, In row X -> length row = shape1 X.

(** Two arrays with as many rows, row by row of one length. *)
Definition same_rows {A B : Type} (x : list (list A)) (y : list (list B)) : Prop :=
  Forall2 (fun a b => length b = length a) x y.

(** [np.sum(a, axis=-1)] on a two-dimensional array. *)
Definition sum_last (a : list (list R)) : list R :=
  map (fun row => fold_right Rplus 0 row) a.

(** An n-dimensional array over entries of type [A], by nesting. *)
#[warnings="-register-all"]
Inductive ndarray (A : Type) : Type :=
| Item (v : A)
| Arr (items : list (ndarray A)).

Arguments Item {A} v.
Arguments Arr {A} items.

(** [a.shape]; the shape below an empty axis is not recorded. *)
Fixpoint shape {A : Type} (a : ndarray A) : list nat :=
  match a with
  | Item _ => []
  | Arr [] => [0%nat]
  | Arr ((x :: _) as items) => length items :: shape x
  end.

(** [np.stack(arrays, axis=0)]: at least one array, all of one shape. *)
Definition stack {A : Type} (arrays : list (ndarray A)) : option (ndarray A) :=
  match arrays with
  | [] => None
  | a0 :: _ =>
      if forallb (fun a => if list_eq_dec Nat.eq_dec (shape a) (shape a0)
                           then true else false) arrays
      then Some (Arr arrays)
      else None
  end.

(** [a[j]] along the leading axis. *)
Definition slice0 {A : Type} (a : ndarray A) (j : nat) : option (ndarray A) :=
  match a with
  | Item _ => None
  | Arr items => nth_error items j
  end.

(** Entries of the arrays the loaders handle. *)
Inductive scalar : Type :=
| SFloat (r : R)
| SInt (z : Z)
| SBool (b : bool).

Definition of_R (r : R) : ndarray scalar := Item (SFloat r).
Definition of_vecR (v : list R) : ndarray scalar := Arr (map of_R v).
Definition of_matR (m : list (list R)) : ndarray scalar := Arr (map of_vecR m).
Definition of_Z (z : Z) : ndarray scalar := Item (SInt z).
Definition of_vecZ (v : list Z) : ndarray scalar := Arr (map of_Z v).
Definition of_matZ (m : list (list Z)) : ndarray scalar := Arr (map of_vecZ m).

(** A Python dict with string keys, in insertion order. *)
Definition dict (V : Type) : Type := list (string * V).

(** [d[k]]; a missing key is a KeyError. *)
Fixpoint lookup {V : Type} (d : dict V) (k : string) : option V :=
  match d with
  | [] => None
  | (k', v) :: d' => if String.eqb k' k then Some v else lookup d' k
  end.

(** [list(d.keys())]. *)
Definition keys {V : Type} (d : dict V) : list string := map fst d.

End Np.

(* ================================================================== *)
(** ** The random generator behind [np.random.shuffle] *)

Module Rng.

(** The generator state: the raw draws still to come. *)
Definition rng : Type := list nat.

(** A draw in [0, max]. *)
Definition random_interval (max : nat) (g : rng) : nat * rng :=
  match g with
  | [] => (0, [])
  | r :: g' => (r mod (S max), g')
  end.

(** [x[i], x[j] = x[j], x[i]]. *)
Definition swap {A : Type} (l : list A) (i j : nat) : list A :=
  match nth_error l i, nth_error l j with
  | Some a, Some b => Np.set_nth j a (Np.set_nth i b l)
  | _, _ => l
  end.

(** The loop [for i in reversed(range(1, n))] of the shuffle, from [i] down. *)
Fixpoint shuffle_from {A : Type} (i : nat) (l : list A) (g : rng) : list A * rng :=
  match i with
  | O => (l, g)
  | S i' =>
      let (j, g') := random_interval i g in
      shuffle_from i' (swap l i j) g'
  end.

(** [np.random.shuffle(l)]: the shuffled list and the generator after it. *)
Definition shuffle {A : Type} (l : list A) (g : rng) : list A * rng :=
  shuffle_from (length l - 1) l g.

End Rng.

(* ================================================================== *)
(** ** Generators: yields, exceptions and the random state *)

Module Gen.

Import Rng.

(** What running a piece of a generator gives: the samples yielded so far,
    the value it returned ([None] when an exception ended it), and the
    generator state of [np.random]. *)
Record run (Y X : Type) : Type := Run {
  yielded : list Y;
  result : option X;
  state : rng
}.

Definition t (Y X : Type) : Type := rng -> run Y X.

Definition ret {Y X : Type} (x : X) : t Y X :=
  fun g => Run [] (Some x) g.

Definition bind {Y X X' : Type} (m : t Y X) (f : X -> t Y X') : t Y X' :=
  fun g =>
    let r := m g in
    match result r with
    | None => Run (yielded r) None (state r)
    | Some x =>
        let r' := f x (state r) in
        Run (yielded r ++ yielded r') (result r') (state r')
    end.

(** [yield y]. *)
Definition yield {Y : Type} (y : Y) : t Y unit :=
  fun g => Run [y] (Some tt) g.

(** A fallible step: [None] raises. *)
Definition lift {Y X : Type} (o : option X) : t Y X :=
  fun g => Run [] o g.

(** [np.random.shuffle]. *)
Definition shuffled {Y A : Type} (l : list A) : t Y (list A) :=
  fun g => let (l', g') := shuffle l g in Run [] (Some l') g'.

(** [for a in l: body(a)]. *)
Fixpoint for_each {Y A : Type} (l : list A) (body : A -> t Y unit) : t Y unit :=
  match l with
  | [] => ret tt
  | a :: l' => bind (body a) (fun _ => for_each l' body)
  end.

(** A loop that carries an accumulator. *)
Fixpoint fold_each {Y A S : Type} (l : list A) (body : S -> A -> t Y S) (s : S)
    : t Y S :=
  match l with
  | [] => ret s
  | a :: l' => bind (body s a) (fun s' => fold_each l' body s')
  end.

End Gen.

Declare Scope gen_scope.
Delimit Scope gen_scope with gen.
Notation "x <- m ;; k" := (Gen.bind m (fun x => k))
  (at level 61, m at next level, right associativity) : gen_scope.
Notation "m ;;; k" := (Gen.bind m (fun _ => k))
  (at level 61, right associativity) : gen_scope.


Definition obind {A B : Type} (m : option A) (f : A -> option B) : option B :=
  match m with
  | Some a => f a
  | None => None
  end.

Declare Scope opt_scope.
Delimit Scope opt_scope with opt.
Notation "x <- m ;; k" := (obind m (fun x => k))
  (at level 61, m at next level, right associativity) : opt_scope.

(* ================================================================== *)
(** ** Files on disk and the configuration *)

(** The named arrays of one [.npz] archive. *)
Module Npz.
Record t : Type := Make {
  x : list (list (list R));
  y : list (list Z);
  N : list Z;
  p : list (list R);
  q : list (list R);
  met : list R;
  metphi : list R;
  mjj : list R;
  jpt0 : list R;
  jm0 : list R;
  puppimet : list R;
  pfmet : list R
}.
End Npz.

(** The file system as the loaders see it: [glob(pattern)] and
    [np.load(path)]. *)
Record filesystem : Type := {
  glob : string -> list string;
  np_load : string -> option Npz.t
}.

Module Config.
Record t : Type := Make {
  dataset_pattern : list string;
  num_max_files : option Z;
  mask_charged : bool;
  num_max_particles : option Z;
  dr_adj : option R;
  min_met : option R
}.
End Config.

(* ================================================================== *)
(** ** class PUDataset *)

Module PUDataset.

Import Np.
Local Open Scope R_scope.

Record t : Type := Make {
  _files : list string;
  num_max_files : option Z;
  mask_charged : bool;
  n_particles : option Z;
  dr_adj : option R;
  min_met : option R;
  _len : nat
}.

Definition set_files (self : t) (files : list string) : t :=
  Make files (num_max_files self) (mask_charged self) (n_particles self)
       (dr_adj self) (min_met self) (_len self).

Definition set_len (self : t) (n : nat) : t :=
  Make (_files self) (num_max_files self) (mask_charged self) (n_particles self)
       (dr_adj self) (min_met self) n.

(** [PUDataset._get_len]: the count, and [self] with its files shuffled. *)
Definition _get_len {Y : Type} (fs : filesystem) (self : t) : Gen.t Y (t * nat) :=
  (files <- Gen.shuffled (_files self) ;;
   let self := set_files self files in
   n_tot <- Gen.fold_each (slice_to (num_max_files self) (_files self))
     (fun n_tot f =>
        data <- Gen.lift (np_load fs f) ;;
        let N := Npz.N data in
        let evt_mask :=
          match min_met self with
          | Some m => let genmet := Npz.met data in map (fun g => Rgtb g m) genmet
          | None => map (fun _ => true) N
          end in
        sel <- Gen.lift (bool_index N evt_mask) ;;
        Gen.ret (n_tot + length sel)%nat) 0%nat ;;
   Gen.ret (self, n_tot))%gen.

(** [PUDataset.__init__]. *)
Definition __init__ {Y : Type} (fs : filesystem) (config : Config.t) : Gen.t Y t :=
  (let self :=
     Make (flat_map (glob fs) (Config.dataset_pattern config))
          (Config.num_max_files config)
          (Config.mask_charged config)
          (Config.num_max_particles config)
          (Config.dr_adj config)
          (Config.min_met config)
          0 in
   r <- _get_len fs self ;;
   Gen.ret (set_len (fst r) (snd r)))%gen.

Definition __len__ (self : t) : nat := _len self.

(** [PUDataset.cone_adj(eta, phi, cone)]. *)
Definition cone_adj (eta phi : list R) (cone : R) : option ndarray2 :=
  if Reqb cone 0 then
    let N := length eta in
    Some (FloatMat (eye N))
  else
    let deta2 := square2 (outer_sub eta) in
    let dphi2 := square2 (outer_sub phi) in
    match add2 deta2 dphi2 with
    | None => None
    | Some dr2 =>
        let cone2 := cone * cone in
        let adj := map (map (fun d => Rleb d cone2)) dr2 in
        Some (BoolMat adj)
    end.

(** The label array of one event: [y = Y[i, :].astype(int)],
    [y[~mask] = -1], the copy [orig_y], and the charged-particle masking.
    [mask] is an array of ints, so [~mask] is its bitwise complement and
    indexes [y] by position.  Returns [(y, orig_y)]. *)
Definition labels (self : t) (x : list (list R)) (Yi : list Z) (mask : list Z)
    : option (list Z * list Z) :=
  (let y := Yi in
   y <- put_at y (map Z.lnot mask) (-1)%Z ;;
   let orig_y := y in
   y <- (if mask_charged self then
           x5 <- column 5 x ;;
           let q_mask := map (fun c => negb (Reqb c 0)) x5 in
           put_mask y q_mask (-1)%Z
         else Some y) ;;
   Some (y, orig_y))%opt.

(** The adjacency entry of one event, before it is put in the dictionary. *)
Definition adjacency (self : t) (x : list (list R)) (mask : list Z)
    : option (ndarray scalar) :=
  (match dr_adj self with
   | Some dr =>
       x1 <- column 1 x ;;
       x2 <- column 2 x ;;
       adj <- cone_adj x1 x2 dr ;;
       adj_mask <- logical_and2 (truth2 adj) (outer_and (map truthyZ mask)) ;;
       Some (of_matZ (map (map int_of_bool) adj_mask))
   | None =>
       let adj_mask := mask in
       Some (of_vecZ adj_mask)
   end)%opt.

(** The body of the loop over the events of one file.  [d] holds the arrays
    of the file after the slices [X[:, :n_particles, :]] and so on. *)
Definition event (self : t) (d : Npz.t) (mask_base : list nat) (i : nat)
    : option (dict (ndarray scalar)) :=
  (Ni <- nth_error (Npz.N d) i ;;
   let mask := map (fun k => int_of_bool (Z.of_nat k <? Ni)%Z) mask_base in
   x <- nth_error (Npz.x d) i ;;
   adj_mask <- adjacency self x mask ;;
   Yi <- nth_error (Npz.y d) i ;;
   yy <- labels self x Yi mask ;;
   let y := fst yy in
   let orig_y := snd yy in
   Qi <- nth_error (Npz.q d) i ;;
   Pi <- nth_error (Npz.p d) i ;;
   genmet_i <- nth_error (Npz.met d) i ;;
   genmetphi_i <- nth_error (Npz.metphi d) i ;;
   puppimet_i <- nth_error (Npz.puppimet d) i ;;
   pfmet_i <- nth_error (Npz.pfmet d) i ;;
   mjj_i <- nth_error (Npz.mjj d) i ;;
   jpt0_i <- nth_error (Npz.jpt0 d) i ;;
   jm0_i <- nth_error (Npz.jm0 d) i ;;
   Some [ ("x", of_matR x);
          ("y", of_vecZ y);
          ("adj_mask", adj_mask);
          ("q", of_vecR Qi);
          ("p", of_vecR Pi);
          ("genmet", of_R genmet_i);
          ("genmetphi", of_R genmetphi_i);
          ("puppimet", of_R puppimet_i);
          ("pfmet", of_R pfmet_i);
          ("orig_y", of_vecZ orig_y);
          ("mask", of_vecZ mask);
          ("mjj", of_R mjj_i);
          ("jpt0", of_R jpt0_i);
          ("jm0", of_R jm0_i) ]%string)%opt.

(** The arrays of a file after the particle-axis slices. *)
Definition sliced (self : t) (data : Npz.t) : Npz.t :=
  Npz.Make (map (slice_to (n_particles self)) (Npz.x data))
           (map (slice_to (n_particles self)) (Npz.y data))
           (Npz.N data)
           (map (slice_to (n_particles self)) (Npz.p data))
           (map (slice_to (n_particles self)) (Npz.q data))
           (Npz.met data) (Npz.metphi data) (Npz.mjj data) (Npz.jpt0 data)
           (Npz.jm0 data) (Npz.puppimet data) (Npz.pfmet data).

(** The body of the loop over the files. *)
Definition file_pass (fs : filesystem) (self : t) (f : string)
    : Gen.t (dict (ndarray scalar)) unit :=
  (data <- Gen.lift (np_load fs f) ;;
   let d := sliced self data in
   let X := Npz.x d in
   let mask_base := seq 0 (shape1 X) in
   idx <- Gen.shuffled (seq 0 (length X)) ;;
   Gen.for_each idx (fun i =>
     to_yield <- Gen.lift (event self d mask_base i) ;;
     Gen.yield to_yield))%gen.

(** [PUDataset.__iter__]: one pass; returns [self] with its files
    shuffled. *)
Definition __iter__ (fs : filesystem) (self : t)
    : Gen.t (dict (ndarray scalar)) t :=
  (files <- Gen.shuffled (_files self) ;;
   let self := set_files self files in
   Gen.for_each (slice_to (num_max_files self) (_files self))
                (file_pass fs self) ;;;
   Gen.ret self)%gen.

(** [PUDataset.collate_fn]. *)
Definition collate_fn {A : Type} (samples : list (dict (ndarray A)))
    : option (dict (ndarray A)) :=
  (s0 <- nth_error samples 0 ;;
   let keys := keys s0 in
   mapM (fun k =>
           col <- mapM (fun s => lookup s k) samples ;;
           a <- stack col ;;
           Some (k, a)) keys)%opt.

End PUDataset.

(* ================================================================== *)
(** ** class METDataset *)

(** Python's [sorted] on file names. *)
Module StringOrder <: TotalLeBool.
Definition t : Type := string.
Definition leb : t -> t -> bool := String.leb.
Definition leb_total : forall a b, leb a b = true \/ leb b a = true :=
  String.leb_total.
End StringOrder.

Module StringSort := Sort StringOrder.

Module METDataset.

Import Np.
Local Open Scope R_scope.

Record t : Type := Make {
  _files : list string;
  mask_charged : bool;
  dr_adj : option R;
  _len : nat;
  mean_met : option R;
  std_met : option R;
  training_mode : Z
}.

Definition set_files (self : t) (files : list string) : t :=
  Make files (mask_charged self) (dr_adj self) (_len self) (mean_met self)
       (std_met self) (training_mode self).

(** [METDataset._get_len], over the files of [self]. *)
Fixpoint _get_len_from (fs : filesystem) (files : list string) (n_tot : nat)
    : option nat :=
  match files with
  | [] => Some n_tot
  | f :: files' =>
      (data <- np_load fs f ;;
       let N := Npz.N data in
       _get_len_from fs files' (n_tot + length N)%nat)%opt
  end.

Definition _get_len (fs : filesystem) (files : list string) : option nat :=
  _get_len_from fs files 0%nat.

(** [METDataset.__init__]. *)
Definition __init__ (fs : filesystem) (dataset_pattern : string)
    (config : Config.t) (mean_met std_met : option R) (training_mode : Z)
    : option t :=
  (let files := slice_to (Config.num_max_files config)
                         (StringSort.sort (glob fs dataset_pattern)) in
   n <- _get_len fs files ;;
   Some (Make files (Config.mask_charged config) (Config.dr_adj config) n
              mean_met std_met training_mode))%opt.

Definition __len__ (self : t) : nat := _len self.

(** [METDataset.cone_adj(eta, phi, cone)]: only pairs at distance zero. *)
Definition cone_adj (eta phi : list R) (cone : R) : option ndarray2 :=
  let deta2 := square2 (outer_sub eta) in
  let dphi2 := square2 (outer_sub phi) in
  match add2 deta2 dphi2 with
  | None => None
  | Some dr2 =>
      let cone2 := cone * cone in
      let adj := map (map (fun d => Reqb d 0)) dr2 in
      Some (BoolMat adj)
  end.

(** [standardize_met] and [unstandardize_met], on an array of values.  A
    dataset built without [mean_met] or [std_met] cannot compute them. *)
Definition standardize_met (self : t) (met : list R) : option (list R) :=
  match mean_met self, std_met self with
  | Some mean, Some std => Some (map (fun m => (m - mean) / std) met)
  | _, _ => None
  end.

Definition unstandardize_met (self : t) (met : list R) : option (list R) :=
  match mean_met self, std_met self with
  | Some mean, Some std => Some (map (fun m => (std * m) + mean) met)
  | _, _ => None
  end.

(** [METDataset._compute_met(px, py)] on two-dimensional arrays: one value per
    row. *)
Definition _compute_met (px py : list (list R)) : option (list R) :=
  let metx := sum_last px in
  let mety := sum_last py in
  broadcast (fun mx my => Some (sqrt (pow mx 2 + pow my 2))) metx mety.

(** [x[:, :, k]]. *)
Definition plane (k : nat) (x : list (list (list R))) : option (list (list R)) :=
  mapM (column k) x.

(** Entry-wise [f a b] on two arrays of one shape. *)
Definition zip2 (f : R -> R -> R) (a b : list (list R)) : list (list R) :=
  zip_with (zip_with f) a b.

(** [x[:, :, k] = v]. *)
Definition set_plane (k : nat) (v : list (list R)) (x : list (list (list R)))
    : list (list (list R)) :=
  zip_with (zip_with (fun row val => set_nth k val row)) x v.

(** [METDataset._transform_x(x)]. *)
Definition _transform_x (x : list (list (list R)))
    : option (list (list (list R))) :=
  (pt <- plane 0 x ;;
   eta <- plane 1 x ;;
   phi <- plane 2 x ;;
   let px := zip2 Rmult pt (map (map cos) phi) in
   let py := zip2 Rmult pt (map (map sin) phi) in
   let x := set_plane 0 px x in
   let x := set_plane 2 py x in
   Some x)%opt.

(** The adjacency entry of one event. *)
Definition adjacency (self : t) (x : list (list R)) (mask : list bool)
    : option (ndarray scalar) :=
  (match dr_adj self with
   | Some _ =>
       let adj := FloatMat (eye (length x)) in
       adj_mask <- logical_and2 (truth2 adj) (outer_and mask) ;;
       Some (of_matZ (map (map int_of_bool) adj_mask))
   | None =>
       let adj_mask := mask in
       Some (of_vecZ (map int_of_bool adj_mask))
   end)%opt.

(** The body of the loop over the events of one file. *)
Definition event (self : t) (X : list (list (list R))) (N : list Z)
    (genmet calcmet pfmet : list R) (mask_base : list nat) (i : nat)
    : option (list (ndarray scalar)) :=
  (Ni <- nth_error N i ;;
   let mask := map (fun k => (Z.of_nat k <? Ni)%Z) mask_base in
   x <- nth_error X i ;;
   adj_mask <- adjacency self x mask ;;
   if ((training_mode self =? 0)%Z || (training_mode self =? 1)%Z)%bool then
     calcmet_i <- nth_error calcmet i ;;
     pfmet_i <- nth_error pfmet i ;;
     Some [of_matR x; adj_mask; of_R calcmet_i; of_R pfmet_i]
   else
     genmet_i <- nth_error genmet i ;;
     pfmet_i <- nth_error pfmet i ;;
     Some [of_matR x; adj_mask; of_R genmet_i; of_R pfmet_i])%opt.

(** The body of the loop over the files. *)
Definition file_pass (fs : filesystem) (self : t) (f : string)
    : Gen.t (list (ndarray scalar)) unit :=
  (data <- Gen.lift (np_load fs f) ;;
   let N := Npz.N data in
   let genmet := Npz.met data in
   let pfmet := Npz.pfmet data in
   X <- Gen.lift (_transform_x (Npz.x data)) ;;
   let X :=
     if (training_mode self =? 0)%Z then map (slice_to (Some 50%Z)) X
     else if (training_mode self =? 1)%Z then map (slice_to (Some 200%Z)) X
     else map (slice_to (Some 200%Z)) X in
   X0 <- Gen.lift (plane 0 X) ;;
   X2 <- Gen.lift (plane 2 X) ;;
   calcmet <- Gen.lift (_compute_met X0 X2) ;;
   let mask_base := seq 0 (shape1 X) in
   idx <- Gen.shuffled (seq 0 (length X)) ;;
   mets <- Gen.lift
     (match mean_met self with
      | Some _ =>
          (genmet <- standardize_met self genmet ;;
           calcmet <- standardize_met self calcmet ;;
           pfmet <- standardize_met self pfmet ;;
           Some (genmet, calcmet, pfmet))%opt
      | None => Some (genmet, calcmet, pfmet)
      end) ;;
   let genmet := fst (fst mets) in
   let calcmet := snd (fst mets) in
   let pfmet := snd mets in
   Gen.for_each idx (fun i =>
     to_yield <- Gen.lift (event self X N genmet calcmet pfmet mask_base i) ;;
     Gen.yield to_yield))%gen.

(** [METDataset.__iter__]: one pass; returns [self] with its files
    shuffled. *)
Definition __iter__ (fs : filesystem) (self : t)
    : Gen.t (list (ndarray scalar)) t :=
  (files <- Gen.shuffled (_files self) ;;
   let self := set_files self files in
   Gen.for_each (_files self) (file_pass fs self) ;;;
   Gen.ret self)%gen.

(** [METDataset.collate_fn]. *)
Definition collate_fn {A : Type} (samples : list (list (ndarray A)))
    : option (list (ndarray A)) :=
  (s0 <- nth_error samples 0 ;;
   let n_fts := length s0 in
   mapM (fun i =>
           col <- mapM (fun s => nth_error s i) samples ;;
           stack col) (seq 0 n_fts))%opt.

End METDataset.

(* ================================================================== *)
(** ** A small data set: one file with two events of four particles *)

Module Example.

Local Open Scope R_scope.

(** A particle row [pt, eta, phi, -, -, charge]. *)
Definition particle (pt eta phi charge : R) : list R :=
  [pt; eta; phi; 0; 0; charge].

(** Event 0 has one real particle, event 1 has four; the first particle of
    each event is charged, and so is the last one of event 1. *)
Definition data : Npz.t :=
  Npz.Make
    [ [particle 30 0 0 1; particle 0 0 0 0; particle 0 0 0 0; particle 0 0 0 0];
      [particle 30 0 0 1; particle 20 1 1 0; particle 10 2 2 0; particle 5 3 3 (-1)] ]
    [ [1; 0; 0; 0]; [1; 0; 1; 0] ]%Z
    [1; 4]%Z
    [ [30; 0; 0; 0]; [30; 20; 10; 5] ]
    [ [1; 0; 0; 0]; [1; 0; 0; -1] ]
    [10; 20] [0; 0] [0; 0] [0; 0] [0; 0] [10; 20] [10; 20].

Definition fs : filesystem :=
  {| glob := fun pattern =>
       if String.eqb pattern "data/*.npz" then ["data/a.npz"%string] else [];
     np_load := fun f =>
       if String.eqb f "data/a.npz" then Some data else None |}.

(** [min_met] is 100: no event of the file passes the threshold. *)
Definition config : Config.t :=
  Config.Make ["data/*.npz"%string] (Some 10%Z) false (Some 4%Z) None (Some 100).

End Example.

(* ================================================================== *)
(** ** A second data set: two files, and a name that does not load *)

Module Example2.

Local Open Scope R_scope.

(** One event with two real particles. *)
Definition data_b : Npz.t :=
  Npz.Make
    [ [Example.particle 40 0 1 0; Example.particle 25 1 2 (-1);
       Example.particle 0 0 0 0; Example.particle 0 0 0 0] ]
    [ [0; 1; 0; 0] ]%Z
    [2]%Z
    [ [40; 25; 0; 0] ]
    [ [0; -1; 0; 0] ]
    [150] [0] [0] [0] [0] [150] [150].

(** ["lost/c.npz"] is listed by [glob] and cannot be loaded. *)
Definition fs : filesystem :=
  {| glob := fun pattern =>
       if String.eqb pattern "data/*.npz"
       then ["data/b.npz"%string; "data/a.npz"%string]
       else if String.eqb pattern "lost/*.npz" then ["lost/c.npz"%string]
       else [];
     np_load := fun f =>
       if String.eqb f "data/a.npz" then Some Example.data
       else if String.eqb f "data/b.npz" then Some data_b
       else None |}.

End Example2.

(* ================================================================== *)
(** ** The numeric kernels on binary64 floats

    The functions of the two classes that compute with the entries of the
    arrays, embedded a second time over the primitive floats of Rocq: IEEE
    754 binary64 with rounding to nearest even, NaN, infinities and signed
    zeros, the arithmetic of numpy's [float64].  Here [np.square(v)],
    [v ** 2] and [np.power(v, 2)] are the rounded product [v * v], and the
    truth value of a float is [v != 0], so NaN counts as true. *)

Module Float64.

Import Np.
Import Floats.
Local Open Scope float_scope.

(** Python truthiness of a float. *)
Definition truthy (x : float) : bool := negb (x =? 0).

(** [v[:, np.newaxis] - v]: entry (i, j) is [v_i - v_j]. *)
Definition outer_sub (v : list float) : list (list float) :=
  map (fun a => map (fun b => a - b) v) v.

(** [np.square] on a two-dimensional array. *)
Definition square2 (m : list (list float)) : list (list float) :=
  map (map (fun d => d * d)) m.

(** [a + b] on two-dimensional float arrays. *)
Definition add2 (a b : list (list float)) : option (list (list float)) :=
  broadcast (broadcast (fun x y => Some (x + y))) a b.

(** [np.eye(n, n)]. *)
Definition eye (n : nat) : list (list float) :=
  map (fun i => map (fun j => if Nat.eqb i j then 1 else 0) (seq 0 n)) (seq 0 n).

(** A two-dimensional array is either of floats or of booleans. *)
Inductive ndarray2 : Type :=
| FloatMat (m : list (list float))
| BoolMat (m : list (list bool)).

(** Entry (i, j) of an adjacency array, read for its truth value. *)
Definition truth_at (a : ndarray2) (i j : nat) : option bool :=
  match a with
  | FloatMat m => option_map truthy (entry m i j)
  | BoolMat m => entry m i j
  end.

(** The truth values of a whole adjacency array. *)
Definition truth2 (a : ndarray2) : list (list bool) :=
  match a with
  | FloatMat m => map (map truthy) m
  | BoolMat m => m
  end.

Module PUDataset.

(** [PUDataset.cone_adj(eta, phi, cone)]. *)
Definition cone_adj (eta phi : list float) (cone : float) : option ndarray2 :=
  if cone =? 0 then
    let N := length eta in
    Some (FloatMat (eye N))
  else
    let deta2 := square2 (outer_sub eta) in
    let dphi2 := square2 (outer_sub phi) in
    match add2 deta2 dphi2 with
    | None => None
    | Some dr2 =>
        let cone2 := cone * cone in
        let adj := map (map (fun d => d <=? cone2)) dr2 in
        Some (BoolMat adj)
    end.

(** The adjacency entry of one event of [PUDataset.__iter__], from
    [self.dr_adj], the particle array [x] and the integer array [mask]. *)
Definition adjacency (dr_adj : option float) (x : list (list float))
    (mask : list Z) : option (ndarray scalar) :=
  (match dr_adj with
   | Some dr =>
       x1 <- column 1 x ;;
       x2 <- column 2 x ;;
       adj <- cone_adj x1 x2 dr ;;
       adj_mask <- logical_and2 (truth2 adj) (outer_and (map truthyZ mask)) ;;
       Some (of_matZ (map (map int_of_bool) adj_mask))
   | None =>
       let adj_mask := mask in
       Some (of_vecZ adj_mask)
   end)%opt.

(** The adjacency mask of the event with particle array [x = X[i, :, :]]
    and particle count [Ni = N[i]]: [mask = (mask_base < N[i]).astype(int)]
    over the particle slots of [x], and the adjacency entry above. *)
Definition adj_mask (dr_adj : option float) (x : list (list float)) (Ni : Z)
    : option (ndarray scalar) :=
  let mask_base := seq 0 (length x) in
  let mask := map (fun k => int_of_bool (Z.of_nat k <? Ni)%Z) mask_base in
  adjacency dr_adj x mask.

End PUDataset.

Module METDataset.

(** [METDataset.cone_adj(eta, phi, cone)]: only pairs at distance zero. *)
Definition cone_adj (eta phi : list float) (cone : float) : option ndarray2 :=
  let deta2 := square2 (outer_sub eta) in
  let dphi2 := square2 (outer_sub phi) in
  match add2 deta2 dphi2 with
  | None => None
  | Some dr2 =>
      let cone2 := cone * cone in
      let adj := map (map (fun d => d =? 0)) dr2 in
      Some (BoolMat adj)
  end.

(** [standardize_met] and [unstandardize_met], from [self.mean_met] and
    [self.std_met], on an array of values. *)
Definition standardize_met (mean_met std_met : option float) (met : list float)
    : option (list float) :=
  match mean_met, std_met with
  | Some mean, Some std => Some (map (fun m => (m - mean) / std) met)
  | _, _ => None
  end.

Definition unstandardize_met (mean_met std_met : option float) (met : list float)
    : option (list float) :=
  match mean_met, std_met with
  | Some mean, Some std => Some (map (fun m => (std * m) + mean) met)
  | _, _ => None
  end.


Section ComputeMet.

(** [np.sum(a, axis=-1)] on one row.  numpy adds the entries of a long row
    pairwise, in blocks; the order is left open here. *)
Variable sum : list float -> float.

(** [METDataset._compute_met(px, py)] on two-dimensional arrays: one value
    per row. *)
Definition _compute_met (px py : list (list float)) : option (list float) :=
  let metx := map sum px in
  let mety := map sum py in
  broadcast (fun mx my => Some (sqrt (mx * mx + my * my))) metx mety.

End ComputeMet.

End METDataset.

(** An event with one real particle in two slots, and the same event with a
    NaN in the place of [eta]. *)
Module Example.

Definition x : list (list float) :=
  [[40; 0; 1; 0; 0; 0]; [0; 0; 0; 0; 0; 0]].

Definition x_nan : list (list float) :=
  [[40; nan; 1; 0; 0; 0]; [0; 0; 0; 0; 0; 0]].

Definition dr_adj : float := 0.5.

End Example.

End Float64.

(* ================================================================== *)
(** * Properties *)

Import Np.

(** ** Lists, fallible maps and broadcasting *)

Section MapM.

Context {A B : Type}.

Lemma obind_some (m : option A) (f : A -> option B) (b : B) :
  obind m f = Some b -> exists a, m = Some a /\ f a = Some b.
Proof.
  destruct m as [a|]; simpl; intros H; [exists a; auto | discriminate].
Qed.

Lemma mapM_total (f : A -> option B) (g : A -> B) (l : list A) :
  (forall a, In a l -> f a = Some (g a)) -> mapM f l = Some (map g l).
Proof.
  induction l as [|a l IH]; simpl; intros H; [reflexivity|].
  rewrite (H a (or_introl eq_refl)), IH; auto.
Qed.

Lemma mapM_length (f : A -> option B) (l : list A) (l' : list B) :
  mapM f l = Some l' -> length l' = length l.
Proof.
  revert l'; induction l as [|a l IH]; simpl; intros l' H.
  - injection H as <-; reflexivity.
  - destruct (f a); [|discriminate].
    destruct (mapM f l) eqn:E; [|discriminate].
    injection H as <-; simpl; f_equal; auto.
Qed.

Lemma mapM_nth (f : A -> option B) (l : list A) (l' : list B) (i : nat) (a : A) :
  mapM f l = Some l' -> nth_error l i = Some a ->
  exists b, nth_error l' i = Some b /\ f a = Some b.
Proof.
  revert l' i; induction l as [|a0 l IH]; simpl; intros l' i H Hi.
  - destruct i; discriminate.
  - destruct (f a0) eqn:Ea; [|discriminate].
    destruct (mapM f l) eqn:E; [|discriminate].
    injection H as <-.
    destruct i as [|i]; simpl in *.
    + injection Hi as <-; eauto.
    + eapply IH; eauto.
Qed.

Lemma mapM_nth_inv (f : A -> option B) (l : list A) (l' : list B) (i : nat) (b : B) :
  mapM f l = Some l' -> nth_error l' i = Some b ->
  exists a, nth_error l i = Some a /\ f a = Some b.
Proof.
  revert l' i; induction l as [|a0 l IH]; simpl; intros l' i H Hi.
  - injection H as <-; destruct i; discriminate.
  - destruct (f a0) eqn:Ea; [|discriminate].
    destruct (mapM f l) eqn:E; [|discriminate].
    injection H as <-.
    destruct i as [|i]; simpl in *.
    + injection Hi as <-; eauto.
    + eapply IH; eauto.
Qed.

End MapM.

Section ZipWith.

Context {A B C : Type}.

Lemma nth_error_zip_with (f : A -> B -> C) (a : list A) (b : list B) (i : nat) :
  nth_error (zip_with f a b) i =
  match nth_error a i, nth_error b i with
  | Some x, Some y => Some (f x y)
  | _, _ => None
  end.
Proof.
  unfold zip_with; revert b i; induction a as [|x a IH]; intros b i; simpl.
  - destruct i; reflexivity.
  - destruct b as [|y b]; simpl.
    + destruct i; simpl; [reflexivity|]. destruct (nth_error a i); reflexivity.
    + destruct i; simpl; [reflexivity|]. apply IH.
Qed.

Lemma zip_with_length (f : A -> B -> C) (a : list A) (b : list B) :
  length a = length b -> length (zip_with f a b) = length a.
Proof.
  intros H; unfold zip_with.
  rewrite length_map, length_combine, <- H; apply Nat.min_id.
Qed.

Lemma broadcast_same_length (f : A -> B -> option C) (g : A -> B -> C)
    (a : list A) (b : list B) :
  length a = length b ->
  (forall x y, In (x, y) (combine a b) -> f x y = Some (g x y)) ->
  broadcast f a b = Some (zip_with g a b).
Proof.
  intros Hlen Hf; unfold broadcast.
  rewrite Hlen, Nat.eqb_refl.
  unfold zip_with.
  apply (mapM_total (fun p => f (fst p) (snd p)) (fun p => g (fst p) (snd p))).
  intros [x y] Hin; simpl; auto.
Qed.

End ZipWith.

Lemma entry_map_map {A B : Type} (f : A -> B) (m : list (list A)) (i j : nat) :
  entry (map (map f) m) i j = option_map f (entry m i j).
Proof.
  unfold entry; rewrite nth_error_map.
  destruct (nth_error m i) as [row|]; simpl; [|reflexivity].
  apply nth_error_map.
Qed.

Lemma entry_outer {A B : Type} (g : A -> A -> B) (v : list A) (i j : nat) :
  entry (map (fun a => map (fun b => g a b) v) v) i j =
  match nth_error v i, nth_error v j with
  | Some a, Some b => Some (g a b)
  | _, _ => None
  end.
Proof.
  unfold entry; rewrite nth_error_map.
  destruct (nth_error v i) as [a|]; simpl; [|reflexivity].
  rewrite nth_error_map; destruct (nth_error v j); reflexivity.
Qed.

Lemma entry_zip2 {A B C : Type} (f : A -> B -> C) (a : list (list A))
    (b : list (list B)) (i j : nat) :
  entry (zip_with (zip_with f) a b) i j =
  match entry a i j, entry b i j with
  | Some x, Some y => Some (f x y)
  | _, _ => None
  end.
Proof.
  unfold entry; rewrite nth_error_zip_with.
  destruct (nth_error a i) as [ra|], (nth_error b i) as [rb|]; simpl; try reflexivity.
  - apply nth_error_zip_with.
  - destruct (nth_error ra j); reflexivity.
Qed.

(** ** Comparisons on reals *)

Local Open Scope R_scope.

Lemma Rleb_true_iff (x y : R) : Rleb x y = true <-> x <= y.
Proof.
  unfold Rleb; destruct (Rle_dec x y); split; intros; auto; discriminate.
Qed.

Lemma Reqb_true_iff (x y : R) : Reqb x y = true <-> x = y.
Proof.
  unfold Reqb; destruct (Req_dec_T x y); split; intros; auto; discriminate.
Qed.

Lemma Reqb_false_iff (x y : R) : Reqb x y = false <-> x <> y.
Proof.
  unfold Reqb; destruct (Req_dec_T x y); split; intros; auto;
    try discriminate; contradiction.
Qed.

Lemma Rgtb_true_iff (x y : R) : Rgtb x y = true <-> x > y.
Proof.
  unfold Rgtb; destruct (Rgt_dec x y); split; intros; auto; discriminate.
Qed.

Lemma Rgtb_false_iff (x y : R) : Rgtb x y = false <-> ~ x > y.
Proof.
  unfold Rgtb; destruct (Rgt_dec x y); split; intros; auto;
    try discriminate; contradiction.
Qed.

Lemma truthyR_1 : truthyR 1 = true.
Proof.
  unfold truthyR; destruct (Reqb 1 0) eqn:E; [|reflexivity].
  apply Reqb_true_iff in E; lra.
Qed.

Lemma truthyR_0 : truthyR 0 = false.
Proof.
  unfold truthyR; destruct (Reqb 0 0) eqn:E; [reflexivity|].
  apply Reqb_false_iff in E; lra.
Qed.

(** ** The squared distances of [cone_adj] *)

Lemma entry_eye (n i j : nat) :
  entry (eye n) i j =
  if ((i <? n) && (j <? n))%bool then Some (if Nat.eqb i j then 1 else 0)
  else None.
Proof.
  unfold eye.
  rewrite (entry_outer (fun i j : nat => if Nat.eqb i j then 1 else 0)).
  rewrite !nth_error_seq.
  destruct (i <? n)%nat, (j <? n)%nat; reflexivity.
Qed.

Lemma eye_length (n : nat) : length (eye n) = n.
Proof. unfold eye; rewrite length_map, length_seq; reflexivity. Qed.

Lemma sq_outer_row_length (v row : list R) :
  In row (square2 (outer_sub v)) -> length row = length v.
Proof.
  unfold square2, outer_sub; intros H.
  apply in_map_iff in H as (r & <- & H).
  apply in_map_iff in H as (a & <- & _).
  rewrite !length_map; reflexivity.
Qed.

Lemma sq_outer_length (v : list R) : length (square2 (outer_sub v)) = length v.
Proof. unfold square2, outer_sub; rewrite !length_map; reflexivity. Qed.

Lemma entry_sq_outer (v : list R) (i j : nat) :
  entry (square2 (outer_sub v)) i j =
  match nth_error v i, nth_error v j with
  | Some a, Some b => Some ((a - b) * (a - b))
  | _, _ => None
  end.
Proof.
  unfold square2; rewrite entry_map_map.
  unfold outer_sub; rewrite (entry_outer (fun a b : R => a - b)).
  destruct (nth_error v i), (nth_error v j); reflexivity.
Qed.

(** The sum [deta2 + dphi2] is defined for arrays of one length. *)
Lemma dr2_defined (eta phi : list R) :
  length eta = length phi ->
  add2 (square2 (outer_sub eta)) (square2 (outer_sub phi)) =
  Some (zip_with (zip_with Rplus) (square2 (outer_sub eta))
                 (square2 (outer_sub phi))).
Proof.
  intros Hlen; unfold add2.
  apply broadcast_same_length.
  - rewrite !sq_outer_length; exact Hlen.
  - intros r1 r2 Hin.
    apply broadcast_same_length; [|reflexivity].
    rewrite (sq_outer_row_length _ _ (in_combine_l _ _ _ _ Hin)).
    rewrite (sq_outer_row_length _ _ (in_combine_r _ _ _ _ Hin)).
    exact Hlen.
Qed.

Lemma entry_dr2 (eta phi : list R) (i j : nat) :
  entry (zip_with (zip_with Rplus) (square2 (outer_sub eta))
                  (square2 (outer_sub phi))) i j =
  match nth_error eta i, nth_error eta j, nth_error phi i, nth_error phi j with
  | Some ei, Some ej, Some pi, Some pj =>
      Some ((ei - ej) * (ei - ej) + (pi - pj) * (pi - pj))
  | _, _, _, _ => None
  end.
Proof.
  rewrite entry_zip2, !entry_sq_outer.
  destruct (nth_error eta i), (nth_error eta j),
           (nth_error phi i), (nth_error phi j); reflexivity.
Qed.

(** [cone_adj] with a cone other than zero, on arrays of one length. *)
Lemma cone_adj_nonzero (eta phi : list R) (cone : R) :
  length eta = length phi -> cone <> 0 ->
  PUDataset.cone_adj eta phi cone =
  Some (BoolMat (map (map (fun d => Rleb d (cone * cone)))
                     (zip_with (zip_with Rplus) (square2 (outer_sub eta))
                               (square2 (outer_sub phi))))).
Proof.
  intros Hlen Hc; unfold PUDataset.cone_adj.
  apply Reqb_false_iff in Hc; rewrite Hc.
  rewrite (dr2_defined _ _ Hlen); reflexivity.
Qed.

Lemma cone_adj_zero (eta phi : list R) :
  PUDataset.cone_adj eta phi 0 = Some (FloatMat (eye (length eta))).
Proof.
  unfold PUDataset.cone_adj.
  replace (Reqb 0 0) with true; [reflexivity|].
  symmetry; apply Reqb_true_iff; reflexivity.
Qed.

(** C4: on arrays [eta] and [phi] of one length, [PUDataset.cone_adj] with
    cone 0 returns the identity matrix (1 on the diagonal, 0 elsewhere), and
    with a positive cone the boolean matrix whose entry (i, j) is true
    exactly when [(eta_i - eta_j)^2 + (phi_i - phi_j)^2 <= cone^2]. *)
Theorem cone_adj_spec (eta phi : list R) (cone : R) :
  length eta = length phi ->
  (cone = 0 ->
   exists adj,
     PUDataset.cone_adj eta phi cone = Some (FloatMat adj) /\
     length adj = length eta /\
     forall i j, (i < length eta)%nat -> (j < length eta)%nat ->
       entry adj i j = Some (if Nat.eqb i j then 1 else 0)) /\
  (cone > 0 ->
   exists adj,
     PUDataset.cone_adj eta phi cone = Some (BoolMat adj) /\
     length adj = length eta /\
     forall i j ei ej pi pj,
       nth_error eta i = Some ei -> nth_error eta j = Some ej ->
       nth_error phi i = Some pi -> nth_error phi j = Some pj ->
       exists b, entry adj i j = Some b /\
         (b = true <->
          (ei - ej) * (ei - ej) + (pi - pj) * (pi - pj) <= cone * cone)).
Proof.
  intros Hlen; split.
  - intros ->. exists (eye (length eta)).
    split; [apply cone_adj_zero|]. split; [apply eye_length|].
    intros i j Hi Hj; rewrite entry_eye.
    apply Nat.ltb_lt in Hi, Hj; rewrite Hi, Hj; reflexivity.
  - intros Hc. eexists; split; [apply cone_adj_nonzero; [exact Hlen | lra]|].
    split.
    + rewrite length_map, zip_with_length; rewrite !sq_outer_length; auto.
    + intros i j ei ej pi pj Hei Hej Hpi Hpj.
      rewrite entry_map_map, entry_dr2, Hei, Hej, Hpi, Hpj; simpl.
      eexists; split; [reflexivity|]. apply Rleb_true_iff.
Qed.

(** A run of C4 on three particles, with cone 0 and with cone 2. *)
Lemma cone_adj_spec_witness :
  let eta := [0; 1; 3] in
  let phi := [0; 0; 0] in
  (exists adj,
     PUDataset.cone_adj eta phi 0 = Some (FloatMat adj) /\
     length adj = length eta /\
     forall i j, (i < length eta)%nat -> (j < length eta)%nat ->
       entry adj i j = Some (if Nat.eqb i j then 1 else 0)) /\
  (exists adj,
     PUDataset.cone_adj eta phi 2 = Some (BoolMat adj) /\
     length adj = length eta /\
     forall i j ei ej pi pj,
       nth_error eta i = Some ei -> nth_error eta j = Some ej ->
       nth_error phi i = Some pi -> nth_error phi j = Some pj ->
       exists b, entry adj i j = Some b /\
         (b = true <->
          (ei - ej) * (ei - ej) + (pi - pj) * (pi - pj) <= 2 * 2)).
Proof.
  intros eta phi; split.
  - apply (cone_adj_spec eta phi 0); reflexivity.
  - apply (cone_adj_spec eta phi 2); [reflexivity | lra].
Defined.

(** ** MET standardisation *)

(** C3: over the real numbers, in a dataset with a mean and a nonzero
    standard deviation, [unstandardize_met] undoes [standardize_met] and
    [standardize_met] undoes [unstandardize_met], on every array of
    values. *)
Theorem standardize_unstandardize_inverse
    (self : METDataset.t) (mean std : R) (met : list R) :
  METDataset.mean_met self = Some mean ->
  METDataset.std_met self = Some std ->
  std <> 0 ->
  (exists s, METDataset.standardize_met self met = Some s /\
             METDataset.unstandardize_met self s = Some met) /\
  (exists u, METDataset.unstandardize_met self met = Some u /\
             METDataset.standardize_met self u = Some met).
Proof.
  intros Hm Hs Hnz.
  unfold METDataset.standardize_met, METDataset.unstandardize_met.
  rewrite Hm, Hs; split; eexists; (split; [reflexivity|]);
    f_equal; rewrite map_map; rewrite <- (map_id met) at 2;
    apply map_ext; intros m; field; exact Hnz.
Qed.

(** A run of C3 with mean 50 and standard deviation 20. *)
Lemma standardize_unstandardize_inverse_witness :
  let self := METDataset.Make [] false None 0 (Some 50) (Some 20) 0 in
  (exists s, METDataset.standardize_met self [10; 90] = Some s /\
             METDataset.unstandardize_met self s = Some [10; 90]) /\
  (exists u, METDataset.unstandardize_met self [10; 90] = Some u /\
             METDataset.standardize_met self u = Some [10; 90]).
Proof.
  intros self.
  apply (@standardize_unstandardize_inverse self 50 20 [10; 90]);
    [reflexivity | reflexivity | lra].
Defined.

(** ** What a broadcast returns *)


(** ** The coordinate transform of [METDataset] *)

Lemma column_defined {A : Type} (k : nat) (d : A) (ev : list (list A)) :
  (forall row, In row ev -> (k < length row)%nat) ->
  column k ev = Some (map (fun row => nth k row d) ev).
Proof.
  intros H; unfold column.
  apply mapM_total; intros row Hin.
  apply nth_error_nth'; auto.
Qed.

Lemma plane_defined (k : nat) (x : list (list (list R))) :
  (forall ev row, In ev x -> In row ev -> (k < length row)%nat) ->
  METDataset.plane k x = Some (map (map (fun row => nth k row 0)) x).
Proof.
  intros H; unfold METDataset.plane.
  apply mapM_total; intros ev Hev.
  apply column_defined; intros row Hrow; eapply H; eauto.
Qed.

Lemma entry_In {A : Type} (m : list (list A)) (i j : nat) (a : A) :
  entry m i j = Some a -> exists row, In row m /\ In a row.
Proof.
  unfold entry; destruct (nth_error m i) as [row|] eqn:E; [|discriminate].
  intros H; exists row; split; eapply nth_error_In; eauto.
Qed.

(** C7: on an array whose rows all hold at least the three features
    [pt, eta, phi], [METDataset._transform_x] returns an array of the same
    shape in which every row [pt :: eta :: phi :: rest] has become
    [pt * cos phi :: eta :: pt * sin phi :: rest]. *)
Theorem transform_x_spec (x : list (list (list R))) :
  (forall ev row, In ev x -> In row ev -> (3 <= length row)%nat) ->
  exists x',
    METDataset._transform_x x = Some x' /\
    length x' = length x /\
    (forall e ev, nth_error x e = Some ev ->
       exists ev', nth_error x' e = Some ev' /\ length ev' = length ev) /\
    (forall e j row, entry x e j = Some row ->
       exists pt eta phi rest,
         row = pt :: eta :: phi :: rest /\
         entry x' e j = Some (pt * cos phi :: eta :: pt * sin phi :: rest)).
Proof.
  intros Hwf; unfold METDataset._transform_x.
  rewrite !plane_defined
    by (intros ev row Hev Hrow; specialize (Hwf ev row Hev Hrow); lia).
  simpl; eexists; split; [reflexivity|].
  unfold METDataset.set_plane, METDataset.zip2.
  split; [|split].
  - repeat (rewrite zip_with_length || rewrite length_map); reflexivity.
  - intros e ev He.
    rewrite !nth_error_zip_with, !nth_error_map, He; simpl.
    eexists; split; [reflexivity|].
    repeat (rewrite zip_with_length || rewrite length_map); reflexivity.
  - intros e j row Hrow.
    destruct (entry_In _ _ _ Hrow) as (ev & Hev & Hin).
    specialize (Hwf ev row Hev Hin).
    destruct row as [|pt [|eta [|phi rest]]]; simpl in Hwf; try lia.
    exists pt, eta, phi, rest; split; [reflexivity|].
    rewrite !entry_zip2, !entry_map_map, Hrow; reflexivity.
Qed.

(** A run of C7 on one event with one particle, [pt = 2] and [phi = 0]. *)
Lemma transform_x_spec_witness :
  exists x',
    METDataset._transform_x [[[2; 1; 0; 7]]] = Some x' /\
    length x' = 1%nat /\
    (forall e ev, nth_error [[[2; 1; 0; 7]]] e = Some ev ->
       exists ev', nth_error x' e = Some ev' /\ length ev' = length ev) /\
    (forall e j row, entry [[[2; 1; 0; 7]]] e j = Some row ->
       exists pt eta phi rest,
         row = pt :: eta :: phi :: rest /\
         entry x' e j = Some (pt * cos phi :: eta :: pt * sin phi :: rest)).
Proof.
  apply (transform_x_spec [[[2; 1; 0; 7]]]).
  intros ev row [<-|[]] [<-|[]]; simpl; lia.
Defined.

(** ** Collation *)

Lemma stack_same_shape {A : Type} (a0 : ndarray A) (arrays : list (ndarray A)) :
  nth_error arrays 0 = Some a0 ->
  (forall a, In a arrays -> shape a = shape a0) ->
  stack arrays = Some (Arr arrays).
Proof.
  intros H0 Hs; unfold stack.
  destruct arrays as [|a1 rest]; [discriminate|].
  simpl in H0; injection H0 as ->.
  replace (forallb _ (a0 :: rest)) with true; [reflexivity|].
  symmetry; apply forallb_forall; intros a Ha.
  destruct (list_eq_dec Nat.eq_dec (shape a) (shape a0)) as [|Hne];
    [reflexivity|].
  elim Hne; auto.
Qed.

Lemma stack_shape {A : Type} (arrays : list (ndarray A)) (b : ndarray A) :
  stack arrays = Some b -> b = Arr arrays.
Proof.
  unfold stack; destruct arrays as [|a0 rest]; [discriminate|].
  destruct (forallb _ _); [|discriminate].
  intros H; injection H as <-; reflexivity.
Qed.

(** Looking a key up in the dictionary built by a comprehension over keys. *)
Lemma lookup_comprehension {V : Type} (g : string -> option V)
    (ks : list string) (d : dict V) (k : string) :
  mapM (fun k => obind (g k) (fun a => Some (k, a))) ks = Some d ->
  In k ks ->
  exists a, lookup d k = Some a /\ g k = Some a.
Proof.
  revert d; induction ks as [|k0 ks IH]; intros d H Hin; [destruct Hin|].
  simpl in H.
  destruct (g k0) as [a0|] eqn:E0; simpl in H; [|discriminate].
  destruct (mapM _ ks) as [d'|] eqn:E; [|discriminate].
  injection H as <-; simpl.
  destruct (String.eqb k0 k) eqn:Ek.
  - apply String.eqb_eq in Ek; subst k0; eauto.
  - destruct Hin as [->|Hin]; [rewrite String.eqb_refl in Ek; discriminate|].
    apply IH; auto.
Qed.

Lemma keys_comprehension {V : Type} (g : string -> option V)
    (ks : list string) (d : dict V) :
  mapM (fun k => obind (g k) (fun a => Some (k, a))) ks = Some d ->
  keys d = ks.
Proof.
  revert d; induction ks as [|k0 ks IH]; intros d H; simpl in H.
  - injection H as <-; reflexivity.
  - destruct (g k0) as [a0|]; simpl in H; [|discriminate].
    destruct (mapM _ ks) as [d'|] eqn:E; [|discriminate].
    injection H as <-; unfold keys in *; simpl; f_equal; auto.
Qed.

Lemma mapM_defined {A B : Type} (f : A -> option B) (l : list A) :
  (forall a, In a l -> exists b, f a = Some b) ->
  exists l', mapM f l = Some l'.
Proof.
  induction l as [|a l IH]; simpl; intros H; [eauto|].
  destruct (H a (or_introl eq_refl)) as [b ->].
  destruct IH as [l' ->]; eauto.
Qed.

Lemma mapM_ext {A B : Type} (f f' : A -> option B) (l : list A) :
  (forall a, f a = f' a) -> mapM f l = mapM f' l.
Proof.
  intros H; induction l as [|a l IH]; simpl; [reflexivity|].
  rewrite H, IH; reflexivity.
Qed.

(** The dictionary variant: every key of the first sample is stacked. *)
Lemma collate_dict {A : Type} (samples : list (dict (ndarray A)))
    (s0 : dict (ndarray A)) :
  nth_error samples 0 = Some s0 ->
  (forall s k, In s samples -> In k (keys s0) ->
     exists a a0, lookup s k = Some a /\ lookup s0 k = Some a0 /\
                  shape a = shape a0) ->
  exists batch,
    PUDataset.collate_fn samples = Some batch /\
    keys batch = keys s0 /\
    forall k, In k (keys s0) ->
      exists b, lookup batch k = Some b /\
        (forall j s, nth_error samples j = Some s -> slice0 b j = lookup s k) /\
        (forall j, (length samples <= j)%nat -> slice0 b j = None).
Proof.
  intros H0 Hsh; unfold PUDataset.collate_fn; rewrite H0; simpl.
  set (g := fun k : string =>
              obind (mapM (fun s : dict (ndarray A) => lookup s k) samples)
                    (fun col => stack col)).
  assert (Hg : forall k, In k (keys s0) ->
            g k = Some (Arr (map (fun s => match lookup s k with
                                           | Some a => a
                                           | None => Arr []
                                           end) samples)) /\
            forall s, In s samples -> lookup s k <> None).
  { intros k Hk; unfold g. split.
    - erewrite mapM_total; simpl.
      + destruct (Hsh s0 k (nth_error_In _ _ H0) Hk) as (a0 & a0' & E0 & _ & _).
        apply stack_same_shape with (a0 := a0).
        * destruct samples; [discriminate|]; simpl in *.
          injection H0 as ->; rewrite E0; reflexivity.
        * intros a Ha; apply in_map_iff in Ha as (s & <- & Hs).
          destruct (Hsh s k Hs Hk) as (b & b0 & -> & E0' & Hb).
          rewrite E0 in E0'; injection E0' as <-; exact Hb.
      + intros s Hs; destruct (Hsh s k Hs Hk) as (b & b0 & -> & _); reflexivity.
    - intros s Hs; destruct (Hsh s k Hs Hk) as (b & b0 & -> & _); discriminate. }
  rewrite (mapM_ext _ (fun k => obind (g k) (fun a => Some (k, a))))
    by (intros k; unfold g; destruct (mapM _ samples); reflexivity).
  destruct (@mapM_defined _ _ (fun k => obind (g k) (fun a => Some (k, a)))
                          (keys s0)) as [batch Hb].
  { intros k Hk; destruct (Hg k Hk) as [-> _]; simpl; eauto. }
  exists batch; split; [exact Hb|]. split; [eapply keys_comprehension; eauto|].
  intros k Hk.
  destruct (@lookup_comprehension _ g (keys s0) batch k Hb Hk) as (b & Hl & Hgb).
  destruct (Hg k Hk) as [Hgk Hne]; rewrite Hgk in Hgb; injection Hgb as <-.
  exists (Arr (map (fun s => match lookup s k with
                             | Some a => a | None => Arr [] end) samples)).
  split; [exact Hl|]. split.
  - intros j s Hj; simpl; rewrite nth_error_map, Hj; simpl.
    specialize (Hne s (nth_error_In _ _ Hj)).
    destruct (lookup s k); [reflexivity | contradiction].
  - intros j Hj; simpl; apply nth_error_None; rewrite length_map; exact Hj.
Qed.

(** The tuple variant: every position of the first sample is stacked. *)
Lemma collate_tuple {A : Type} (samples : list (list (ndarray A)))
    (s0 : list (ndarray A)) :
  nth_error samples 0 = Some s0 ->
  (forall s i, In s samples -> (i < length s0)%nat ->
     exists a a0, nth_error s i = Some a /\ nth_error s0 i = Some a0 /\
                  shape a = shape a0) ->
  exists batch,
    METDataset.collate_fn samples = Some batch /\
    length batch = length s0 /\
    forall i, (i < length s0)%nat ->
      exists b, nth_error batch i = Some b /\
        (forall j s, nth_error samples j = Some s -> slice0 b j = nth_error s i) /\
        (forall j, (length samples <= j)%nat -> slice0 b j = None).
Proof.
  intros H0 Hsh; unfold METDataset.collate_fn; rewrite H0; simpl.
  set (G := fun i : nat => Arr (map (fun s : list (ndarray A) =>
                                       nth i s (Arr [])) samples)).
  assert (Hin : forall s i, In s samples -> (i < length s0)%nat ->
                  nth_error s i = Some (nth i s (Arr []))).
  { intros s i Hs Hi; destruct (Hsh s i Hs Hi) as (a & a0 & E & _).
    apply nth_error_nth'; apply nth_error_Some; rewrite E; discriminate. }
  exists (map G (seq 0 (length s0))); split; [|split].
  - apply mapM_total; intros i Hi; apply in_seq in Hi; simpl in Hi.
    rewrite (mapM_total _ (fun s => nth i s (Arr [])))
      by (intros s Hs; apply Hin; [exact Hs | lia]).
    simpl; apply stack_same_shape with (a0 := nth i s0 (Arr [])).
    + destruct samples; [discriminate|]; simpl in *.
      injection H0 as ->; reflexivity.
    + intros a Ha; apply in_map_iff in Ha as (s & <- & Hs).
      destruct (Hsh s i Hs) as (b & b0 & Eb & Eb0 & Hb); [lia|].
      rewrite (nth_error_nth _ _ _ Eb), (nth_error_nth _ _ _ Eb0); exact Hb.
  - rewrite length_map, length_seq; reflexivity.
  - intros i Hi; exists (G i); split; [|split].
    + rewrite nth_error_map, nth_error_seq.
      apply Nat.ltb_lt in Hi; rewrite Hi; reflexivity.
    + intros j s Hj; unfold G; simpl; rewrite nth_error_map, Hj; simpl.
      symmetry; apply Hin; [eapply nth_error_In; eauto | exact Hi].
    + intros j Hj; unfold G; simpl; apply nth_error_None.
      rewrite length_map; exact Hj.
Qed.

(** C6: on a non-empty list of samples that share the keys of the first
    one, with one shape per key, [PUDataset.collate_fn] returns a dictionary
    over those keys whose entry for [k] has exactly the [samples[j][k]] as
    slices along its leading axis; [METDataset.collate_fn] does the same
    for the positions of tuple samples. *)
Theorem collate_fn_spec {A : Type} :
  (forall (samples : list (dict (ndarray A))) (s0 : dict (ndarray A)),
     nth_error samples 0 = Some s0 ->
     (forall s k, In s samples -> In k (keys s0) ->
        exists a a0, lookup s k = Some a /\ lookup s0 k = Some a0 /\
                     shape a = shape a0) ->
     exists batch,
       PUDataset.collate_fn samples = Some batch /\
       keys batch = keys s0 /\
       forall k, In k (keys s0) ->
         exists b, lookup batch k = Some b /\
           (forall j s, nth_error samples j = Some s ->
                        slice0 b j = lookup s k) /\
           (forall j, (length samples <= j)%nat -> slice0 b j = None)) /\
  (forall (samples : list (list (ndarray A))) (s0 : list (ndarray A)),
     nth_error samples 0 = Some s0 ->
     (forall s i, In s samples -> (i < length s0)%nat ->
        exists a a0, nth_error s i = Some a /\ nth_error s0 i = Some a0 /\
                     shape a = shape a0) ->
     exists batch,
       METDataset.collate_fn samples = Some batch /\
       length batch = length s0 /\
       forall i, (i < length s0)%nat ->
         exists b, nth_error batch i = Some b /\
           (forall j s, nth_error samples j = Some s ->
                        slice0 b j = nth_error s i) /\
           (forall j, (length samples <= j)%nat -> slice0 b j = None)).
Proof.
  split; [exact collate_dict | exact collate_tuple].
Qed.

(** A run of C6 on two samples, as dictionaries and as tuples. *)
Lemma collate_fn_spec_witness :
  let d0 : dict (ndarray Z) := [("y"%string, Arr [Item 1%Z; Item 0%Z])] in
  let d1 : dict (ndarray Z) := [("y"%string, Arr [Item 0%Z; Item (-1)%Z])] in
  let t0 : list (ndarray Z) := [Arr [Item 1%Z; Item 0%Z]; Item 7%Z] in
  let t1 : list (ndarray Z) := [Arr [Item 0%Z; Item (-1)%Z]; Item 8%Z] in
  (exists batch,
     PUDataset.collate_fn [d0; d1] = Some batch /\
     keys batch = keys d0 /\
     forall k, In k (keys d0) ->
       exists b, lookup batch k = Some b /\
         (forall j s, nth_error [d0; d1] j = Some s -> slice0 b j = lookup s k) /\
         (forall j, (length [d0; d1] <= j)%nat -> slice0 b j = None)) /\
  (exists batch,
     METDataset.collate_fn [t0; t1] = Some batch /\
     length batch = length t0 /\
     forall i, (i < length t0)%nat ->
       exists b, nth_error batch i = Some b /\
         (forall j s, nth_error [t0; t1] j = Some s ->
                      slice0 b j = nth_error s i) /\
         (forall j, (length [t0; t1] <= j)%nat -> slice0 b j = None)).
Proof.
  intros d0 d1 t0 t1.
  destruct (@collate_fn_spec Z) as [Hd Ht]; split.
  - apply (Hd [d0; d1] d0); [reflexivity|].
    intros s k [<-|[<-|[]]] [<-|[]]; simpl; eauto.
  - apply (Ht [t0; t1] t0); [reflexivity|].
    intros s i [<-|[<-|[]]] Hi; simpl in Hi;
      destruct i as [|[|i]]; simpl; eauto; lia.
Defined.

(** ** Generators *)

Section GenFacts.

Context {Y A : Type}.

Lemma for_each_yielded (l : list A) (body : A -> Gen.t Y unit) (g : Rng.rng)
    (y : Y) :
  In y (Gen.yielded (Gen.for_each l body g)) ->
  exists a g', In a l /\ In y (Gen.yielded (body a g')).
Proof.
  revert g; induction l as [|a l IH]; intros g H; simpl in H; [destruct H|].
  unfold Gen.bind in H.
  destruct (Gen.result (body a g)) eqn:E; simpl in H.
  - apply in_app_or in H as [H|H].
    + exists a, g; split; [left; reflexivity | exact H].
    + destruct (IH _ H) as (a' & g' & Ha & Hy).
      exists a', g'; split; [right; exact Ha | exact Hy].
  - exists a, g; split; [left; reflexivity | exact H].
Qed.

Lemma shuffled_yielded (l : list A) (g : Rng.rng) :
  Gen.yielded (@Gen.shuffled Y A l g) = [].
Proof. unfold Gen.shuffled; destruct (Rng.shuffle l g); reflexivity. Qed.

End GenFacts.

Lemma bind_yielded {Y X X' : Type} (m : Gen.t Y X) (f : X -> Gen.t Y X')
    (g : Rng.rng) (y : Y) :
  In y (Gen.yielded (Gen.bind m f g)) ->
  In y (Gen.yielded (m g)) \/
  exists x, Gen.result (m g) = Some x /\
            In y (Gen.yielded (f x (Gen.state (m g)))).
Proof.
  unfold Gen.bind; destruct (Gen.result (m g)) as [x|] eqn:E; simpl.
  - intros H; apply in_app_or in H as [H|H]; [left; exact H|].
    right; exists x; auto.
  - intros H; left; exact H.
Qed.

(** Every sample a loop over events yields is the sample of one event. *)
Lemma event_loop_yielded {Y : Type} (ev : nat -> option Y) (idx : list nat)
    (g : Rng.rng) (s : Y) :
  In s (Gen.yielded
          (Gen.for_each idx (fun i =>
             Gen.bind (Gen.lift (ev i)) (fun to_yield => Gen.yield to_yield)) g)) ->
  exists i, In i idx /\ ev i = Some s.
Proof.
  intros H; apply for_each_yielded in H as (i & g' & Hi & H).
  exists i; split; [exact Hi|].
  unfold Gen.bind, Gen.lift, Gen.yield in H; simpl in H.
  destruct (ev i) as [s'|]; simpl in H; [|destruct H].
  destruct H as [->|[]]; reflexivity.
Qed.

(** ** What [PUDataset.__iter__] yields *)

(** Every sample of a pass comes from one event of one file of the
    dataset. *)
Lemma PU_iter_yielded (fs : filesystem) (self : PUDataset.t) (g : Rng.rng)
    (s : dict (ndarray scalar)) :
  In s (Gen.yielded (PUDataset.__iter__ fs self g)) ->
  exists files f data i,
    np_load fs f = Some data /\
    PUDataset.event (PUDataset.set_files self files)
      (PUDataset.sliced (PUDataset.set_files self files) data)
      (seq 0 (shape1 (Npz.x (PUDataset.sliced (PUDataset.set_files self files) data))))
      i = Some s.
Proof.
  unfold PUDataset.__iter__; intros H.
  apply bind_yielded in H as [H|(files & _ & H)];
    [rewrite shuffled_yielded in H; destruct H|].
  apply bind_yielded in H as [H|(u & _ & H)]; [|destruct H].
  apply for_each_yielded in H as (f & g' & _ & H).
  unfold PUDataset.file_pass in H.
  apply bind_yielded in H as [H|(data & Hd & H)]; [destruct H|].
  apply bind_yielded in H as [H|(idx & _ & H)];
    [rewrite shuffled_yielded in H; destruct H|].
  apply event_loop_yielded in H as (i & _ & H).
  exists files, f, data, i; split; [exact Hd | exact H].
Qed.

Lemma column_nth {A : Type} (k : nat) (x : list (list A)) (col : list A)
    (j : nat) (c : A) :
  column k x = Some col -> nth_error col j = Some c ->
  exists row, nth_error x j = Some row /\ nth_error row k = Some c.
Proof. unfold column; intros H Hc; eapply mapM_nth_inv; eauto. Qed.

(** The frame of the charged-particle masking: [y] and [orig_y] differ only
    where the charge is not zero, and only when [mask_charged] is set. *)
Lemma labels_frame (self : PUDataset.t) (x : list (list R)) (Yi mask y orig_y : list Z) :
  PUDataset.labels self x Yi mask = Some (y, orig_y) ->
  length y = length orig_y /\
  forall j, nth_error y j <> nth_error orig_y j ->
    PUDataset.mask_charged self = true /\
    exists row c, nth_error x j = Some row /\ nth_error row 5 = Some c /\ c <> 0.
Proof.
  unfold PUDataset.labels; intros H.
  apply obind_some in H as (y0 & _ & H).
  apply obind_some in H as (y1 & Hy1 & H).
  injection H as <- <-.
  destruct (PUDataset.mask_charged self); [|injection Hy1 as <-; split; congruence].
  apply obind_some in Hy1 as (x5 & Hx5 & Hy1).
  unfold put_mask in Hy1.
  destruct (Nat.eqb _ _) eqn:El; [|discriminate].
  apply Nat.eqb_eq in El; injection Hy1 as <-.
  split; [apply zip_with_length; auto|].
  intros j Hj; split; [reflexivity|].
  rewrite nth_error_zip_with, nth_error_map in Hj.
  destruct (nth_error y0 j) as [a|] eqn:Ea.
  - destruct (nth_error x5 j) as [c|] eqn:Ec; simpl in Hj.
    + destruct (column_nth _ _ _ Hx5 Ec) as (row & Hr & Hc).
      exists row, c; repeat split; auto.
      intros ->. replace (Reqb 0 0) with true in Hj; [simpl in Hj; congruence|].
      symmetry; apply Reqb_true_iff; reflexivity.
    + apply nth_error_None in Ec.
      assert (j < length y0)%nat by (apply nth_error_Some; congruence).
      rewrite length_map in El; lia.
  - congruence.
Qed.

(** The entries of a yielded dictionary, in terms of the event. *)
Lemma PU_event_fields (self : PUDataset.t) (d : Npz.t) (mask_base : list nat)
    (i : nat) (s : dict (ndarray scalar)) :
  PUDataset.event self d mask_base i = Some s ->
  exists Ni x Yi y orig_y adj_mask,
    let mask := map (fun k => int_of_bool (Z.of_nat k <? Ni)%Z) mask_base in
    nth_error (Npz.N d) i = Some Ni /\
    nth_error (Npz.x d) i = Some x /\
    nth_error (Npz.y d) i = Some Yi /\
    PUDataset.adjacency self x mask = Some adj_mask /\
    PUDataset.labels self x Yi mask = Some (y, orig_y) /\
    lookup s "x" = Some (of_matR x) /\
    lookup s "y" = Some (of_vecZ y) /\
    lookup s "adj_mask" = Some adj_mask /\
    lookup s "orig_y" = Some (of_vecZ orig_y) /\
    lookup s "mask" = Some (of_vecZ mask).
Proof.
  unfold PUDataset.event; intros H.
  apply obind_some in H as (Ni & HN & H).
  apply obind_some in H as (x & Hx & H).
  apply obind_some in H as (adj_mask & Hadj & H).
  apply obind_some in H as (Yi & HY & H).
  apply obind_some in H as ([y orig_y] & Hl & H).
  repeat (apply obind_some in H as (? & _ & H)).
  injection H as <-.
  exists Ni, x, Yi, y, orig_y, adj_mask; simpl.
  repeat split; assumption.
Qed.

(** C9: in every sample yielded by [PUDataset.__iter__], ['y'] and
    ['orig_y'] agree at every particle whose charge feature [x[:, 5]] is
    zero; they differ only at charged particles, and only when
    [mask_charged] is set. *)
Theorem y_orig_y_frame (fs : filesystem) (self : PUDataset.t) (g : Rng.rng)
    (s : dict (ndarray scalar)) :
  In s (Gen.yielded (PUDataset.__iter__ fs self g)) ->
  exists x y orig_y,
    lookup s "x" = Some (of_matR x) /\
    lookup s "y" = Some (of_vecZ y) /\
    lookup s "orig_y" = Some (of_vecZ orig_y) /\
    length y = length orig_y /\
    (forall j row, nth_error x j = Some row -> nth_error row 5 = Some 0 ->
       nth_error y j = nth_error orig_y j) /\
    (forall j, nth_error y j <> nth_error orig_y j ->
       PUDataset.mask_charged self = true /\
       exists row c, nth_error x j = Some row /\ nth_error row 5 = Some c /\
                     c <> 0).
Proof.
  intros H.
  apply PU_iter_yielded in H as (files & f & data & i & _ & H).
  apply PU_event_fields in H
    as (Ni & x & Yi & y & orig_y & adj & _ & _ & _ & _ & Hl & Hx & Hy & _ & Ho & _).
  apply labels_frame in Hl as [Hlen Hdiff].
  exists x, y, orig_y; repeat split; try assumption.
  - intros j row Hr Hc.
    assert (Hdec : {nth_error y j = nth_error orig_y j} +
                   {nth_error y j <> nth_error orig_y j})
      by (repeat decide equality).
    destruct Hdec as [E|Hne]; [exact E|].
      destruct (Hdiff j Hne) as (_ & row' & c & Hr' & Hc' & Hnz).
      rewrite Hr in Hr'; injection Hr' as <-.
      rewrite Hc in Hc'; injection Hc' as <-.
      elim Hnz; reflexivity.
  - apply (Hdiff j); assumption.
  - apply (Hdiff j); assumption.
Qed.

(** ** The example data set, run *)

Lemma Rgtb_10_100 : Rgtb 10 100 = false.
Proof. apply Rgtb_false_iff; lra. Qed.

Lemma Rgtb_20_100 : Rgtb 20 100 = false.
Proof. apply Rgtb_false_iff; lra. Qed.

(** The dataset [PUDataset(config)] over the example files. *)
Lemma Example_init :
  Gen.result (@PUDataset.__init__ unit Example.fs Example.config []) =
  Some (PUDataset.Make ["data/a.npz"%string] (Some 10%Z) false (Some 4%Z) None
                       (Some 100) 0).
Proof.
  cbv -[Rgtb IZR].
  rewrite Rgtb_10_100, Rgtb_20_100.
  reflexivity.
Qed.

(** C1, on the example: the threshold [min_met] is applied by the count of
    [_get_len] and not by the pass of [__iter__]; the dataset has length 0
    and a full pass yields two samples. *)
Theorem len_differs_from_pass :
  exists self,
    Gen.result (@PUDataset.__init__ unit Example.fs Example.config []) = Some self /\
    PUDataset.__len__ self = 0%nat /\
    (exists self', Gen.result (PUDataset.__iter__ Example.fs self []) = Some self') /\
    length (Gen.yielded (PUDataset.__iter__ Example.fs self [])) = 2%nat.
Proof.
  eexists; split; [apply Example_init|].
  split; [reflexivity|].
  split; [eexists|]; vm_compute; reflexivity.
Qed.

(** C2, on the example: [mask] is an array of ints, so [y[~mask] = -1]
    writes at the positions -2 and -1.  The event with one real particle
    keeps the label 0 at the padded position 1, and the event with four
    real particles, none of them charged, loses the label 1 at position 2. *)
Theorem label_masking_by_position :
  let self := PUDataset.Make ["data/a.npz"%string] (Some 10%Z) false (Some 4%Z)
                             None (Some 100) 0 in
  map (fun s => (lookup s "mask", lookup s "y", lookup s "orig_y"))
      (Gen.yielded (PUDataset.__iter__ Example.fs self [])) =
  [ (Some (of_vecZ [1; 1; 1; 1]%Z), Some (of_vecZ [1; 0; -1; 0]%Z),
     Some (of_vecZ [1; 0; -1; 0]%Z));
    (Some (of_vecZ [1; 0; 0; 0]%Z), Some (of_vecZ [1; 0; -1; -1]%Z),
     Some (of_vecZ [1; 0; -1; -1]%Z)) ].
Proof. vm_compute; reflexivity. Qed.

(** A run of C9 on the example, with [mask_charged] on. *)
Lemma y_orig_y_frame_witness :
  let self := PUDataset.Make ["data/a.npz"%string] (Some 10%Z) true (Some 4%Z)
                             None None 2 in
  exists s x y orig_y,
    nth_error (Gen.yielded (PUDataset.__iter__ Example.fs self [])) 0 = Some s /\
    lookup s "x" = Some (of_matR x) /\
    lookup s "y" = Some (of_vecZ y) /\
    lookup s "orig_y" = Some (of_vecZ orig_y) /\
    length y = length orig_y /\
    (forall j row, nth_error x j = Some row -> nth_error row 5 = Some 0 ->
       nth_error y j = nth_error orig_y j) /\
    (forall j, nth_error y j <> nth_error orig_y j ->
       PUDataset.mask_charged self = true /\
       exists row c, nth_error x j = Some row /\ nth_error row 5 = Some c /\
                     c <> 0).
Proof.
  intros self.
  assert (Hy : exists s,
    nth_error (Gen.yielded (PUDataset.__iter__ Example.fs self [])) 0 = Some s).
  { cbv -[Reqb IZR]; eexists; reflexivity. }
  destruct Hy as [s Hs].
  destruct (@y_orig_y_frame Example.fs self [] s (nth_error_In _ _ Hs))
    as (x & y & orig_y & H).
  exists s, x, y, orig_y; split; [exact Hs | exact H].
Defined.

(** ** Adjacency masks *)

Lemma truth_at_entry (a : ndarray2) (i j : nat) :
  truth_at a i j = entry (truth2 a) i j.
Proof. destruct a; simpl; [symmetry; apply entry_map_map | reflexivity]. Qed.

Lemma eye_row_length (n : nat) (row : list R) :
  In row (eye n) -> length row = n.
Proof.
  unfold eye; intros H; apply in_map_iff in H as (i & <- & _).
  rewrite length_map, length_seq; reflexivity.
Qed.

(** The truth values of [np.eye(n)]: a square array with a true diagonal and
    nothing else. *)
Lemma eye_truth (n : nat) :
  length (truth2 (FloatMat (eye n))) = n /\
  (forall row, In row (truth2 (FloatMat (eye n))) -> length row = n) /\
  (forall i, (i < n)%nat -> entry (truth2 (FloatMat (eye n))) i i = Some true).
Proof.
  simpl; split; [rewrite length_map; apply eye_length|]. split.
  - intros row H; apply in_map_iff in H as (r & <- & Hr).
    rewrite length_map; apply eye_row_length; exact Hr.
  - intros i Hi; rewrite entry_map_map, entry_eye.
    apply Nat.ltb_lt in Hi; rewrite Hi, Nat.eqb_refl; simpl.
    rewrite truthyR_1; reflexivity.
Qed.

(** The truth values of [cone_adj] on arrays of one length: a square
    array. *)
Lemma cone_adj_shape (eta phi : list R) (cone : R) :
  length eta = length phi ->
  exists adj,
    PUDataset.cone_adj eta phi cone = Some adj /\
    length (truth2 adj) = length eta /\
    (forall row, In row (truth2 adj) -> length row = length eta).
Proof.
  intros Hlen.
  destruct (Req_dec_T cone 0) as [->|Hc].
  - eexists; split; [apply cone_adj_zero|].
    destruct (eye_truth (length eta)) as (H1 & H2 & _); auto.
  - eexists; split; [apply cone_adj_nonzero; assumption|]. simpl.
    split.
    + rewrite length_map, zip_with_length; rewrite !sq_outer_length; auto.
    + intros row H; apply in_map_iff in H as (r & <- & Hr).
      rewrite length_map.
      unfold zip_with at 1 in Hr; apply in_map_iff in Hr as ([r1 r2] & <- & Hr).
      cbn [fst snd]; rewrite zip_with_length.
      * eapply sq_outer_row_length, in_combine_l; eauto.
      * rewrite (sq_outer_row_length _ _ (in_combine_l _ _ _ _ Hr)).
        rewrite (sq_outer_row_length _ _ (in_combine_r _ _ _ _ Hr)).
        exact Hlen.
Qed.

Lemma entry_outer_and (v : list bool) (i j : nat) :
  entry (outer_and v) i j =
  match nth_error v i, nth_error v j with
  | Some a, Some b => Some (a && b)
  | _, _ => None
  end.
Proof. unfold outer_and; apply (entry_outer andb). Qed.

Lemma outer_and_row_length (v row : list bool) :
  In row (outer_and v) -> length row = length v.
Proof.
  unfold outer_and; intros H; apply in_map_iff in H as (a & <- & _).
  apply length_map.
Qed.

(** The adjacency mask of a square truth array [adj] with a true diagonal,
    and-ed with the outer product of the particle mask [k < Ni]: an entry is
    1 only between particles below [Ni], and the diagonal below [Ni] is 1. *)
Lemma masked_adjacency (adj : list (list bool)) (n : nat) (Ni : Z)
    (adj_mask : list (list bool)) :
  length adj = n ->
  (forall row, In row adj -> length row = n) ->
  (forall i, (i < n)%nat -> entry adj i i = Some true) ->
  logical_and2 adj (outer_and (map (fun k => (Z.of_nat k <? Ni)%Z) (seq 0 n)))
    = Some adj_mask ->
  let am := map (map int_of_bool) adj_mask in
  (forall i j, entry am i j = Some 1%Z ->
     (Z.of_nat i < Ni)%Z /\ (Z.of_nat j < Ni)%Z) /\
  (forall i, (i < n)%nat -> (Z.of_nat i < Ni)%Z -> entry am i i = Some 1%Z).
Proof.
  intros Hn Hrows Hdiag H.
  set (mask := map (fun k => (Z.of_nat k <? Ni)%Z) (seq 0 n)) in *.
  assert (Hm : forall i, nth_error mask i =
                 if (i <? n)%nat then Some (Z.of_nat i <? Ni)%Z else None).
  { intros i; unfold mask; rewrite nth_error_map, nth_error_seq.
    destruct (i <? n)%nat; reflexivity. }
  assert (Hml : length mask = n)
    by (unfold mask; rewrite length_map, length_seq; reflexivity).
  unfold logical_and2 in H.
  rewrite (broadcast_same_length _ (zip_with andb)) in H.
  - injection H as <-; intros am; unfold am; split.
    + intros i j E.
      rewrite entry_map_map, entry_zip2, entry_outer_and, !Hm in E.
      destruct (entry adj i j) as [a|]; [|discriminate].
      destruct (i <? n)%nat; [|discriminate].
      destruct (j <? n)%nat; [|discriminate].
      simpl in E.
      destruct a, (Z.of_nat i <? Ni)%Z eqn:Ei, (Z.of_nat j <? Ni)%Z eqn:Ej;
        simpl in E; try discriminate.
      split; apply Z.ltb_lt; assumption.
    + intros i Hi HNi.
      rewrite entry_map_map, entry_zip2, entry_outer_and, !Hm, (Hdiag i Hi).
      apply Nat.ltb_lt in Hi; rewrite Hi.
      apply Z.ltb_lt in HNi; rewrite HNi; reflexivity.
  - unfold outer_and; rewrite length_map; congruence.
  - intros r1 r2 Hin.
    apply broadcast_same_length; [|reflexivity].
    rewrite (Hrows _ (in_combine_l _ _ _ _ Hin)).
    rewrite (outer_and_row_length _ _ (in_combine_r _ _ _ _ Hin)).
    congruence.
Qed.

Lemma truthyZ_int_of_bool (b : bool) : truthyZ (int_of_bool b) = b.
Proof. destruct b; reflexivity. Qed.

(** The adjacency entry of a [METDataset] event with [dr_adj] configured. *)
Lemma MET_adjacency_spec (self : METDataset.t) (dr : R) (x : list (list R))
    (Ni : Z) (adj_mask : ndarray scalar) :
  METDataset.dr_adj self = Some dr ->
  METDataset.adjacency self x
    (map (fun k => (Z.of_nat k <? Ni)%Z) (seq 0 (length x))) = Some adj_mask ->
  exists am,
    adj_mask = of_matZ am /\
    (forall i j, entry am i j = Some 1%Z ->
       (Z.of_nat i < Ni)%Z /\ (Z.of_nat j < Ni)%Z) /\
    (forall i, (i < length x)%nat -> (Z.of_nat i < Ni)%Z ->
       entry am i i = Some 1%Z).
Proof.
  intros Hdr H; unfold METDataset.adjacency in H; rewrite Hdr in H.
  apply obind_some in H as (m & Hm & H).
  injection H as <-.
  destruct (eye_truth (length x)) as (Hl & Hrows & Hdiag).
  exists (map (map int_of_bool) m); split; [reflexivity|].
  exact (masked_adjacency _ _ Hl Hrows Hdiag Hm).
Qed.

(** ** Shapes through the slices and the coordinate transform *)

Lemma shape1_nth {A : Type} (X : list (list A)) :
  shape1 X = match nth_error X 0 with Some r => length r | None => 0%nat end.
Proof. destruct X; reflexivity. Qed.

Lemma slice_to_length {A : Type} (stop : option Z) (a b : list A) :
  length a = length b -> length (slice_to stop a) = length (slice_to stop b).
Proof.
  intros H; unfold slice_to; destruct stop as [k|]; [|exact H].
  destruct (k <? 0)%Z; rewrite !length_firstn, H; reflexivity.
Qed.

Lemma rectangular_slice {A : Type} (stop : option Z) (X : list (list A)) :
  rectangular X -> rectangular (map (slice_to stop) X).
Proof.
  intros H row Hin; apply in_map_iff in Hin as (r & <- & Hr).
  destruct X as [|r0 X]; [destruct Hr|]; simpl.
  apply slice_to_length; apply (H r Hr).
Qed.

Lemma rectangular_row {A : Type} (X : list (list A)) (i : nat) (x : list A) :
  rectangular X -> nth_error X i = Some x -> length x = shape1 X.
Proof. intros H Hx; apply H; eapply nth_error_In; eauto. Qed.

Lemma same_rows_refl {A : Type} (x : list (list A)) : same_rows x x.
Proof. unfold same_rows; induction x; constructor; auto. Qed.

Lemma same_rows_rectangular {A B : Type} (x : list (list A)) (x' : list (list B)) :
  same_rows x x' -> rectangular x -> rectangular x'.
Proof.
  unfold same_rows.
  intros H; destruct H as [|r r' x x' Hr Hx]; intros Hrect row Hin;
    [destruct Hin|]. simpl.
  destruct Hin as [<-|Hin]; [reflexivity|].
  apply In_nth_error in Hin as [i Hi].
  destruct (nth_error x i) as [a|] eqn:Ea.
  - assert (Hlen : length row = length a).
    { clear - Hx Ea Hi. revert i Ea Hi.
      induction Hx as [|u u' v v' Hu Hv IH]; intros [|i] Ea Hi; simpl in *;
        try discriminate.
      - injection Ea as <-; injection Hi as <-; exact Hu.
      - eapply IH; eauto. }
    rewrite Hlen, Hr.
    rewrite (Hrect a (or_intror (nth_error_In _ _ Ea))).
    rewrite (Hrect r (or_introl eq_refl)); reflexivity.
  - apply nth_error_None in Ea.
    assert (i < length x')%nat by (apply nth_error_Some; congruence).
    rewrite (Forall2_length Hx) in Ea; lia.
Qed.

Lemma mapM_Forall2 {A B : Type} (f : A -> option B) (l : list A) (l' : list B) :
  mapM f l = Some l' -> Forall2 (fun a b => f a = Some b) l l'.
Proof.
  revert l'; induction l as [|a l IH]; simpl; intros l' H.
  - injection H as <-; constructor.
  - destruct (f a) eqn:Ea; [|discriminate].
    destruct (mapM f l) eqn:E; [|discriminate].
    injection H as <-; constructor; auto.
Qed.

Lemma plane_same_rows (k : nat) (x : list (list (list R))) (pl : list (list R)) :
  METDataset.plane k x = Some pl -> same_rows x pl.
Proof.
  intros H; apply mapM_Forall2 in H.
  unfold same_rows; eapply Forall2_impl; [|exact H].
  intros ev r Hc; eapply mapM_length; exact Hc.
Qed.

Lemma zip2_same_rows {A B C D : Type} (f : B -> C -> D) (x : list (list A))
    (a : list (list B)) (b : list (list C)) :
  same_rows x a -> same_rows x b -> same_rows x (zip_with (zip_with f) a b).
Proof.
  unfold same_rows.
  intros Ha; revert b; induction Ha as [|r ra x a Hr Hx IH]; intros b Hb;
    inversion Hb; subst; [constructor|].
  constructor; [|apply IH; assumption].
  rewrite zip_with_length; [exact Hr | simpl; congruence].
Qed.

Lemma map_map_same_rows {A B C : Type} (f : B -> C) (x : list (list A))
    (a : list (list B)) :
  same_rows x a -> same_rows x (map (map f) a).
Proof.
  unfold same_rows; intros H; induction H; simpl; constructor; auto.
  rewrite length_map; assumption.
Qed.

(** [_transform_x] keeps the shape of the particle axis. *)
Lemma transform_x_same_rows (x x' : list (list (list R))) :
  METDataset._transform_x x = Some x' -> same_rows x x'.
Proof.
  unfold METDataset._transform_x; intros H.
  apply obind_some in H as (pt & Hpt & H).
  apply obind_some in H as (eta & _ & H).
  apply obind_some in H as (phi & Hphi & H).
  injection H as <-.
  apply plane_same_rows in Hpt, Hphi.
  unfold METDataset.set_plane, METDataset.zip2.
  repeat (apply zip2_same_rows || apply same_rows_refl
          || apply map_map_same_rows || assumption).
Qed.

(** ** What [METDataset.__iter__] yields *)

Lemma MET_event_fields (self : METDataset.t) (X : list (list (list R)))
    (N : list Z) (genmet calcmet pfmet : list R) (mask_base : list nat)
    (i : nat) (s : list (ndarray scalar)) :
  METDataset.event self X N genmet calcmet pfmet mask_base i = Some s ->
  exists Ni x adj_mask,
    nth_error N i = Some Ni /\
    nth_error X i = Some x /\
    METDataset.adjacency self x
      (map (fun k => (Z.of_nat k <? Ni)%Z) mask_base) = Some adj_mask /\
    nth_error s 0 = Some (of_matR x) /\
    nth_error s 1 = Some adj_mask.
Proof.
  unfold METDataset.event; intros H.
  apply obind_some in H as (Ni & HN & H).
  apply obind_some in H as (x & Hx & H).
  apply obind_some in H as (adj_mask & Hadj & H).
  exists Ni, x, adj_mask.
  destruct ((METDataset.training_mode self =? 0)%Z
            || (METDataset.training_mode self =? 1)%Z)%bool;
    apply obind_some in H as (m & _ & H);
    apply obind_some in H as (pf & _ & H);
    injection H as <-; repeat split; assumption.
Qed.

Lemma Example_rectangular (f : string) (data : Npz.t) :
  np_load Example.fs f = Some data -> rectangular (Npz.x data).
Proof.
  simpl; destruct (String.eqb f "data/a.npz"); [|discriminate].
  intros H; injection H as <-.
  intros row [<-|[<-|[]]]; reflexivity.
Qed.

Lemma Reqb_cone : Reqb (4 / 10) 0 = false.
Proof. apply Reqb_false_iff; lra. Qed.

(** ** The shuffle is a permutation *)

Lemma set_nth_length {A : Type} (k : nat) (v : A) (l : list A) :
  length (set_nth k v l) = length l.
Proof.
  revert k; induction l as [|x l IH]; intros [|k]; simpl; auto.
Qed.

Lemma nth_error_set_nth {A : Type} (k : nat) (v : A) (l : list A) (n : nat) :
  nth_error (set_nth k v l) n =
  if Nat.eqb n k then (if (k <? length l)%nat then Some v else None)
  else nth_error l n.
Proof.
  revert k n; induction l as [|x l IH]; intros k n; simpl.
  - destruct k, n; simpl; try reflexivity.
    destruct (Nat.eqb n k); reflexivity.
  - destruct k as [|k], n as [|n]; simpl; try reflexivity.
    rewrite IH; reflexivity.
Qed.

Lemma swap_Permutation {A : Type} (l : list A) (i j : nat) :
  Permutation l (Rng.swap l i j).
Proof.
  unfold Rng.swap.
  destruct (nth_error l i) as [a|] eqn:Ei; [|reflexivity].
  destruct (nth_error l j) as [b|] eqn:Ej; [|reflexivity].
  assert (Hi : (i < length l)%nat) by (apply nth_error_Some; congruence).
  assert (Hj : (j < length l)%nat) by (apply nth_error_Some; congruence).
  apply Permutation_nth_error; split.
  - rewrite !set_nth_length; reflexivity.
  - exists (fun n => if Nat.eqb n j then i else if Nat.eqb n i then j else n).
    split.
    + intros n m H.
      destruct (Nat.eqb_spec n j), (Nat.eqb_spec m j),
               (Nat.eqb_spec n i), (Nat.eqb_spec m i); subst; congruence.
    + intros n; rewrite !nth_error_set_nth, set_nth_length.
      apply Nat.ltb_lt in Hi, Hj; rewrite Hi, Hj.
      destruct (Nat.eqb n j); [congruence|].
      destruct (Nat.eqb n i); congruence.
Qed.

Lemma shuffle_from_Permutation {A : Type} (i : nat) (l : list A) (g : Rng.rng) :
  Permutation l (fst (Rng.shuffle_from i l g)).
Proof.
  revert l g; induction i as [|i IH]; intros l g; simpl; [reflexivity|].
  destruct (Rng.random_interval (S i) g) as [j g'].
  etransitivity; [apply (swap_Permutation l (S i) j) | apply IH].
Qed.

Lemma shuffle_Permutation {A : Type} (l : list A) (g : Rng.rng) :
  Permutation l (fst (Rng.shuffle l g)).
Proof. apply shuffle_from_Permutation. Qed.

Lemma shuffled_run {Y A : Type} (l : list A) (g : Rng.rng) :
  @Gen.shuffled Y A l g =
  Gen.Run [] (Some (fst (Rng.shuffle l g))) (snd (Rng.shuffle l g)).
Proof. unfold Gen.shuffled; destruct (Rng.shuffle l g); reflexivity. Qed.

(** ** Counting the samples of a pass *)

Lemma bind_result {Y X X' : Type} (m : Gen.t Y X) (f : X -> Gen.t Y X')
    (g : Rng.rng) (x' : X') :
  Gen.result (Gen.bind m f g) = Some x' ->
  exists x, Gen.result (m g) = Some x /\
            Gen.result (f x (Gen.state (m g))) = Some x' /\
            Gen.yielded (Gen.bind m f g) =
            Gen.yielded (m g) ++ Gen.yielded (f x (Gen.state (m g))).
Proof.
  unfold Gen.bind; destruct (Gen.result (m g)) as [x|]; simpl;
    [|discriminate].
  intros H; exists x; auto.
Qed.

(** A loop that completes yields what its bodies yield. *)
Lemma for_each_count {Y A : Type} (body : A -> Gen.t Y unit) (c : A -> nat)
    (l : list A) :
  (forall a g, In a l -> Gen.result (body a g) = Some tt ->
     length (Gen.yielded (body a g)) = c a) ->
  forall g, Gen.result (Gen.for_each l body g) = Some tt ->
    length (Gen.yielded (Gen.for_each l body g)) = list_sum (map c l).
Proof.
  induction l as [|a l IH]; intros Hc g H; simpl in *; [reflexivity|].
  apply bind_result in H as ([] & Ha & Hl & ->).
  rewrite length_app, (Hc a g (or_introl eq_refl) Ha).
  rewrite IH; auto.
Qed.

(** The count of [_get_len] without a threshold: the events of the files. *)
Lemma fold_count {Y : Type} (fs : filesystem) (files : list string) :
  forall (acc : nat) (g : Rng.rng) (n : nat),
  Gen.result
    (Gen.fold_each (Y := Y) files
       (fun n_tot f =>
          Gen.bind (Gen.lift (np_load fs f)) (fun data =>
          Gen.bind (Gen.lift (bool_index (Npz.N data)
                                (map (fun _ => true) (Npz.N data)))) (fun sel =>
          Gen.ret (n_tot + length sel)%nat))) acc g) = Some n ->
  n = (acc + list_sum (map (fun f => match np_load fs f with
                                     | Some data => length (Npz.N data)
                                     | None => 0
                                     end) files))%nat.
Proof.
  induction files as [|f files IH]; intros acc g n H; simpl in H.
  - injection H as <-; simpl; lia.
  - apply bind_result in H as (acc' & Hb & H & _).
    apply IH in H; subst n; simpl.
    unfold Gen.bind, Gen.lift in Hb; simpl in Hb.
    destruct (np_load fs f) as [data|]; simpl in Hb; [|discriminate].
    unfold bool_index in Hb; rewrite length_map, Nat.eqb_refl in Hb.
    simpl in Hb; injection Hb as <-.
    assert (E : length (map fst (filter (fun p : Z * bool => snd p)
                  (combine (Npz.N data) (map (fun _ => true) (Npz.N data)))))
                = length (Npz.N data)).
    { generalize (Npz.N data) as N; induction N; simpl; auto. }
    rewrite E; lia.
Qed.

Lemma list_sum_ones {A : Type} (l : list A) :
  list_sum (map (fun _ => 1%nat) l) = length l.
Proof. induction l; simpl; auto. Qed.

(** The events a file holds, by its array ['N']. *)
Lemma PU_file_pass_count (fs : filesystem) (self : PUDataset.t) (f : string)
    (g : Rng.rng) :
  (forall data, np_load fs f = Some data ->
     length (Npz.x data) = length (Npz.N data)) ->
  Gen.result (PUDataset.file_pass fs self f g) = Some tt ->
  length (Gen.yielded (PUDataset.file_pass fs self f g)) =
  match np_load fs f with
  | Some data => length (Npz.N data)
  | None => 0%nat
  end.
Proof.
  intros Hwf H; unfold PUDataset.file_pass in *.
  apply bind_result in H as (data & Hd & H & ->).
  unfold Gen.lift in Hd; simpl in *.
  rewrite Hd, <- (Hwf data Hd).
  apply bind_result in H as (idx & Hidx & H & ->).
  rewrite shuffled_run in *; simpl in *.
  injection Hidx as <-.
  rewrite (for_each_count _ (fun _ => 1%nat)); [|clear H|exact H].
  - rewrite list_sum_ones.
    rewrite <- (Permutation_length (shuffle_Permutation _ _)).
    rewrite length_seq, length_map; reflexivity.
  - intros i g' _ Hi.
    apply bind_result in Hi as (s & Hs & _ & ->).
    reflexivity.
Qed.

(** A pass over all files that completes yields one sample per event. *)
Lemma PU_iter_count (fs : filesystem) (self self' : PUDataset.t) (g : Rng.rng) :
  PUDataset.num_max_files self = None ->
  (forall f data, np_load fs f = Some data ->
     length (Npz.x data) = length (Npz.N data)) ->
  Gen.result (PUDataset.__iter__ fs self g) = Some self' ->
  length (Gen.yielded (PUDataset.__iter__ fs self g)) =
  list_sum (map (fun f => match np_load fs f with
                          | Some data => length (Npz.N data)
                          | None => 0%nat
                          end) (PUDataset._files self)).
Proof.
  intros Hall Hwf H; unfold PUDataset.__iter__ in *.
  apply bind_result in H as (files & Hf & H & ->).
  rewrite shuffled_run in *; simpl in *; injection Hf as <-.
  apply bind_result in H as ([] & Hloop & _ & ->).
  rewrite Hall in *; simpl in *.
  rewrite length_app, Nat.add_0_r.
  etransitivity.
  { apply for_each_count
      with (c := fun f => match np_load fs f with
                          | Some data => length (Npz.N data)
                          | None => 0%nat
                          end); [|exact Hloop].
    intros f g' _ Hf; apply PU_file_pass_count; [apply Hwf | exact Hf]. }
  apply Permutation_list_sum, Permutation_map, Permutation_sym,
        shuffle_Permutation.
Qed.

(** Without a threshold and over all files, [_get_len] counts the events of
    the files. *)
Lemma PU_get_len_count (fs : filesystem) (self self1 : PUDataset.t)
    (g : Rng.rng) (n : nat) :
  PUDataset.min_met self = None ->
  PUDataset.num_max_files self = None ->
  Gen.result (@PUDataset._get_len unit fs self g) = Some (self1, n) ->
  self1 = PUDataset.set_files self (PUDataset._files self1) /\
  n = list_sum (map (fun f => match np_load fs f with
                              | Some data => length (Npz.N data)
                              | None => 0%nat
                              end) (PUDataset._files self1)).
Proof.
  intros Hmet Hall H; unfold PUDataset._get_len in H.
  apply bind_result in H as (files & Hf & H & _).
  rewrite shuffled_run in *; simpl in *; injection Hf as <-.
  apply bind_result in H as (n' & Hn & H & _).
  injection H as <- <-; simpl; split; [reflexivity|].
  rewrite Hmet, Hall in Hn; simpl in Hn.
  apply fold_count in Hn; exact Hn.
Qed.

(** Where the count and the pass do agree: no threshold, all files, and
    files with as many particle arrays as particle counts. *)
Lemma pass_matches_len_unfiltered (fs : filesystem) (config : Config.t)
    (g g' : Rng.rng) (self self' : PUDataset.t) :
  Config.min_met config = None ->
  Config.num_max_files config = None ->
  (forall f data, np_load fs f = Some data ->
     length (Npz.x data) = length (Npz.N data)) ->
  Gen.result (@PUDataset.__init__ unit fs config g) = Some self ->
  Gen.result (PUDataset.__iter__ fs self g') = Some self' ->
  length (Gen.yielded (PUDataset.__iter__ fs self g')) = PUDataset.__len__ self.
Proof.
  intros Hmet Hall Hwf Hinit Hiter; unfold PUDataset.__init__ in Hinit.
  apply bind_result in Hinit as ([self1 n] & Hlen & Hret & _).
  injection Hret as <-.
  apply PU_get_len_count in Hlen as [E ->]; [|exact Hmet|exact Hall].
  rewrite (@PU_iter_count fs _ self' g'); auto.
  rewrite E; exact Hall.
Qed.

(** ** The event behind a sample *)

Lemma In_firstn {A : Type} (l : list A) (n : nat) (a : A) :
  In a (firstn n l) -> In a l.
Proof.
  intros H; rewrite <- (firstn_skipn n l); apply in_or_app; left; exact H.
Qed.

Lemma slice_to_firstn {A : Type} (stop : option Z) (l : list A) :
  exists n, slice_to stop l = firstn n l.
Proof.
  unfold slice_to; destruct stop as [k|].
  - destruct (k <? 0)%Z; eexists; reflexivity.
  - exists (length l); symmetry; apply firstn_all.
Qed.

Lemma In_slice_to {A : Type} (stop : option Z) (l : list A) (a : A) :
  In a (slice_to stop l) -> In a l.
Proof.
  destruct (slice_to_firstn stop l) as [n ->]; apply In_firstn.
Qed.

Lemma shuffled_result {Y A : Type} (l l' : list A) (g : Rng.rng) :
  Gen.result (@Gen.shuffled Y A l g) = Some l' -> Permutation l l'.
Proof.
  rewrite shuffled_run; simpl; intros H; injection H as <-.
  apply shuffle_Permutation.
Qed.

(** Every sample of a pass is the sample of one event of one file of the
    dataset. *)
Lemma PU_iter_event (fs : filesystem) (self : PUDataset.t) (g : Rng.rng)
    (s : dict (ndarray scalar)) :
  In s (Gen.yielded (PUDataset.__iter__ fs self g)) ->
  exists files f data i,
    In f (PUDataset._files self) /\
    np_load fs f = Some data /\
    PUDataset.event (PUDataset.set_files self files)
      (PUDataset.sliced (PUDataset.set_files self files) data)
      (seq 0 (shape1 (Npz.x (PUDataset.sliced (PUDataset.set_files self files) data))))
      i = Some s.
Proof.
  unfold PUDataset.__iter__; intros H.
  apply bind_yielded in H as [H|(files & Hfiles & H)];
    [rewrite shuffled_yielded in H; destruct H|].
  apply bind_yielded in H as [H|(u & _ & H)]; [|destruct H].
  apply for_each_yielded in H as (f & g' & Hf & H).
  unfold PUDataset.file_pass in H.
  apply bind_yielded in H as [H|(data & Hd & H)]; [destruct H|].
  apply bind_yielded in H as [H|(idx & _ & H)];
    [rewrite shuffled_yielded in H; destruct H|].
  apply event_loop_yielded in H as (i & _ & H).
  exists files, f, data, i; split; [|split; [exact Hd | exact H]].
  apply In_slice_to in Hf; simpl in Hf.
  eapply Permutation_in;
    [apply Permutation_sym; eapply shuffled_result; exact Hfiles | exact Hf].
Qed.

(** The parts of the pass over one file behind a sample it yields. *)
Lemma MET_file_pass_yielded (fs : filesystem) (self : METDataset.t)
    (f : string) (g : Rng.rng) (s : list (ndarray scalar)) :
  In s (Gen.yielded (METDataset.file_pass fs self f g)) ->
  exists data X0 P0 P2 calcmet mets i,
    let stop := if (METDataset.training_mode self =? 0)%Z then 50%Z else 200%Z in
    let X := map (slice_to (Some stop)) X0 in
    np_load fs f = Some data /\
    METDataset._transform_x (Npz.x data) = Some X0 /\
    METDataset.plane 0 X = Some P0 /\
    METDataset.plane 2 X = Some P2 /\
    METDataset._compute_met P0 P2 = Some calcmet /\
    match METDataset.mean_met self with
    | Some _ =>
        obind (METDataset.standardize_met self (Npz.met data)) (fun genmet =>
        obind (METDataset.standardize_met self calcmet) (fun calcmet =>
        obind (METDataset.standardize_met self (Npz.pfmet data)) (fun pfmet =>
        Some (genmet, calcmet, pfmet))))
    | None => Some (Npz.met data, calcmet, Npz.pfmet data)
    end = Some mets /\
    METDataset.event self X (Npz.N data) (fst (fst mets)) (snd (fst mets))
      (snd mets) (seq 0 (shape1 X)) i = Some s.
Proof.
  unfold METDataset.file_pass; intros H.
  assert (E : forall X0 : list (list (list R)),
            (if (METDataset.training_mode self =? 0)%Z
             then map (slice_to (Some 50%Z)) X0
             else if (METDataset.training_mode self =? 1)%Z
                  then map (slice_to (Some 200%Z)) X0
                  else map (slice_to (Some 200%Z)) X0)
            = map (slice_to (Some (if (METDataset.training_mode self =? 0)%Z
                                   then 50%Z else 200%Z))) X0).
  { intros X0; destruct (_ =? 0)%Z; [reflexivity|].
    destruct (_ =? 1)%Z; reflexivity. }
  apply bind_yielded in H as [H|(data & Hd & H)]; [destruct H|].
  apply bind_yielded in H as [H|(X0 & HX & H)]; [destruct H|].
  rewrite E in H.
  apply bind_yielded in H as [H|(P0 & HP0 & H)]; [destruct H|].
  apply bind_yielded in H as [H|(P2 & HP2 & H)]; [destruct H|].
  apply bind_yielded in H as [H|(calcmet & Hc & H)]; [destruct H|].
  apply bind_yielded in H as [H|(idx & _ & H)];
    [rewrite shuffled_yielded in H; destruct H|].
  apply bind_yielded in H as [H|(mets & Hm & H)]; [destruct H|].
  apply event_loop_yielded in H as (i & _ & H).
  exists data, X0, P0, P2, calcmet, mets, i; simpl.
  repeat split; assumption.
Qed.

(** Every sample of a pass is the sample of one event of one file of the
    dataset: [X0] is the transformed particle array of the file, cut to its
    first 50 or 200 particle slots, [calcmet] the missing energy computed
    from it, and [mets] the three arrays of targets after the
    standardisation. *)
Lemma MET_iter_event (fs : filesystem) (self : METDataset.t) (g : Rng.rng)
    (s : list (ndarray scalar)) :
  In s (Gen.yielded (METDataset.__iter__ fs self g)) ->
  exists files f data X0 P0 P2 calcmet mets i,
    let stop := if (METDataset.training_mode self =? 0)%Z then 50%Z else 200%Z in
    let X := map (slice_to (Some stop)) X0 in
    In f (METDataset._files self) /\
    np_load fs f = Some data /\
    METDataset._transform_x (Npz.x data) = Some X0 /\
    METDataset.plane 0 X = Some P0 /\
    METDataset.plane 2 X = Some P2 /\
    METDataset._compute_met P0 P2 = Some calcmet /\
    match METDataset.mean_met self with
    | Some _ =>
        obind (METDataset.standardize_met self (Npz.met data)) (fun genmet =>
        obind (METDataset.standardize_met self calcmet) (fun calcmet =>
        obind (METDataset.standardize_met self (Npz.pfmet data)) (fun pfmet =>
        Some (genmet, calcmet, pfmet))))
    | None => Some (Npz.met data, calcmet, Npz.pfmet data)
    end = Some mets /\
    METDataset.event (METDataset.set_files self files) X (Npz.N data)
      (fst (fst mets)) (snd (fst mets)) (snd mets) (seq 0 (shape1 X)) i = Some s.
Proof.
  unfold METDataset.__iter__; intros H.
  apply bind_yielded in H as [H|(files & Hfiles & H)];
    [rewrite shuffled_yielded in H; destruct H|].
  apply bind_yielded in H as [H|(u & _ & H)]; [|destruct H].
  apply for_each_yielded in H as (f & g' & Hf & H).
  apply MET_file_pass_yielded in H
    as (data & X0 & P0 & P2 & calcmet & mets & i
        & Hd & HX & HP0 & HP2 & Hc & Hm & H).
  exists files, f, data, X0, P0, P2, calcmet, mets, i.
  split; [|repeat split; assumption].
  simpl in Hf.
  eapply Permutation_in;
    [apply Permutation_sym; eapply shuffled_result; exact Hfiles | exact Hf].
Qed.

(** ** The entries of the adjacency mask *)

Lemma column_nth_of {A : Type} (k : nat) (x : list (list A)) (col : list A)
    (j : nat) (row : list A) :
  column k x = Some col -> nth_error x j = Some row ->
  nth_error col j = nth_error row k /\ nth_error row k <> None.
Proof.
  unfold column; intros H Hr.
  destruct (mapM_nth _ _ _ H Hr) as (c & Hc & Hk).
  rewrite Hc, Hk; split; [reflexivity | discriminate].
Qed.

(** Entry by entry: the adjacency, and-ed with the mask of both particles. *)
Lemma masked_adjacency_entry (adj : list (list bool)) (n : nat) (Ni : Z)
    (adj_mask : list (list bool)) :
  length adj = n ->
  (forall row, In row adj -> length row = n) ->
  logical_and2 adj (outer_and (map (fun k => (Z.of_nat k <? Ni)%Z) (seq 0 n)))
    = Some adj_mask ->
  forall i j, (i < n)%nat -> (j < n)%nat ->
    entry (map (map int_of_bool) adj_mask) i j =
    option_map (fun a => int_of_bool
                  (a && ((Z.of_nat i <? Ni)%Z && (Z.of_nat j <? Ni)%Z)))
               (entry adj i j).
Proof.
  intros Hn Hrows H i j Hi Hj.
  unfold logical_and2 in H.
  rewrite (broadcast_same_length _ (zip_with andb)) in H.
  - injection H as <-.
    rewrite entry_map_map, entry_zip2, entry_outer_and.
    rewrite !nth_error_map, !nth_error_seq.
    apply Nat.ltb_lt in Hi, Hj; rewrite Hi, Hj; simpl.
    destruct (entry adj i j); reflexivity.
  - unfold outer_and; rewrite !length_map, length_seq; exact Hn.
  - intros r1 r2 Hin.
    apply broadcast_same_length; [|reflexivity].
    rewrite (Hrows _ (in_combine_l _ _ _ _ Hin)).
    rewrite (outer_and_row_length _ _ (in_combine_r _ _ _ _ Hin)).
    rewrite length_map, length_seq; reflexivity.
Qed.

(** A truth array and-ed with the outer product of the particle mask
    [k < Ni] has a 1 only between particles below [Ni]. *)
Lemma masked_adjacency_below (adj : list (list bool)) (n : nat) (Ni : Z)
    (adj_mask : list (list bool)) :
  length adj = n ->
  (forall row, In row adj -> length row = n) ->
  logical_and2 adj (outer_and (map (fun k => (Z.of_nat k <? Ni)%Z) (seq 0 n)))
    = Some adj_mask ->
  forall i j, entry (map (map int_of_bool) adj_mask) i j = Some 1%Z ->
    (Z.of_nat i < Ni)%Z /\ (Z.of_nat j < Ni)%Z.
Proof.
  intros Hn Hrows H i j E.
  unfold logical_and2 in H.
  rewrite (broadcast_same_length _ (zip_with andb)) in H.
  - injection H as <-.
    rewrite entry_map_map, entry_zip2, entry_outer_and in E.
    rewrite !nth_error_map, !nth_error_seq in E.
    destruct (entry adj i j) as [a|]; [|discriminate].
    destruct (i <? n)%nat; [|discriminate].
    destruct (j <? n)%nat; [|discriminate].
    simpl in E.
    destruct a, (Z.of_nat i <? Ni)%Z eqn:Ei, (Z.of_nat j <? Ni)%Z eqn:Ej;
      simpl in E; try discriminate.
    split; apply Z.ltb_lt; assumption.
  - unfold outer_and; rewrite !length_map, length_seq; exact Hn.
  - intros r1 r2 Hin.
    apply broadcast_same_length; [|reflexivity].
    rewrite (Hrows _ (in_combine_l _ _ _ _ Hin)).
    rewrite (outer_and_row_length _ _ (in_combine_r _ _ _ _ Hin)).
    rewrite length_map, length_seq; reflexivity.
Qed.

(** The adjacency entry of a [PUDataset] event with [dr_adj] configured:
    entry by entry, the adjacency of [cone_adj] on the columns [eta] and
    [phi] of [x], and-ed with the mask of both particles. *)
Lemma PU_adjacency_entries (self : PUDataset.t) (dr : R) (x : list (list R))
    (Ni : Z) (adj_mask : ndarray scalar) :
  PUDataset.dr_adj self = Some dr ->
  PUDataset.adjacency self x
    (map (fun k => int_of_bool (Z.of_nat k <? Ni)%Z) (seq 0 (length x)))
    = Some adj_mask ->
  exists eta phi adj am,
    column 1 x = Some eta /\ column 2 x = Some phi /\
    PUDataset.cone_adj eta phi dr = Some adj /\
    adj_mask = of_matZ am /\
    (forall a b, entry am a b = Some 1%Z ->
       (Z.of_nat a < Ni)%Z /\ (Z.of_nat b < Ni)%Z) /\
    (forall a b, (a < length x)%nat -> (b < length x)%nat ->
       entry am a b =
       option_map (fun t => int_of_bool
                     (t && ((Z.of_nat a <? Ni)%Z && (Z.of_nat b <? Ni)%Z)))
                  (truth_at adj a b)).
Proof.
  intros Hdr H; unfold PUDataset.adjacency in H; rewrite Hdr in H.
  apply obind_some in H as (x1 & H1 & H).
  apply obind_some in H as (x2 & H2 & H).
  apply obind_some in H as (adj & Hadj & H).
  apply obind_some in H as (m & Hm & H).
  injection H as <-.
  assert (L1 : length x1 = length x) by (eapply mapM_length; exact H1).
  assert (L2 : length x2 = length x) by (eapply mapM_length; exact H2).
  destruct (cone_adj_shape x1 x2 dr) as (adj' & Hadj' & Hl & Hrows);
    [congruence|].
  rewrite Hadj in Hadj'; injection Hadj' as <-.
  rewrite L1 in Hl, Hrows.
  rewrite map_map in Hm.
  rewrite (map_ext _ (fun k => (Z.of_nat k <? Ni)%Z)) in Hm
    by (intros k; apply truthyZ_int_of_bool).
  exists x1, x2, adj, (map (map int_of_bool) m).
  repeat split; auto.
  - apply (@masked_adjacency_below _ _ _ _ Hl Hrows Hm a b); assumption.
  - apply (@masked_adjacency_below _ _ _ _ Hl Hrows Hm a b); assumption.
  - intros a b Ha Hb; rewrite truth_at_entry.
    apply (@masked_adjacency_entry _ _ _ _ Hl Hrows Hm a b Ha Hb).
Qed.

(** ** The kernels on binary64 floats *)

Section Float64Facts.

Import Floats.
Local Open Scope float_scope.

(** *** Rounding *)

(** The sign given to [binary_round_aux] is the sign of its result and
    changes nothing else. *)
Lemma binary_round_aux_sign (s t : bool) (m e : Z) (l : location) :
  binary_round_aux prec emax s m e l = S754_nan /\
  binary_round_aux prec emax t m e l = S754_nan \/
  (binary_round_aux prec emax s m e l = S754_zero s /\
   binary_round_aux prec emax t m e l = S754_zero t) \/
  (binary_round_aux prec emax s m e l = S754_infinity s /\
   binary_round_aux prec emax t m e l = S754_infinity t) \/
  (exists m' e', binary_round_aux prec emax s m e l = S754_finite s m' e' /\
   binary_round_aux prec emax t m e l = S754_finite t m' e').
Proof.
  unfold binary_round_aux.
  destruct (shr_fexp prec emax m e l) as [mrs' e'].
  destruct (shr_fexp _ _ _ _ _) as [mrs'' e''].
  destruct (shr_m mrs''); auto.
  destruct (_ <=? _)%Z; eauto 10.
Qed.

Lemma shr_1_nonneg (mrs : shr_record) :
  (0 <= shr_m mrs)%Z -> (0 <= shr_m (shr_1 mrs))%Z.
Proof.
  destruct mrs as [m r s]; simpl.
  destruct m as [|[p|p|]|[p|p|]]; simpl; intros H; lia.
Qed.

Lemma iter_shr_1_nonneg (p : positive) (mrs : shr_record) :
  (0 <= shr_m mrs)%Z -> (0 <= shr_m (iter_pos shr_1 p mrs))%Z.
Proof.
  revert mrs; induction p as [p IH|p IH|]; intros mrs H; simpl;
    auto using shr_1_nonneg.
Qed.

Lemma shr_fexp_nonneg (m e : Z) (l : location) :
  (0 <= m)%Z -> (0 <= shr_m (fst (shr_fexp prec emax m e l)))%Z.
Proof.
  intros H; unfold shr_fexp, shr.
  assert (H0 : (0 <= shr_m (shr_record_of_loc m l))%Z)
    by (destruct l as [|[| |]]; exact H).
  destruct (_ - _)%Z; simpl; auto using iter_shr_1_nonneg.
Qed.

(** Rounding a mantissa from 0 on never gives NaN. *)
Lemma binary_round_aux_not_nan (s : bool) (m e : Z) (l : location) :
  (0 <= m)%Z -> binary_round_aux prec emax s m e l <> S754_nan.
Proof.
  intros H; unfold binary_round_aux.
  pose proof (@shr_fexp_nonneg m e l H) as H1.
  destruct (shr_fexp prec emax m e l) as [mrs' e']; simpl in H1.
  assert (H2 : (0 <= round_nearest_even (shr_m mrs') (loc_of_shr_record mrs'))%Z).
  { unfold round_nearest_even.
    destruct (loc_of_shr_record mrs') as [|[| |]]; try lia.
    destruct (Z.even _); lia. }
  pose proof (@shr_fexp_nonneg _ e' loc_Exact H2) as H3.
  destruct (shr_fexp _ _ _ _ _) as [mrs'' e'']; simpl in H3.
  destruct (shr_m mrs''); try discriminate; [|lia].
  destruct (_ <=? _)%Z; discriminate.
Qed.

(** *** NaN and the finite floats *)

Lemma is_nan_SF (x : float) : is_nan x = true <-> Prim2SF x = S754_nan.
Proof.
  unfold is_nan; rewrite eqb_spec.
  destruct (Prim2SF x) as [s|s| |s m e]; unfold SFeqb, SFcompare.
  - split; discriminate.
  - destruct s; split; discriminate.
  - split; reflexivity.
  - rewrite Z.compare_refl, Pos.compare_cont_refl.
    destruct s; split; discriminate.
Qed.

Lemma is_nan_false_SF (x : float) : is_nan x = false <-> Prim2SF x <> S754_nan.
Proof.
  rewrite <- is_nan_SF; destruct (is_nan x); split; congruence.
Qed.

Lemma is_finite_SF (x : float) :
  is_finite x = true <->
  (exists s, Prim2SF x = S754_zero s) \/
  (exists s m e, Prim2SF x = S754_finite s m e).
Proof.
  unfold is_finite.
  destruct (is_nan x) eqn:En.
  - apply is_nan_SF in En; rewrite En; simpl; split; [discriminate|].
    intros [[s H]|(s & m & e & H)]; discriminate.
  - apply is_nan_false_SF in En.
    unfold is_infinity; rewrite eqb_spec, abs_spec.
    change (Prim2SF infinity) with (S754_infinity false).
    destruct (Prim2SF x) as [s|s| |s m e]; simpl.
    + split; eauto.
    + split; [discriminate|].
      intros [[s' H]|(s' & m & e & H)]; discriminate.
    + congruence.
    + split; eauto.
Qed.

(** [e - e] is [+0] for a finite [e], and NaN for every other one. *)
Lemma sub_diag (x : float) : is_finite x = true -> x - x = 0.
Proof.
  intros H; apply Prim2SF_inj; rewrite sub_spec.
  change (Prim2SF 0) with (S754_zero false).
  apply is_finite_SF in H as [[s ->]|(s & m & e & ->)].
  - destruct s; reflexivity.
  - unfold SF64sub, SFsub. rewrite Z.min_id, Z.sub_diag. reflexivity.
Qed.

Lemma sub_diag_nan (x : float) : is_finite x = false -> is_nan (x - x) = true.
Proof.
  intros H; apply is_nan_SF; rewrite sub_spec.
  destruct (Prim2SF x) as [s|s| |s m e] eqn:E.
  - assert (is_finite x = true) by (apply is_finite_SF; eauto); congruence.
  - destruct s; reflexivity.
  - reflexivity.
  - assert (is_finite x = true) by (apply is_finite_SF; eauto 6); congruence.
Qed.

Lemma mul_nan (x : float) : is_nan x = true -> is_nan (x * x) = true.
Proof.
  rewrite !is_nan_SF, mul_spec; intros ->; reflexivity.
Qed.

Lemma add_nan_l (x y : float) : is_nan x = true -> is_nan (x + y) = true.
Proof.
  rewrite !is_nan_SF, add_spec; intros ->; reflexivity.
Qed.

Lemma add_nan_r (x y : float) : is_nan y = true -> is_nan (x + y) = true.
Proof.
  rewrite !is_nan_SF, add_spec; intros ->.
  destruct (Prim2SF x); reflexivity.
Qed.

Lemma leb_nan_l (x y : float) : is_nan x = true -> (x <=? y) = false.
Proof.
  rewrite is_nan_SF, leb_spec; intros ->; reflexivity.
Qed.

Lemma leb_nan_r (x y : float) : is_nan y = true -> (x <=? y) = false.
Proof.
  rewrite is_nan_SF, leb_spec; intros ->.
  destruct (Prim2SF x); reflexivity.
Qed.

(** The square of a float is NaN only for NaN, and is at least 0
    otherwise. *)
Lemma square_nonneg (c : float) : is_nan c = false -> (0 <=? c * c) = true.
Proof.
  rewrite is_nan_false_SF, leb_spec, mul_spec.
  change (Prim2SF 0) with (S754_zero false).
  unfold SF64mul, SFmul.
  destruct (Prim2SF c) as [s|s| |s m e]; intros Hn.
  - reflexivity.
  - destruct s; reflexivity.
  - congruence.
  - pose proof (@binary_round_aux_not_nan (xorb s s) (Z.pos (m * m)) (e + e)%Z
                  loc_Exact ltac:(lia)) as H.
    rewrite xorb_nilpotent in *.
    destruct (binary_round_aux_sign false false (Z.pos (m * m)) (e + e) loc_Exact)
      as [[E _]|[[-> _]|[[-> _]|(m' & e' & -> & _)]]];
      [congruence | reflexivity ..].
Qed.

(** [(x - y)^2] and [(y - x)^2] are one float. *)
Lemma sub_swap_square (x y : float) :
  (x - y) * (x - y) = (y - x) * (y - x).
Proof.
  apply Prim2SF_inj; rewrite !mul_spec, !sub_spec.
  destruct (Prim2SF x) as [sx|sx| |sx mx ex], (Prim2SF y) as [sy|sy| |sy my ey];
    try reflexivity;
    try (destruct sx; try destruct sy; reflexivity);
    try (destruct sy; reflexivity).
  unfold SF64sub, SFsub.
  rewrite (Z.min_comm ey ex).
  set (ez := Z.min ex ey).
  set (a := cond_Zopp sx (Z.pos (fst (shl_align mx ex ez)))).
  set (b := cond_Zopp sy (Z.pos (fst (shl_align my ey ez)))).
  replace (b - a)%Z with (- (a - b))%Z by ring.
  destruct (a - b)%Z as [|p|p]; simpl; [reflexivity| |];
    unfold binary_round;
    destruct (shl_align p ez _) as [mz ez'];
    destruct (binary_round_aux_sign false true (Z.pos mz) ez' loc_Exact)
      as [[-> ->]|[[-> ->]|[[-> ->]|(m' & e' & -> & ->)]]]; reflexivity.
Qed.


(** *** The squared distances of [cone_adj], on floats *)

Lemma truthy_eye (i j : nat) :
  Float64.truthy (if Nat.eqb i j then 1 else 0) = Nat.eqb i j.
Proof. destruct (Nat.eqb i j); reflexivity. Qed.

Lemma F64_truth_at_entry (a : Float64.ndarray2) (i j : nat) :
  Float64.truth_at a i j = entry (Float64.truth2 a) i j.
Proof. destruct a; simpl; [symmetry; apply entry_map_map | reflexivity]. Qed.

Lemma F64_entry_eye (n i j : nat) :
  entry (Float64.truth2 (Float64.FloatMat (Float64.eye n))) i j =
  if ((i <? n)%nat && (j <? n)%nat)%bool then Some (Nat.eqb i j) else None.
Proof.
  simpl; rewrite entry_map_map; unfold Float64.eye.
  rewrite (entry_outer (fun i j : nat => if Nat.eqb i j then 1 else 0)).
  rewrite !nth_error_seq.
  destruct (i <? n)%nat, (j <? n)%nat; simpl; try reflexivity.
  rewrite truthy_eye; reflexivity.
Qed.

Lemma F64_sq_outer_length (v : list float) :
  length (Float64.square2 (Float64.outer_sub v)) = length v.
Proof. unfold Float64.square2, Float64.outer_sub; rewrite !length_map; reflexivity. Qed.

Lemma F64_sq_outer_row_length (v row : list float) :
  In row (Float64.square2 (Float64.outer_sub v)) -> length row = length v.
Proof.
  unfold Float64.square2, Float64.outer_sub; intros H.
  apply in_map_iff in H as (r & <- & H).
  apply in_map_iff in H as (a & <- & _).
  rewrite !length_map; reflexivity.
Qed.

Lemma F64_entry_sq_outer (v : list float) (i j : nat) :
  entry (Float64.square2 (Float64.outer_sub v)) i j =
  match nth_error v i, nth_error v j with
  | Some a, Some b => Some ((a - b) * (a - b))
  | _, _ => None
  end.
Proof.
  unfold Float64.square2; rewrite entry_map_map.
  unfold Float64.outer_sub; rewrite (entry_outer (fun a b : float => a - b)).
  destruct (nth_error v i), (nth_error v j); reflexivity.
Qed.

Lemma F64_dr2_defined (eta phi : list float) :
  length eta = length phi ->
  Float64.add2 (Float64.square2 (Float64.outer_sub eta))
               (Float64.square2 (Float64.outer_sub phi)) =
  Some (zip_with (zip_with add) (Float64.square2 (Float64.outer_sub eta))
                 (Float64.square2 (Float64.outer_sub phi))).
Proof.
  intros Hlen; unfold Float64.add2.
  apply broadcast_same_length.
  - rewrite !F64_sq_outer_length; exact Hlen.
  - intros r1 r2 Hin.
    apply broadcast_same_length; [|reflexivity].
    rewrite (F64_sq_outer_row_length _ _ (in_combine_l _ _ _ _ Hin)).
    rewrite (F64_sq_outer_row_length _ _ (in_combine_r _ _ _ _ Hin)).
    exact Hlen.
Qed.

(** The truth values of [cone_adj] on arrays of one length: a square array;
    with cone 0 the identity, and otherwise at (i, j) the comparison of the
    squared distance with the squared cone. *)
Lemma F64_cone_adj_entries (eta phi : list float) (cone : float) :
  length eta = length phi ->
  exists adj,
    Float64.PUDataset.cone_adj eta phi cone = Some adj /\
    length (Float64.truth2 adj) = length eta /\
    (forall row, In row (Float64.truth2 adj) -> length row = length eta) /\
    forall i j,
      entry (Float64.truth2 adj) i j =
      match nth_error eta i, nth_error eta j, nth_error phi i, nth_error phi j with
      | Some ei, Some ej, Some pi, Some pj =>
          Some (if cone =? 0 then Nat.eqb i j
                else (ei - ej) * (ei - ej) + (pi - pj) * (pi - pj) <=? cone * cone)
      | _, _, _, _ => None
      end.
Proof.
  intros Hlen; unfold Float64.PUDataset.cone_adj.
  destruct (cone =? 0).
  - eexists; split; [reflexivity|]. split; [|split].
    + simpl; rewrite length_map; unfold Float64.eye.
      rewrite length_map, length_seq; reflexivity.
    + simpl; intros row H; apply in_map_iff in H as (r & <- & Hr).
      unfold Float64.eye in Hr; apply in_map_iff in Hr as (i & <- & _).
      rewrite !length_map, length_seq; reflexivity.
    + intros i j; rewrite F64_entry_eye.
      destruct (nth_error eta i) as [ei|] eqn:Ei.
      * assert (Hi : (i < length eta)%nat) by (apply nth_error_Some; congruence).
        apply Nat.ltb_lt in Hi; rewrite Hi; simpl.
        destruct (nth_error eta j) as [ej|] eqn:Ej.
        -- assert (Hj : (j < length eta)%nat) by (apply nth_error_Some; congruence).
           pose proof Hi as Hi'; apply Nat.ltb_lt in Hi'.
           apply Nat.ltb_lt in Hj as Hj'; rewrite Hj'.
           destruct (nth_error phi i) eqn:Pi;
             [|apply nth_error_None in Pi; lia].
           destruct (nth_error phi j) eqn:Pj;
             [|apply nth_error_None in Pj; lia].
           reflexivity.
        -- apply nth_error_None in Ej.
           replace (j <? length eta)%nat with false
             by (symmetry; apply Nat.ltb_ge; exact Ej).
           reflexivity.
      * apply nth_error_None in Ei.
        replace (i <? length eta)%nat with false
          by (symmetry; apply Nat.ltb_ge; exact Ei).
        reflexivity.
  - rewrite (F64_dr2_defined _ _ Hlen).
    eexists; split; [reflexivity|]. simpl. split; [|split].
    + rewrite length_map, zip_with_length; rewrite !F64_sq_outer_length; auto.
    + intros row H; apply in_map_iff in H as (r & <- & Hr).
      rewrite length_map.
      unfold zip_with at 1 in Hr; apply in_map_iff in Hr as ([r1 r2] & <- & Hr).
      cbn [fst snd]; rewrite zip_with_length.
      * eapply F64_sq_outer_row_length, in_combine_l; eauto.
      * rewrite (F64_sq_outer_row_length _ _ (in_combine_l _ _ _ _ Hr)).
        rewrite (F64_sq_outer_row_length _ _ (in_combine_r _ _ _ _ Hr)).
        exact Hlen.
    + intros i j.
      rewrite entry_map_map, entry_zip2, !F64_entry_sq_outer.
      destruct (nth_error eta i), (nth_error eta j),
               (nth_error phi i), (nth_error phi j); reflexivity.
Qed.

(** The diagonal of the squared distances: [+0] at a particle with finite
    [eta] and [phi], NaN at every other one. *)
Lemma F64_diagonal_distance (e p c2 : float) :
  ((e - e) * (e - e) + (p - p) * (p - p) <=? c2) =
  (is_finite e && is_finite p && (0 <=? c2))%bool.
Proof.
  destruct (is_finite e) eqn:Fe.
  - rewrite (sub_diag e Fe).
    destruct (is_finite p) eqn:Fp.
    + rewrite (sub_diag p Fp); reflexivity.
    + apply leb_nan_l, add_nan_r, mul_nan, sub_diag_nan; exact Fp.
  - apply leb_nan_l, add_nan_l, mul_nan, sub_diag_nan; exact Fe.
Qed.

Lemma F64_cone_nonneg (cone : float) :
  (0 <=? cone * cone) = negb (is_nan cone).
Proof.
  destruct (is_nan cone) eqn:E; simpl.
  - apply leb_nan_r, mul_nan; exact E.
  - apply square_nonneg; exact E.
Qed.

(** C8: on float arrays of one length and for every cone, the matrix
    returned by [PUDataset.cone_adj] is symmetric.  Its diagonal entry at a
    particle is true exactly when the cone is 0, or [eta] and [phi] of the
    particle are finite and the cone is not NaN. *)
Theorem cone_adj_symmetric_diagonal (eta phi : list float) (cone : float) :
  length eta = length phi ->
  exists adj,
    Float64.PUDataset.cone_adj eta phi cone = Some adj /\
    (forall i j, Float64.truth_at adj i j = Float64.truth_at adj j i) /\
    (forall i e p, nth_error eta i = Some e -> nth_error phi i = Some p ->
       exists b, Float64.truth_at adj i i = Some b /\
         (b = true <->
          (cone =? 0) = true \/
          is_finite e = true /\ is_finite p = true /\ is_nan cone = false)).
Proof.
  intros Hlen.
  destruct (F64_cone_adj_entries eta phi cone Hlen) as (adj & Hadj & _ & _ & He).
  exists adj; split; [exact Hadj|]; split.
  - intros i j; rewrite !F64_truth_at_entry, !He.
    destruct (nth_error eta i) as [ei|], (nth_error eta j) as [ej|],
             (nth_error phi i) as [pi|], (nth_error phi j) as [pj|];
      try reflexivity.
    rewrite (Nat.eqb_sym i j), (sub_swap_square ei ej), (sub_swap_square pi pj).
    reflexivity.
  - intros i e p Ee Ep; rewrite F64_truth_at_entry, He, Ee, Ep.
    eexists; split; [reflexivity|].
    rewrite Nat.eqb_refl, F64_diagonal_distance, F64_cone_nonneg.
    destruct (cone =? 0); [tauto|].
    destruct (is_finite e), (is_finite p), (is_nan cone); simpl;
      split; intuition congruence.
Qed.

(** A run of C8 on three particles, one of them with a NaN [eta]. *)
Lemma cone_adj_symmetric_diagonal_witness :
  exists adj,
    Float64.PUDataset.cone_adj [0; 1; nan] [2; 5; 2] 0.5 = Some adj /\
    (forall i j, Float64.truth_at adj i j = Float64.truth_at adj j i) /\
    (forall i e p,
       nth_error [0; 1; nan] i = Some e -> nth_error [2; 5; 2] i = Some p ->
       exists b, Float64.truth_at adj i i = Some b /\
         (b = true <->
          (0.5 =? 0) = true \/
          is_finite e = true /\ is_finite p = true /\ is_nan 0.5 = false)).
Proof.
  apply (@cone_adj_symmetric_diagonal [0; 1; nan] [2; 5; 2] 0.5); reflexivity.
Defined.

(** C8 fails as stated: a NaN or an infinite [eta], and a NaN cone,
    give a false diagonal entry. *)
Lemma cone_adj_diagonal_false :
  Float64.PUDataset.cone_adj [nan] [0] 0.5
    = Some (Float64.BoolMat [[false]]) /\
  Float64.PUDataset.cone_adj [infinity] [0] 0.5
    = Some (Float64.BoolMat [[false]]) /\
  Float64.PUDataset.cone_adj [1] [0] nan
    = Some (Float64.BoolMat [[false]]).
Proof. repeat split; vm_compute; reflexivity. Qed.

(** *** The adjacency mask of a [PUDataset] event, on floats *)

(** With [dr_adj] set, the adjacency mask of an event has a 1 only between
    particles below the particle count [Ni], and a 1 on the diagonal at
    every particle below [Ni] whose [eta] and [phi] are finite, when
    [dr_adj] is not NaN. *)
Lemma F64_adj_mask_real_pairs (dr : float) (x : list (list float)) (Ni : Z)
    (adj_mask : ndarray scalar) :
  Float64.PUDataset.adj_mask (Some dr) x Ni = Some adj_mask ->
  exists am,
    adj_mask = of_matZ am /\
    (forall a b, entry am a b = Some 1%Z ->
       (Z.of_nat a < Ni)%Z /\ (Z.of_nat b < Ni)%Z) /\
    (forall a row e p,
       nth_error x a = Some row ->
       nth_error row 1 = Some e -> nth_error row 2 = Some p ->
       is_finite e = true -> is_finite p = true -> is_nan dr = false ->
       (Z.of_nat a < Ni)%Z -> entry am a a = Some 1%Z).
Proof.
  unfold Float64.PUDataset.adj_mask, Float64.PUDataset.adjacency; intros H.
  apply obind_some in H as (x1 & H1 & H).
  apply obind_some in H as (x2 & H2 & H).
  apply obind_some in H as (adj & Hadj & H).
  apply obind_some in H as (m & Hm & H).
  injection H as <-.
  assert (L1 : length x1 = length x) by (eapply mapM_length; exact H1).
  assert (L2 : length x2 = length x) by (eapply mapM_length; exact H2).
  destruct (@F64_cone_adj_entries x1 x2 dr) as (adj' & Hadj' & Hl & Hrows & He);
    [congruence|].
  rewrite Hadj in Hadj'; injection Hadj' as <-.
  rewrite L1 in Hl, Hrows.
  rewrite map_map in Hm.
  rewrite (map_ext _ (fun k => (Z.of_nat k <? Ni)%Z)) in Hm
    by (intros k; apply truthyZ_int_of_bool).
  exists (map (map int_of_bool) m); split; [reflexivity|]; split.
  - exact (@masked_adjacency_below _ _ _ _ Hl Hrows Hm).
  - intros a row e p Ha He1 He2 Fe Fp Fd HNi.
    assert (La : (a < length x)%nat) by (apply nth_error_Some; congruence).
    rewrite (@masked_adjacency_entry _ _ _ _ Hl Hrows Hm a a La La), He.
    destruct (@column_nth_of _ _ _ _ _ _ H1 Ha) as [-> _].
    destruct (@column_nth_of _ _ _ _ _ _ H2 Ha) as [-> _].
    rewrite He1, He2; simpl.
    rewrite Nat.eqb_refl, F64_diagonal_distance, F64_cone_nonneg, Fe, Fp, Fd.
    apply Z.ltb_lt in HNi; rewrite HNi.
    destruct (dr =? 0); reflexivity.
Qed.

(** C5 fails as stated: an event with one real particle in two
    slots, whose [eta] is NaN, with [dr_adj = 0.5]; the diagonal entry of the
    real particle is 0. *)
Lemma adj_mask_diagonal_nan :
  Float64.PUDataset.adj_mask (Some Float64.Example.dr_adj)
    Float64.Example.x_nan 1
  = Some (of_matZ [[0; 0]; [0; 0]]%Z).
Proof. vm_compute; reflexivity. Qed.

(** *** MET standardisation and the computed missing energy, on floats *)

(** C3 fails as stated: with mean 0 and standard deviation 7 the value
    29 comes back from [unstandardize_met (standardize_met 29)] as
    29.000000000000004; with mean 2^53 and standard deviation 1 the value 1
    comes back from [standardize_met (unstandardize_met 1)] as 0; and a
    dataset built without [mean_met] cannot standardise at all. *)
Lemma standardize_round_trip_inexact :
  (s <- Float64.METDataset.standardize_met (Some 0) (Some 7) [29] ;;
   Float64.METDataset.unstandardize_met (Some 0) (Some 7) s)%opt
  = Some [0x1.d000000000001p+4] /\
  (0x1.d000000000001p+4 =? 29) = false /\
  (u <- Float64.METDataset.unstandardize_met (Some 9007199254740992) (Some 1) [1] ;;
   Float64.METDataset.standardize_met (Some 9007199254740992) (Some 1) u)%opt
  = Some [0] /\
  Float64.METDataset.standardize_met None (Some 7) [29] = None.
Proof. repeat split; vm_compute; reflexivity. Qed.




End Float64Facts.

(** ** The adjacency mask of a sample *)

(** C5: with [dr_adj] configured and rectangular particle arrays in the
    files, every sample yielded by either dataset is the sample of an event
    [i] of a file of the dataset, with particle array [x = X[i]] and
    particle count [Ni = N[i]], and its adjacency mask has a 1 only between
    particles below [Ni].  In a sample of [METDataset] every diagonal entry
    below [Ni] is 1.  In a sample of [PUDataset] the diagonal entry of a
    particle below [Ni] is the diagonal entry of [cone_adj] on the columns
    [eta] and [phi] of [x]; on floats, the adjacency mask that the event
    loop computes from [x] and [Ni] has a 1 only between particles below
    [Ni], and a 1 at the diagonal entry of every particle below [Ni] whose
    [eta] and [phi] are finite, when [dr_adj] is not NaN. *)
Theorem adj_mask_real_pairs (fs : filesystem) (g : Rng.rng) (dr : R) :
  (forall f data, np_load fs f = Some data -> rectangular (Npz.x data)) ->
  (forall self s,
     PUDataset.dr_adj self = Some dr ->
     In s (Gen.yielded (PUDataset.__iter__ fs self g)) ->
     exists f data i Ni x am eta phi adj,
       In f (PUDataset._files self) /\
       np_load fs f = Some data /\
       nth_error (Npz.N data) i = Some Ni /\
       nth_error (map (slice_to (PUDataset.n_particles self)) (Npz.x data)) i
         = Some x /\
       lookup s "x" = Some (of_matR x) /\
       lookup s "adj_mask" = Some (of_matZ am) /\
       (forall a b, entry am a b = Some 1%Z ->
          (Z.of_nat a < Ni)%Z /\ (Z.of_nat b < Ni)%Z) /\
       column 1 x = Some eta /\ column 2 x = Some phi /\
       PUDataset.cone_adj eta phi dr = Some adj /\
       (forall a, (a < length x)%nat -> (Z.of_nat a < Ni)%Z ->
          entry am a a = option_map int_of_bool (truth_at adj a a))) /\
  (forall self s,
     METDataset.dr_adj self = Some dr ->
     In s (Gen.yielded (METDataset.__iter__ fs self g)) ->
     exists f data X i Ni x am,
       In f (METDataset._files self) /\
       np_load fs f = Some data /\
       METDataset._transform_x (Npz.x data) = Some X /\
       nth_error (Npz.N data) i = Some Ni /\
       nth_error
         (map (slice_to
                 (Some (if (METDataset.training_mode self =? 0)%Z
                        then 50%Z else 200%Z))) X) i = Some x /\
       nth_error s 0 = Some (of_matR x) /\
       nth_error s 1 = Some (of_matZ am) /\
       (forall a b, entry am a b = Some 1%Z ->
          (Z.of_nat a < Ni)%Z /\ (Z.of_nat b < Ni)%Z) /\
       (forall a, (a < length x)%nat -> (Z.of_nat a < Ni)%Z ->
          entry am a a = Some 1%Z)) /\
  (forall (cone : PrimFloat.float) (x : list (list PrimFloat.float)) (Ni : Z)
          (adj_mask : ndarray scalar),
     Float64.PUDataset.adj_mask (Some cone) x Ni = Some adj_mask ->
     exists am,
       adj_mask = of_matZ am /\
       (forall a b, entry am a b = Some 1%Z ->
          (Z.of_nat a < Ni)%Z /\ (Z.of_nat b < Ni)%Z) /\
       (forall a row e p,
          nth_error x a = Some row ->
          nth_error row 1 = Some e -> nth_error row 2 = Some p ->
          PrimFloat.is_finite e = true -> PrimFloat.is_finite p = true ->
          PrimFloat.is_nan cone = false ->
          (Z.of_nat a < Ni)%Z -> entry am a a = Some 1%Z)).
Proof.
  intros Hrect; split; [|split].
  - intros self s Hdr H.
    apply PU_iter_event in H as (files & f & data & i & Hf & Hd & H).
    apply PU_event_fields in H
      as (Ni & x & Yi & y & oy & adj & HN & Hx & _ & Hadj & _ & Lx & _ & La & _).
    cbn [PUDataset.sliced Npz.x PUDataset.set_files PUDataset.n_particles]
      in Hx, Hadj.
    rewrite <- (rectangular_row i (rectangular_slice _ (Hrect f data Hd)) Hx)
      in Hadj.
    destruct (PU_adjacency_entries _ _ _ Hdr Hadj)
      as (eta & phi & A & am & He & Hp & HA & -> & H1 & H2).
    exists f, data, i, Ni, x, am, eta, phi, A.
    repeat split; auto; try (apply (H1 a b); assumption).
    intros a Ha HNi; rewrite (H2 a a Ha Ha).
    apply Z.ltb_lt in HNi; rewrite HNi.
    destruct (truth_at A a a) as [[|]|]; reflexivity.
  - intros self s Hdr H.
    apply MET_iter_event in H
      as (files & f & data & X0 & P0 & P2 & cm & mets & i
          & Hf & Hd & HX & _ & _ & _ & _ & H).
    apply MET_event_fields in H as (Ni & x & adj & HN & Hx & Hadj & Lx & La).
    assert (Hr : rectangular
                   (map (slice_to
                           (Some (if (METDataset.training_mode self =? 0)%Z
                                  then 50%Z else 200%Z))) X0)).
    { apply rectangular_slice.
      eapply same_rows_rectangular;
        [apply transform_x_same_rows; exact HX | eapply Hrect; eauto]. }
    rewrite <- (rectangular_row i Hr Hx) in Hadj.
    destruct (MET_adjacency_spec _ _ _ Hdr Hadj) as (am & -> & H1 & H2).
    exists f, data, X0, i, Ni, x, am; repeat split; auto;
      apply (H1 a b); assumption.
  - intros cone x Ni adj_mask H; exact (F64_adj_mask_real_pairs _ _ _ H).
Qed.

Lemma Example2_rectangular (f : string) (data : Npz.t) :
  np_load Example2.fs f = Some data -> rectangular (Npz.x data).
Proof.
  simpl; destruct (String.eqb f "data/a.npz").
  - intros H; injection H as <-.
    intros row [<-|[<-|[]]]; reflexivity.
  - destruct (String.eqb f "data/b.npz"); [|discriminate].
    intros H; injection H as <-.
    intros row [<-|[]]; reflexivity.
Qed.

(** The one event of the file [data/b.npz] of the second example: two real
    particles in four slots. *)
Lemma Example2_event (f : string) (data : Npz.t) (i : nat) (Ni : Z) :
  In f ["data/b.npz"%string] -> np_load Example2.fs f = Some data ->
  nth_error (Npz.N data) i = Some Ni ->
  data = Example2.data_b /\ i = 0%nat /\ Ni = 2%Z.
Proof.
  intros [<-|[]] Hd HN; injection Hd as <-.
  destruct i as [|[|i]]; simpl in HN; try discriminate.
  injection HN as <-; auto.
Qed.

(** The particle array of that event after the coordinate transform and the
    cut has its four slots. *)
Lemma Example2_transformed (X : list (list (list R))) (stop : Z) (x : list (list R)) :
  METDataset._transform_x (Npz.x Example2.data_b) = Some X ->
  (4 <= stop)%Z ->
  nth_error (map (slice_to (Some stop)) X) 0 = Some x -> length x = 4%nat.
Proof.
  intros HX Hstop Hx.
  pose proof (transform_x_same_rows _ HX) as Hs.
  unfold same_rows in Hs; simpl in Hs.
  inversion Hs as [|r r' l l' Hr Hl' E1 E2]; subst.
  simpl in Hx; injection Hx as <-.
  unfold slice_to.
  destruct (Z.ltb_spec stop 0); [lia|].
  rewrite firstn_all2; [exact Hr | rewrite Hr; simpl; lia].
Qed.

(** A run of C5 on the file of the second example, whose event has two
    real particles in four slots, with [dr_adj = 0.4], for both datasets;
    and on floats, on the event of [Float64.Example], with one real particle
    in two slots and [dr_adj = 0.5]. *)
Lemma adj_mask_real_pairs_witness :
  let pu := PUDataset.Make ["data/b.npz"%string] (Some 10%Z) false (Some 4%Z)
                           (Some (4 / 10)) None 1 in
  let met := METDataset.Make ["data/b.npz"%string] false (Some (4 / 10)) 1
                             None None 0 in
  (exists s i x am eta phi adj,
     nth_error (Gen.yielded (PUDataset.__iter__ Example2.fs pu [])) 0 = Some s /\
     nth_error (Npz.N Example2.data_b) i = Some 2%Z /\
     nth_error (map (slice_to (Some 4%Z)) (Npz.x Example2.data_b)) i = Some x /\
     length x = 4%nat /\
     lookup s "x" = Some (of_matR x) /\
     lookup s "adj_mask" = Some (of_matZ am) /\
     (forall a b, entry am a b = Some 1%Z ->
        (Z.of_nat a < 2)%Z /\ (Z.of_nat b < 2)%Z) /\
     column 1 x = Some eta /\ column 2 x = Some phi /\
     PUDataset.cone_adj eta phi (4 / 10) = Some adj /\
     (forall a, (a < 4)%nat -> (Z.of_nat a < 2)%Z ->
        entry am a a = option_map int_of_bool (truth_at adj a a))) /\
  (exists s X i x am,
     nth_error (Gen.yielded (METDataset.__iter__ Example2.fs met [])) 0 = Some s /\
     METDataset._transform_x (Npz.x Example2.data_b) = Some X /\
     nth_error (Npz.N Example2.data_b) i = Some 2%Z /\
     nth_error (map (slice_to (Some 50%Z)) X) i = Some x /\
     length x = 4%nat /\
     nth_error s 0 = Some (of_matR x) /\
     nth_error s 1 = Some (of_matZ am) /\
     (forall a b, entry am a b = Some 1%Z ->
        (Z.of_nat a < 2)%Z /\ (Z.of_nat b < 2)%Z) /\
     (forall a, (a < 4)%nat -> (Z.of_nat a < 2)%Z -> entry am a a = Some 1%Z)) /\
  (exists am,
     Float64.PUDataset.adj_mask (Some Float64.Example.dr_adj)
       Float64.Example.x 1 = Some (of_matZ am) /\
     (forall a b, entry am a b = Some 1%Z ->
        (Z.of_nat a < 1)%Z /\ (Z.of_nat b < 1)%Z) /\
     entry am 0 0 = Some 1%Z).
Proof.
  intros pu met.
  destruct (@adj_mask_real_pairs Example2.fs [] (4 / 10) Example2_rectangular)
    as (HPU & HMET & HF).
  split; [|split].
  - assert (Hy : exists s,
      nth_error (Gen.yielded (PUDataset.__iter__ Example2.fs pu [])) 0 = Some s).
    { cbv -[Reqb Rleb IZR Rplus Rminus Rmult Rdiv].
      rewrite Reqb_cone.
      eexists; reflexivity. }
    destruct Hy as [s Hs].
    destruct (HPU pu s eq_refl (nth_error_In _ _ Hs))
      as (f & data & i & Ni & x & am & eta & phi & adj
          & Hf & Hd & HN & Hx & Lx & La & H1 & He & Hp & HA & H2).
    destruct (@Example2_event _ _ _ _ Hf Hd HN) as (-> & -> & ->).
    assert (Hl : length x = 4%nat) by (injection Hx as <-; reflexivity).
    exists s, 0%nat, x, am, eta, phi, adj; rewrite Hl in H2;
      repeat split; auto; apply (H1 a b); assumption.
  - assert (Hy : exists s,
      nth_error (Gen.yielded (METDataset.__iter__ Example2.fs met [])) 0 = Some s).
    { cbv -[truthyR IZR Rplus Rminus Rmult Rdiv cos sin sqrt].
      eexists; reflexivity. }
    destruct Hy as [s Hs].
    destruct (HMET met s eq_refl (nth_error_In _ _ Hs))
      as (f & data & X & i & Ni & x & am
          & Hf & Hd & HX & HN & Hx & Lx & La & H1 & H2).
    destruct (@Example2_event _ _ _ _ Hf Hd HN) as (-> & -> & ->).
    pose proof (@Example2_transformed X 50 x HX ltac:(lia) Hx) as Hl.
    exists s, X, 0%nat, x, am; rewrite Hl in H2; repeat split; auto;
      apply (H1 a b); assumption.
  - assert (E : Float64.PUDataset.adj_mask (Some Float64.Example.dr_adj)
                  Float64.Example.x 1
                = Some (of_matZ [[1; 0]; [0; 0]]%Z))
      by (vm_compute; reflexivity).
    destruct (HF _ _ _ _ E) as (am & Eam & H1 & H2).
    exists am; split; [rewrite E, Eam; reflexivity|].
    split; [exact H1|].
    eapply (H2 0%nat);
      [reflexivity | reflexivity | reflexivity | reflexivity | reflexivity
       | reflexivity | lia].
Defined.

(* ================================================================== *)
(** * Further properties of the loaders *)

From Stdlib Require Import Sorting.Sorted.

(** ** The count of [_get_len] and the samples of a pass *)

(** A counting loop that completes has added one summand per element. *)
Lemma fold_each_sum {Y A : Type} (body : nat -> A -> Gen.t Y nat)
    (c : A -> nat -> Prop) (l : list A) :
  (forall acc a g n, Gen.result (body acc a g) = Some n ->
     exists k, n = (acc + k)%nat /\ c a k) ->
  forall acc g n, Gen.result (Gen.fold_each l body acc g) = Some n ->
    exists ks, Forall2 c l ks /\ n = (acc + list_sum ks)%nat.
Proof.
  intros Hb; induction l as [|a l IH]; intros acc g n H; simpl in H.
  - injection H as <-; exists []; split; [constructor | simpl; lia].
  - apply bind_result in H as (acc' & Ha & H & _).
    destruct (Hb _ _ _ _ Ha) as (k & -> & Hk).
    destruct (IH _ _ _ H) as (ks & Hks & ->).
    exists (k :: ks); split; [constructor; assumption | simpl; lia].
Qed.

Lemma bool_index_length {A : Type} (a sel : list A) (m : list bool) :
  bool_index a m = Some sel ->
  length m = length a /\ length sel = length (filter (fun b : bool => b) m).
Proof.
  unfold bool_index; destruct (Nat.eqb _ _) eqn:E; [|discriminate].
  apply Nat.eqb_eq in E; intros H; injection H as <-; split; [exact E|].
  rewrite length_map.
  revert m E; induction a as [|x a IH]; intros [|b m] E; simpl in *;
    try discriminate; [reflexivity|].
  injection E as E; destruct b; simpl; rewrite (IH m E); reflexivity.
Qed.

Lemma filter_length_le {A : Type} (p : A -> bool) (l : list A) :
  (length (filter p l) <= length l)%nat.
Proof. induction l as [|a l IH]; simpl; [lia|]. destruct (p a); simpl; lia. Qed.

Lemma filter_map_length {A : Type} (p : A -> bool) (l : list A) :
  length (filter (fun b : bool => b) (map p l)) = length (filter p l).
Proof.
  induction l as [|a l IH]; simpl; [reflexivity|].
  destruct (p a); simpl; rewrite IH; reflexivity.
Qed.

(** The events of a file that [_get_len] counts. *)
Lemma PU_get_len_body (fs : filesystem) (mm : option R) (acc : nat) (f : string)
    (g : Rng.rng) (n : nat) :
  Gen.result
    (Gen.bind (Y := unit) (Gen.lift (np_load fs f)) (fun data =>
     Gen.bind (Gen.lift (bool_index (Npz.N data)
        match mm with
        | Some m => map (fun x => Rgtb x m) (Npz.met data)
        | None => map (fun _ => true) (Npz.N data)
        end)) (fun sel => Gen.ret (acc + length sel)%nat)) g) = Some n ->
  exists data k,
    np_load fs f = Some data /\ n = (acc + k)%nat /\
    (k <= length (Npz.N data))%nat /\
    k = match mm with
        | Some m => length (filter (fun x => Rgtb x m) (Npz.met data))
        | None => length (Npz.N data)
        end.
Proof.
  intros H.
  apply bind_result in H as (data & Hd & H & _).
  apply bind_result in H as (sel & Hs & H & _).
  unfold Gen.lift in Hd, Hs; simpl in Hd, Hs, H.
  injection H as <-.
  apply bool_index_length in Hs as [Hm Hs].
  exists data, (length sel); repeat split; auto.
  - rewrite Hs, <- Hm; apply filter_length_le.
  - rewrite Hs; destruct mm as [m|].
    + apply filter_map_length.
    + rewrite filter_map_length.
      clear; induction (Npz.N data); simpl; auto.
Qed.

(** The result of [_get_len] over all files. *)
Lemma PU_get_len_sum (fs : filesystem) (self self1 : PUDataset.t)
    (g : Rng.rng) (n : nat) :
  PUDataset.num_max_files self = None ->
  Gen.result (@PUDataset._get_len unit fs self g) = Some (self1, n) ->
  self1 = PUDataset.set_files self (fst (Rng.shuffle (PUDataset._files self) g)) /\
  exists ks,
    Forall2 (fun f k => exists data,
               np_load fs f = Some data /\
               (k <= length (Npz.N data))%nat /\
               k = match PUDataset.min_met self with
                   | Some m => length (filter (fun x => Rgtb x m) (Npz.met data))
                   | None => length (Npz.N data)
                   end)
            (PUDataset._files self1) ks /\
    n = list_sum ks.
Proof.
  intros Hall H; unfold PUDataset._get_len in H.
  apply bind_result in H as (files & Hf & H & _).
  rewrite shuffled_run in *; simpl in *; injection Hf as <-.
  apply bind_result in H as (n' & Hn & H & _).
  injection H as <- <-; split; [reflexivity|].
  rewrite Hall in Hn; simpl in Hn.
  eapply fold_each_sum in Hn.
  - destruct Hn as (ks & Hks & ->); exists ks; split; [exact Hks | reflexivity].
  - intros acc f g' k Hk; simpl.
    apply PU_get_len_body in Hk as (data & k' & Hd & -> & Hle & Hk').
    exists k'; split; [reflexivity|]. exists data; auto.
Qed.

Lemma Forall2_sum_le {A : Type} (c : A -> nat) (P : A -> nat -> Prop)
    (l : list A) (ks : list nat) :
  (forall a k, P a k -> (k <= c a)%nat) ->
  Forall2 P l ks -> (list_sum ks <= list_sum (map c l))%nat.
Proof.
  intros Hle H; induction H as [|a k l ks Hk H IH]; simpl; [lia|].
  specialize (Hle a k Hk); lia.
Qed.

Lemma Forall2_sum_eq {A : Type} (c : A -> nat) (P : A -> nat -> Prop)
    (l : list A) (ks : list nat) :
  (forall a k, P a k -> k = c a) ->
  Forall2 P l ks -> list_sum ks = list_sum (map c l).
Proof.
  intros Heq H; induction H as [|a k l ks Hk H IH]; simpl; [lia|].
  rewrite (Heq a k Hk), IH; reflexivity.
Qed.

(** X1: over all files ([num_max_files] is [None]) and with as many
    particle arrays as particle counts per file, the length of a
    [PUDataset] never exceeds the number of samples of a completed pass,
    and equals it when no [min_met] is configured. *)
Theorem PU_len_le_pass (fs : filesystem) (config : Config.t)
    (g g' : Rng.rng) (self self' : PUDataset.t) :
  Config.num_max_files config = None ->
  (forall f data, np_load fs f = Some data ->
     length (Npz.x data) = length (Npz.N data)) ->
  Gen.result (@PUDataset.__init__ unit fs config g) = Some self ->
  Gen.result (PUDataset.__iter__ fs self g') = Some self' ->
  (PUDataset.__len__ self <= length (Gen.yielded (PUDataset.__iter__ fs self g')))%nat /\
  (Config.min_met config = None ->
   PUDataset.__len__ self = length (Gen.yielded (PUDataset.__iter__ fs self g'))).
Proof.
  intros Hall Hwf Hinit Hiter; unfold PUDataset.__init__ in Hinit.
  apply bind_result in Hinit as ([self1 n] & Hlen & Hret & _).
  injection Hret as <-.
  apply PU_get_len_sum in Hlen as [E (ks & Hks & ->)]; [|exact Hall].
  rewrite (@PU_iter_count fs _ self' g'); auto;
    [|rewrite E; exact Hall].
  unfold PUDataset.__len__; simpl.
  set (c := fun f => match np_load fs f with
                     | Some data => length (Npz.N data)
                     | None => 0%nat
                     end).
  split.
  - apply (Forall2_sum_le c) in Hks; [exact Hks|].
    intros f k (data & Hd & Hle & _); unfold c; rewrite Hd; exact Hle.
  - intros Hmet; apply (Forall2_sum_eq c) in Hks; [exact Hks|].
    intros f k (data & Hd & _ & ->); unfold c; rewrite Hd.
    simpl in Hmet; rewrite Hmet; reflexivity.
Qed.

(** A run of X1 on the example files, without a threshold. *)
Lemma PU_len_le_pass_witness :
  let config := Config.Make ["data/*.npz"%string] None false (Some 4%Z) None None in
  exists self,
    Gen.result (@PUDataset.__init__ unit Example.fs config [3%nat]) = Some self /\
    (PUDataset.__len__ self
       <= length (Gen.yielded (PUDataset.__iter__ Example.fs self [])))%nat /\
    (Config.min_met config = None ->
     PUDataset.__len__ self
       = length (Gen.yielded (PUDataset.__iter__ Example.fs self []))).
Proof.
  intros config.
  eexists; split; [vm_compute; reflexivity|].
  eapply (@PU_len_le_pass Example.fs config [3%nat] []).
  - reflexivity.
  - intros f data; simpl; destruct (String.eqb f "data/a.npz"); [|discriminate].
    intros H; injection H as <-; reflexivity.
  - vm_compute; reflexivity.
  - vm_compute; reflexivity.
Defined.

(** X2: over all files, the length of a [PUDataset] does not depend on the
    random state of the shuffle: it is the number of events that pass the
    threshold, summed over the files. *)
Theorem PU_len_independent_of_shuffle (fs : filesystem) (config : Config.t)
    (g1 g2 : Rng.rng) (self1 self2 : PUDataset.t) :
  Config.num_max_files config = None ->
  Gen.result (@PUDataset.__init__ unit fs config g1) = Some self1 ->
  Gen.result (@PUDataset.__init__ unit fs config g2) = Some self2 ->
  PUDataset.__len__ self1 = PUDataset.__len__ self2 /\
  PUDataset.__len__ self1 =
  list_sum (map (fun f =>
                   match np_load fs f, Config.min_met config with
                   | Some data, Some m =>
                       length (filter (fun x => Rgtb x m) (Npz.met data))
                   | Some data, None => length (Npz.N data)
                   | None, _ => 0%nat
                   end)
                (flat_map (glob fs) (Config.dataset_pattern config))).
Proof.
  intros Hall H1 H2.
  set (c := fun f => match np_load fs f, Config.min_met config with
                     | Some data, Some m =>
                         length (filter (fun x => Rgtb x m) (Npz.met data))
                     | Some data, None => length (Npz.N data)
                     | None, _ => 0%nat
                     end).
  assert (Hc : forall g self,
             Gen.result (@PUDataset.__init__ unit fs config g) = Some self ->
             PUDataset.__len__ self =
             list_sum (map c (flat_map (glob fs) (Config.dataset_pattern config)))).
  { intros g self H; unfold PUDataset.__init__ in H.
    apply bind_result in H as ([s n] & Hlen & Hret & _).
    injection Hret as <-.
    apply PU_get_len_sum in Hlen as [E (ks & Hks & ->)]; [|exact Hall].
    unfold PUDataset.__len__; simpl.
    apply (Forall2_sum_eq c) in Hks.
    - rewrite Hks, E; simpl.
      apply Permutation_list_sum, Permutation_map, Permutation_sym,
            shuffle_Permutation.
    - intros f k (data & Hd & _ & ->); unfold c; rewrite Hd; simpl.
      destruct (Config.min_met config); reflexivity. }
  split; [rewrite (Hc _ _ H1), (Hc _ _ H2); reflexivity | exact (Hc _ _ H1)].
Qed.

Lemma Example2_counts (f : string) (data : Npz.t) :
  np_load Example2.fs f = Some data -> length (Npz.x data) = length (Npz.N data).
Proof.
  simpl; destruct (String.eqb f "data/a.npz");
    [intros H; injection H as <-; reflexivity|].
  destruct (String.eqb f "data/b.npz"); [|discriminate].
  intros H; injection H as <-; reflexivity.
Qed.

(** A run of X2 on two files, with two different random states. *)
Lemma PU_len_independent_of_shuffle_witness :
  let config := Config.Make ["data/*.npz"%string] None false (Some 4%Z) None None in
  exists self1 self2,
    Gen.result (@PUDataset.__init__ unit Example2.fs config []) = Some self1 /\
    Gen.result (@PUDataset.__init__ unit Example2.fs config [1%nat]) = Some self2 /\
    PUDataset._files self1 <> PUDataset._files self2 /\
    PUDataset.__len__ self1 = PUDataset.__len__ self2.
Proof.
  intros config.
  do 2 eexists.
  split; [vm_compute; reflexivity|].
  split; [vm_compute; reflexivity|].
  split; [simpl; discriminate|].
  eapply (@PU_len_independent_of_shuffle Example2.fs config [] [1%nat]);
    [reflexivity | vm_compute; reflexivity | vm_compute; reflexivity].
Defined.

(** ** The length of a [METDataset] and the samples of a pass *)

Lemma MET_get_len_sum (fs : filesystem) (files : list string) :
  forall acc n, METDataset._get_len_from fs files acc = Some n ->
    n = (acc + list_sum (map (fun f => match np_load fs f with
                                       | Some data => length (Npz.N data)
                                       | None => 0%nat
                                       end) files))%nat /\
    forall f, In f files -> np_load fs f <> None.
Proof.
  induction files as [|f files IH]; intros acc n H; simpl in H.
  - injection H as <-; split; [simpl; lia | intros f []].
  - apply obind_some in H as (data & Hd & H).
    apply IH in H as [-> Hl]; simpl; rewrite Hd; split; [lia|].
    intros f' [<-|Hin]; [congruence | auto].
Qed.

(** The samples of one file of a [METDataset] pass that completes. *)
Lemma MET_file_pass_count (fs : filesystem) (self : METDataset.t) (f : string)
    (g : Rng.rng) :
  (forall data, np_load fs f = Some data ->
     length (Npz.x data) = length (Npz.N data)) ->
  Gen.result (METDataset.file_pass fs self f g) = Some tt ->
  length (Gen.yielded (METDataset.file_pass fs self f g)) =
  match np_load fs f with
  | Some data => length (Npz.N data)
  | None => 0%nat
  end.
Proof.
  intros Hwf H; unfold METDataset.file_pass in *.
  apply bind_result in H as (data & Hd & H & ->).
  apply bind_result in H as (X0 & HX & H & ->).
  apply bind_result in H as (P0 & _ & H & ->).
  apply bind_result in H as (P2 & _ & H & ->).
  apply bind_result in H as (calcmet & _ & H & ->).
  apply bind_result in H as (idx & Hidx & H & ->).
  apply bind_result in H as (mets & _ & H & ->).
  rewrite shuffled_run in *; simpl in *.
  injection Hidx as <-.
  rewrite Hd, <- (Hwf data Hd).
  apply transform_x_same_rows, Forall2_length in HX.
  etransitivity.
  { apply for_each_count with (c := fun _ : nat => 1%nat); [|exact H].
    intros i g' _ Hi.
    apply bind_result in Hi as (s & Hs & _ & ->).
    reflexivity. }
  rewrite list_sum_ones.
  rewrite <- (Permutation_length (shuffle_Permutation _ _)), length_seq.
  destruct (METDataset.training_mode self =? 0)%Z;
    [|destruct (METDataset.training_mode self =? 1)%Z];
    rewrite length_map; congruence.
Qed.

(** X3: the length of a [METDataset] is the number of samples of every pass
    that completes, over files with as many particle arrays as particle
    counts. *)
Theorem MET_len_eq_pass (fs : filesystem) (pattern : string) (config : Config.t)
    (mean_met std_met : option R) (training_mode : Z) (g : Rng.rng)
    (self self' : METDataset.t) :
  (forall f data, np_load fs f = Some data ->
     length (Npz.x data) = length (Npz.N data)) ->
  METDataset.__init__ fs pattern config mean_met std_met training_mode = Some self ->
  Gen.result (METDataset.__iter__ fs self g) = Some self' ->
  length (Gen.yielded (METDataset.__iter__ fs self g)) = METDataset.__len__ self.
Proof.
  intros Hwf Hinit H; unfold METDataset.__init__ in Hinit.
  apply obind_some in Hinit as (n & Hn & Hinit); injection Hinit as <-.
  apply MET_get_len_sum in Hn as [-> _].
  unfold METDataset.__len__, METDataset.__iter__ in *; simpl in *.
  apply bind_result in H as (files & Hf & H & ->).
  rewrite shuffled_run in *; simpl in *; injection Hf as <-.
  apply bind_result in H as ([] & Hloop & _ & ->).
  simpl; rewrite length_app, Nat.add_0_r.
  etransitivity.
  { apply for_each_count
      with (c := fun f => match np_load fs f with
                          | Some data => length (Npz.N data)
                          | None => 0%nat
                          end); [|exact Hloop].
    intros f g' _ Hf; apply MET_file_pass_count; [apply Hwf | exact Hf]. }
  apply Permutation_list_sum, Permutation_map, Permutation_sym,
        shuffle_Permutation.
Qed.

(** A run of X3 on two files. *)
Lemma MET_len_eq_pass_witness :
  let config := Config.Make [] None false None None None in
  exists self,
    METDataset.__init__ Example2.fs "data/*.npz" config None None 0 = Some self /\
    METDataset.__len__ self = 3%nat /\
    length (Gen.yielded (METDataset.__iter__ Example2.fs self [1%nat])) =
    METDataset.__len__ self.
Proof.
  intros config.
  eexists; split; [vm_compute; reflexivity|].
  split; [reflexivity|].
  eapply (@MET_len_eq_pass Example2.fs "data/*.npz" config None None 0%Z [1%nat]).
  - exact Example2_counts.
  - vm_compute; reflexivity.
  - cbv -[IZR Rplus Rminus Rmult Rdiv cos sin sqrt]; reflexivity.
Defined.

(** ** What a pass leaves of the dataset *)

(** X4: a pass that completes returns the dataset with its files reordered
    and everything else, its length included, as it was; this holds for
    [PUDataset] and for [METDataset]. *)
Theorem pass_keeps_dataset (fs : filesystem) (g : Rng.rng) :
  (forall self self',
     Gen.result (PUDataset.__iter__ fs self g) = Some self' ->
     Permutation (PUDataset._files self) (PUDataset._files self') /\
     self' = PUDataset.set_files self (PUDataset._files self') /\
     PUDataset.__len__ self' = PUDataset.__len__ self) /\
  (forall self self',
     Gen.result (METDataset.__iter__ fs self g) = Some self' ->
     Permutation (METDataset._files self) (METDataset._files self') /\
     self' = METDataset.set_files self (METDataset._files self') /\
     METDataset.__len__ self' = METDataset.__len__ self).
Proof.
  split; intros self self' H.
  - unfold PUDataset.__iter__ in H.
    apply bind_result in H as (files & Hf & H & _).
    rewrite shuffled_run in *; simpl in *; injection Hf as <-.
    apply bind_result in H as ([] & _ & H & _).
    injection H as <-; simpl.
    split; [apply shuffle_Permutation | split; reflexivity].
  - unfold METDataset.__iter__ in H.
    apply bind_result in H as (files & Hf & H & _).
    rewrite shuffled_run in *; simpl in *; injection Hf as <-.
    apply bind_result in H as ([] & _ & H & _).
    injection H as <-; simpl.
    split; [apply shuffle_Permutation | split; reflexivity].
Qed.

(** A run of X4 on two files: the pass swaps them. *)
Lemma pass_keeps_dataset_witness :
  let pu := PUDataset.Make ["data/b.npz"%string; "data/a.npz"%string] None false
                           (Some 4%Z) None None 3 in
  exists pu',
    Gen.result (PUDataset.__iter__ Example2.fs pu []) = Some pu' /\
    PUDataset._files pu' = ["data/a.npz"%string; "data/b.npz"%string] /\
    Permutation (PUDataset._files pu) (PUDataset._files pu') /\
    pu' = PUDataset.set_files pu (PUDataset._files pu') /\
    PUDataset.__len__ pu' = PUDataset.__len__ pu.
Proof.
  intros pu.
  eexists; split; [vm_compute; reflexivity|].
  split; [reflexivity|].
  apply (proj1 (pass_keeps_dataset Example2.fs [])).
  vm_compute; reflexivity.
Defined.

(** ** Files that cannot be loaded *)

Lemma bind_result_none {Y X X' : Type} (m : Gen.t Y X) (f : X -> Gen.t Y X')
    (g : Rng.rng) :
  Gen.result (m g) = None -> Gen.result (Gen.bind m f g) = None.
Proof. unfold Gen.bind; intros ->; reflexivity. Qed.

Lemma for_each_raises {Y A : Type} (body : A -> Gen.t Y unit) (l : list A)
    (a : A) :
  In a l -> (forall g, Gen.result (body a g) = None) ->
  forall g, Gen.result (Gen.for_each l body g) = None.
Proof.
  intros Hin Ha; induction l as [|b l IH]; intros g; [destruct Hin|].
  simpl; unfold Gen.bind.
  destruct (Gen.result (body b g)) as [[]|] eqn:E; [|reflexivity].
  simpl; destruct Hin as [->|Hin]; [rewrite Ha in E; discriminate|].
  apply IH; exact Hin.
Qed.

Lemma fold_each_raises {Y A S : Type} (body : S -> A -> Gen.t Y S) (l : list A)
    (a : A) :
  In a l -> (forall s g, Gen.result (body s a g) = None) ->
  forall s g, Gen.result (Gen.fold_each l body s g) = None.
Proof.
  intros Hin Ha; induction l as [|b l IH]; intros s g; [destruct Hin|].
  simpl; unfold Gen.bind.
  destruct (Gen.result (body s b g)) as [s'|] eqn:E; [|reflexivity].
  simpl; destruct Hin as [->|Hin]; [rewrite Ha in E; discriminate|].
  apply IH; exact Hin.
Qed.

(** X5: a file that [glob] lists and [np.load] cannot load ends the
    construction of a [PUDataset] over all files with an exception, and so
    it ends every pass over a dataset that holds it. *)
Theorem PU_unloadable_file_raises (fs : filesystem) (f : string) :
  np_load fs f = None ->
  (forall config g,
     Config.num_max_files config = None ->
     In f (flat_map (glob fs) (Config.dataset_pattern config)) ->
     Gen.result (@PUDataset.__init__ unit fs config g) = None) /\
  (forall self g,
     PUDataset.num_max_files self = None ->
     In f (PUDataset._files self) ->
     Gen.result (PUDataset.__iter__ fs self g) = None).
Proof.
  intros Hf; split.
  - intros config g Hall Hin.
    unfold PUDataset.__init__; apply bind_result_none.
    unfold PUDataset._get_len; unfold Gen.bind at 1.
    rewrite shuffled_run; simpl.
    apply bind_result_none; rewrite Hall; simpl.
    apply fold_each_raises with (a := f).
    + eapply Permutation_in; [apply shuffle_Permutation | exact Hin].
    + intros s g'; apply bind_result_none.
      unfold Gen.lift; simpl; exact Hf.
  - intros self g Hall Hin.
    unfold PUDataset.__iter__; unfold Gen.bind at 1.
    rewrite shuffled_run; simpl.
    apply bind_result_none; rewrite Hall; simpl.
    apply for_each_raises with (a := f).
    + eapply Permutation_in; [apply shuffle_Permutation | exact Hin].
    + intros g'; unfold PUDataset.file_pass; apply bind_result_none.
      unfold Gen.lift; simpl; exact Hf.
Qed.

(** A run of X5: a dataset over the pattern of the lost file. *)
Lemma PU_unloadable_file_raises_witness :
  let config := Config.Make ["data/*.npz"%string; "lost/*.npz"%string] None
                            false (Some 4%Z) None None in
  let self := PUDataset.Make ["data/a.npz"%string; "lost/c.npz"%string] None
                             false (Some 4%Z) None None 2 in
  Gen.result (@PUDataset.__init__ unit Example2.fs config [1%nat]) = None /\
  Gen.result (PUDataset.__iter__ Example2.fs self [1%nat]) = None.
Proof.
  intros config self.
  destruct (@PU_unloadable_file_raises Example2.fs "lost/c.npz" eq_refl)
    as [Hinit Hiter].
  split.
  - apply Hinit; [reflexivity | simpl; auto].
  - apply Hiter; [reflexivity | simpl; auto].
Defined.

(** X6: a [METDataset] cannot be built over a file that does not load: its
    construction raises as soon as one of the selected files, the first
    [num_max_files] in name order, cannot be loaded. *)
Theorem MET_unloadable_file_raises (fs : filesystem) (pattern : string)
    (config : Config.t) (mean_met std_met : option R) (training_mode : Z)
    (f : string) :
  np_load fs f = None ->
  In f (slice_to (Config.num_max_files config)
                 (StringSort.sort (glob fs pattern))) ->
  METDataset.__init__ fs pattern config mean_met std_met training_mode = None.
Proof.
  intros Hf Hin; unfold METDataset.__init__.
  destruct (METDataset._get_len fs _) as [n|] eqn:E; [|reflexivity].
  apply MET_get_len_sum in E as [_ Hl].
  elim (Hl f Hin Hf).
Qed.

(** A run of X6 on the pattern of the lost file. *)
Lemma MET_unloadable_file_raises_witness :
  METDataset.__init__ Example2.fs "lost/*.npz"
    (Config.Make [] (Some 5%Z) false None None None) None None 0 = None.
Proof.
  apply (@MET_unloadable_file_raises Example2.fs "lost/*.npz" _ None None 0%Z
           "lost/c.npz"); [reflexivity | vm_compute; auto].
Defined.

(** ** Where [y[~mask] = -1] writes *)

Lemma fold_set_nth {A : Type} (v : A) (ks : list nat) :
  forall (a : list A) (j : nat),
  nth_error (fold_left (fun acc k => set_nth k v acc) ks a) j =
  if existsb (Nat.eqb j) ks
  then (if (j <? length a)%nat then Some v else None)
  else nth_error a j.
Proof.
  induction ks as [|k ks IH]; intros a j; simpl; [reflexivity|].
  rewrite IH, set_nth_length, nth_error_set_nth.
  destruct (Nat.eqb_spec j k) as [->|Hne]; simpl.
  - destruct (existsb (Nat.eqb k) ks); reflexivity.
  - reflexivity.
Qed.

Lemma fold_set_nth_length {A : Type} (v : A) (ks : list nat) (a : list A) :
  length (fold_left (fun acc k => set_nth k v acc) ks a) = length a.
Proof.
  revert a; induction ks as [|k ks IH]; intros a; simpl; [reflexivity|].
  rewrite IH; apply set_nth_length.
Qed.

Lemma norm_index_from_end (n : nat) (k : nat) :
  (0 < k <= n)%nat -> norm_index n (- Z.of_nat k) = Some (n - k)%nat.
Proof.
  intros Hk; unfold norm_index.
  assert (E1 : (- Z.of_nat k <? 0)%Z = true) by (apply Z.ltb_lt; lia).
  rewrite E1.
  assert (E2 : ((0 <=? - Z.of_nat k + Z.of_nat n)%Z
                && (- Z.of_nat k + Z.of_nat n <? Z.of_nat n)%Z)%bool = true)
    by (apply andb_true_iff; split; [apply Z.leb_le | apply Z.ltb_lt]; lia).
  rewrite E2; f_equal; lia.
Qed.

(** The positions that the complement of the int mask names: -2 for a real
    particle, -1 for a padded one. *)
Lemma lnot_mask_positions (n : nat) (Ni : Z) :
  (2 <= n)%nat ->
  mapM (norm_index n)
       (map Z.lnot (map (fun k => int_of_bool (Z.of_nat k <? Ni)%Z) (seq 0 n)))
  = Some (map (fun k => if (Z.of_nat k <? Ni)%Z then (n - 2)%nat else (n - 1)%nat)
              (seq 0 n)).
Proof.
  intros Hn; rewrite !map_map.
  generalize (seq 0 n) as l; induction l as [|k l IH]; [reflexivity|].
  cbn [map mapM]; rewrite IH.
  destruct (Z.of_nat k <? Ni)%Z; cbn [int_of_bool].
  - change (Z.lnot 1) with (- Z.of_nat 2)%Z.
    rewrite norm_index_from_end by lia; reflexivity.
  - change (Z.lnot 0) with (- Z.of_nat 1)%Z.
    rewrite norm_index_from_end by lia; reflexivity.
Qed.

Lemma written_positions (n : nat) (Ni : Z) (j : nat) :
  (2 <= n)%nat -> (j < n)%nat ->
  existsb (Nat.eqb j)
    (map (fun k => if (Z.of_nat k <? Ni)%Z then (n - 2)%nat else (n - 1)%nat)
         (seq 0 n)) =
  (((j =? n - 1)%nat && (Ni <? Z.of_nat n)%Z)
   || ((j =? n - 2)%nat && (0 <? Ni)%Z))%bool.
Proof.
  intros Hn Hj.
  apply eq_true_iff_eq; rewrite existsb_exists, orb_true_iff, !andb_true_iff.
  rewrite !Nat.eqb_eq, !Z.ltb_lt; split.
  - intros (p & Hin & Hp). apply in_map_iff in Hin as (k & <- & Hk).
    apply in_seq in Hk; apply Nat.eqb_eq in Hp.
    destruct (Z.ltb_spec (Z.of_nat k) Ni); [right | left]; split; lia.
  - intros [[-> HN]|[-> HN]].
    + exists (n - 1)%nat; split; [|apply Nat.eqb_refl].
      apply in_map_iff; exists (n - 1)%nat; split; [|apply in_seq; lia].
      destruct (Z.ltb_spec (Z.of_nat (n - 1)) Ni); [lia | reflexivity].
    + exists (n - 2)%nat; split; [|apply Nat.eqb_refl].
      apply in_map_iff; exists 0%nat; split; [|apply in_seq; lia].
      destruct (Z.ltb_spec (Z.of_nat 0) Ni); [reflexivity | lia].
Qed.

(** X7: with at least two particle slots, the masking [y[~mask] = -1] of
    [PUDataset.__iter__] writes -1 at the last slot when the event has a
    padded particle and at the slot before it when the event has a real
    particle, and leaves every other label as loaded; without
    [mask_charged] that is the yielded ['y']. *)
Theorem labels_written_by_position (self : PUDataset.t) (x : list (list R))
    (Yi : list Z) (Ni : Z) :
  let n := length Yi in
  let mask := map (fun k => int_of_bool (Z.of_nat k <? Ni)%Z) (seq 0 n) in
  (2 <= n)%nat ->
  (PUDataset.mask_charged self = false ->
   exists y, PUDataset.labels self x Yi mask = Some (y, y)) /\
  (forall y orig_y,
     PUDataset.labels self x Yi mask = Some (y, orig_y) ->
     length orig_y = n /\
     forall j, (j < n)%nat ->
       nth_error orig_y j =
       if (((j =? n - 1)%nat && (Ni <? Z.of_nat n)%Z)
           || ((j =? n - 2)%nat && (0 <? Ni)%Z))%bool
       then Some (-1)%Z
       else nth_error Yi j).
Proof.
  intros n mask Hn.
  assert (Hput : put_at Yi (map Z.lnot mask) (-1)%Z =
                 Some (fold_left (fun acc k => set_nth k (-1)%Z acc)
                   (map (fun k => if (Z.of_nat k <? Ni)%Z
                                  then (n - 2)%nat else (n - 1)%nat) (seq 0 n))
                   Yi)).
  { unfold put_at, mask; fold n.
    rewrite (lnot_mask_positions Ni Hn); reflexivity. }
  split.
  - intros Hq; unfold PUDataset.labels; rewrite Hput, Hq; simpl; eauto.
  - intros y orig_y H; unfold PUDataset.labels in H; rewrite Hput in H.
    simpl in H. apply obind_some in H as (y' & _ & H); injection H as _ <-.
    split; [apply fold_set_nth_length|].
    intros j Hj; rewrite fold_set_nth, (written_positions Ni Hn Hj).
    fold n; apply Nat.ltb_lt in Hj; rewrite Hj; reflexivity.
Qed.

(** A run of X7: four slots and one real particle. *)
Lemma labels_written_by_position_witness :
  let self := PUDataset.Make [] None false (Some 4%Z) None None 0 in
  let Yi := [1; 1; 1; 1]%Z in
  let mask := map (fun k => int_of_bool (Z.of_nat k <? 1)%Z) (seq 0 4) in
  PUDataset.labels self [] Yi mask = Some ([1; 1; -1; -1]%Z, [1; 1; -1; -1]%Z) /\
  (exists y, PUDataset.labels self [] Yi mask = Some (y, y)) /\
  (forall y orig_y,
     PUDataset.labels self [] Yi mask = Some (y, orig_y) ->
     length orig_y = 4%nat /\
     forall j, (j < 4)%nat ->
       nth_error orig_y j =
       if (((j =? 3)%nat && (1 <? 4)%Z) || ((j =? 2)%nat && (0 <? 1)%Z))%bool
       then Some (-1)%Z
       else nth_error Yi j).
Proof.
  intros self Yi mask.
  split; [reflexivity|].
  destruct (@labels_written_by_position self [] Yi 1%Z) as [H1 H2];
    [simpl; lia|].
  split; [apply H1; reflexivity | exact H2].
Defined.

(** X8: with a single particle slot, an event that has a real particle
    cannot be yielded: [~mask] holds -2, which is out of bounds for one
    label, and the event raises. *)
Theorem single_slot_event_raises (self : PUDataset.t) (d : Npz.t) (i : nat)
    (Ni y0 : Z) :
  nth_error (Npz.N d) i = Some Ni ->
  (0 < Ni)%Z ->
  nth_error (Npz.y d) i = Some [y0] ->
  PUDataset.event self d (seq 0 1) i = None.
Proof.
  intros HN Hpos HY; unfold PUDataset.event; rewrite HN; simpl.
  destruct (nth_error (Npz.x d) i) as [x|]; simpl; [|reflexivity].
  destruct (PUDataset.adjacency self x _) as [adj|]; simpl; [|reflexivity].
  rewrite HY; simpl.
  apply Z.ltb_lt in Hpos; rewrite Hpos; reflexivity.
Qed.

(** A run of X8: the example files cut to one particle slot. *)
Lemma single_slot_event_raises_witness :
  let self := PUDataset.Make ["data/a.npz"%string] None false (Some 1%Z) None
                             None 2 in
  PUDataset.event self (PUDataset.sliced self Example.data) (seq 0 1) 0 = None /\
  Gen.result (PUDataset.__iter__ Example.fs self []) = None.
Proof.
  intros self; split.
  - apply (@single_slot_event_raises self (PUDataset.sliced self Example.data)
             0%nat 1%Z 1%Z); [reflexivity | lia | reflexivity].
  - vm_compute; reflexivity.
Defined.

(** ** Charged particles *)

(** X9: with [mask_charged] on, every sample yielded by
    [PUDataset.__iter__] has the label -1 at every particle whose charge
    feature [x[:, 5]] is not zero, and as many labels as particles. *)
Theorem charged_labels_masked (fs : filesystem) (self : PUDataset.t)
    (g : Rng.rng) (s : dict (ndarray scalar)) :
  PUDataset.mask_charged self = true ->
  In s (Gen.yielded (PUDataset.__iter__ fs self g)) ->
  exists x y,
    lookup s "x" = Some (of_matR x) /\
    lookup s "y" = Some (of_vecZ y) /\
    length y = length x /\
    forall j row c, nth_error x j = Some row -> nth_error row 5 = Some c ->
      c <> 0 -> nth_error y j = Some (-1)%Z.
Proof.
  intros Hq H.
  apply PU_iter_yielded in H as (files & f & data & i & _ & H).
  apply PU_event_fields in H
    as (Ni & x & Yi & y & orig_y & adj & _ & _ & _ & _ & Hl & Hx & Hy & _).
  exists x, y; split; [exact Hx|]. split; [exact Hy|].
  unfold PUDataset.labels in Hl; simpl in Hl; rewrite Hq in Hl.
  apply obind_some in Hl as (y0 & _ & Hl).
  apply obind_some in Hl as (y1 & Hy1 & Hl).
  injection Hl as <- _.
  apply obind_some in Hy1 as (x5 & Hx5 & Hy1).
  unfold put_mask in Hy1.
  destruct (Nat.eqb _ _) eqn:El; [|discriminate].
  apply Nat.eqb_eq in El; rewrite length_map in El.
  injection Hy1 as <-.
  assert (Hlen : length x5 = length x) by (eapply mapM_length; exact Hx5).
  split; [rewrite zip_with_length; rewrite ?length_map; congruence|].
  intros j row c Hr Hc Hnz.
  rewrite nth_error_zip_with, nth_error_map.
  destruct (@column_nth_of _ _ _ _ _ _ Hx5 Hr) as [E _]; rewrite E, Hc; simpl.
  destruct (nth_error y0 j) eqn:Ey.
  - apply Reqb_false_iff in Hnz; rewrite Hnz; reflexivity.
  - apply nth_error_None in Ey.
    assert (j < length x)%nat by (apply nth_error_Some; congruence). lia.
Qed.

(** A run of X9 on the example, whose first particle is charged. *)
Lemma charged_labels_masked_witness :
  let self := PUDataset.Make ["data/a.npz"%string] (Some 10%Z) true (Some 4%Z)
                             None None 2 in
  exists s x y,
    nth_error (Gen.yielded (PUDataset.__iter__ Example.fs self [])) 0 = Some s /\
    lookup s "x" = Some (of_matR x) /\
    lookup s "y" = Some (of_vecZ y) /\
    length y = length x /\
    forall j row c, nth_error x j = Some row -> nth_error row 5 = Some c ->
      c <> 0 -> nth_error y j = Some (-1)%Z.
Proof.
  intros self.
  assert (Hy : exists s,
    nth_error (Gen.yielded (PUDataset.__iter__ Example.fs self [])) 0 = Some s).
  { cbv -[Reqb IZR]; eexists; reflexivity. }
  destruct Hy as [s Hs].
  destruct (@charged_labels_masked Example.fs self [] s eq_refl
              (nth_error_In _ _ Hs)) as (x & y & H).
  exists s, x, y; split; [exact Hs | exact H].
Defined.

(** ** The adjacency mask, entry by entry *)

(** X10: with [dr_adj] configured, whatever its value, every sample yielded
    by [METDataset.__iter__] is the sample of an event [i] of a file of the
    dataset, and its adjacency mask is the identity cut to the real
    particles of that event: entry (a, b) is 1 when [a = b] is below the
    particle count [N[i]], and 0 otherwise. *)
Theorem MET_adj_mask_diagonal (fs : filesystem) (self : METDataset.t)
    (g : Rng.rng) (dr : R) (s : list (ndarray scalar)) :
  (forall f data, np_load fs f = Some data -> rectangular (Npz.x data)) ->
  METDataset.dr_adj self = Some dr ->
  In s (Gen.yielded (METDataset.__iter__ fs self g)) ->
  exists f data X i Ni x am,
    In f (METDataset._files self) /\
    np_load fs f = Some data /\
    METDataset._transform_x (Npz.x data) = Some X /\
    nth_error (Npz.N data) i = Some Ni /\
    nth_error
      (map (slice_to
              (Some (if (METDataset.training_mode self =? 0)%Z
                     then 50%Z else 200%Z))) X) i = Some x /\
    nth_error s 0 = Some (of_matR x) /\
    nth_error s 1 = Some (of_matZ am) /\
    forall a b, (a < length x)%nat -> (b < length x)%nat ->
      entry am a b =
      Some (if ((a =? b)%nat && (Z.of_nat a <? Ni)%Z)%bool then 1%Z else 0%Z).
Proof.
  intros Hrect Hdr H.
  apply MET_iter_event in H
    as (files & f & data & X0 & P0 & P2 & cm & mets & i
        & Hf & Hd & HX & _ & _ & _ & _ & H).
  apply MET_event_fields in H as (Ni & x & adj & HN & Hx & Hadj & Lx & La).
  assert (Hr : rectangular
                 (map (slice_to
                         (Some (if (METDataset.training_mode self =? 0)%Z
                                then 50%Z else 200%Z))) X0)).
  { apply rectangular_slice.
    eapply same_rows_rectangular;
      [apply transform_x_same_rows; exact HX | eapply Hrect; eauto]. }
  rewrite <- (rectangular_row i Hr Hx) in Hadj.
  unfold METDataset.adjacency in Hadj; simpl in Hadj, Hdr; rewrite Hdr in Hadj.
  apply obind_some in Hadj as (m & Hm & Hadj); injection Hadj as <-.
  destruct (eye_truth (length x)) as (Hl & Hrows & _).
  exists f, data, X0, i, Ni, x, (map (map int_of_bool) m).
  repeat split; auto.
  intros a b Ha Hb.
  rewrite (@masked_adjacency_entry _ _ _ _ Hl Hrows Hm a b Ha Hb).
  simpl; rewrite entry_map_map, entry_eye.
  apply Nat.ltb_lt in Ha, Hb; rewrite Ha, Hb; simpl.
  destruct (Nat.eqb_spec a b) as [->|Hne].
  - rewrite truthyR_1; simpl. rewrite andb_diag; reflexivity.
  - rewrite truthyR_0; reflexivity.
Qed.

(** A run of X10 on the file of the second example, whose event has two
    real particles in four slots. *)
Lemma MET_adj_mask_diagonal_witness :
  let met := METDataset.Make ["data/b.npz"%string] false (Some (4 / 10)) 1
                             None None 0 in
  exists s X x am,
    nth_error (Gen.yielded (METDataset.__iter__ Example2.fs met [])) 0 = Some s /\
    METDataset._transform_x (Npz.x Example2.data_b) = Some X /\
    nth_error (Npz.N Example2.data_b) 0 = Some 2%Z /\
    nth_error (map (slice_to (Some 50%Z)) X) 0 = Some x /\
    length x = 4%nat /\
    nth_error s 0 = Some (of_matR x) /\
    nth_error s 1 = Some (of_matZ am) /\
    forall a b, (a < 4)%nat -> (b < 4)%nat ->
      entry am a b =
      Some (if ((a =? b)%nat && (Z.of_nat a <? 2)%Z)%bool then 1%Z else 0%Z).
Proof.
  intros met.
  assert (Hy : exists s,
    nth_error (Gen.yielded (METDataset.__iter__ Example2.fs met [])) 0 = Some s).
  { cbv -[truthyR IZR Rplus Rminus Rmult Rdiv cos sin sqrt].
    eexists; reflexivity. }
  destruct Hy as [s Hs].
  destruct (@MET_adj_mask_diagonal Example2.fs met [] (4 / 10) s
              Example2_rectangular eq_refl (nth_error_In _ _ Hs))
    as (f & data & X & i & Ni & x & am & Hf & Hd & HX & HN & Hx & Lx & La & H).
  destruct (@Example2_event _ _ _ _ Hf Hd HN) as (-> & -> & ->).
  pose proof (@Example2_transformed X 50 x HX ltac:(lia) Hx) as Hl.
  rewrite Hl in H.
  exists s, X, x, am; repeat split; auto.
Defined.

(** X11: with a nonzero [dr_adj], every sample yielded by
    [PUDataset.__iter__] is the sample of an event [i] of a file of the
    dataset; its adjacency mask holds 0 and 1 only, and entry (a, b) is 1
    exactly when both particles are below the particle count [N[i]] and
    their squared distance in [(eta, phi)], the features 1 and 2 of
    [x = X[i]], is at most [dr_adj^2]. *)
Theorem PU_adj_mask_cone (fs : filesystem) (self : PUDataset.t) (g : Rng.rng)
    (dr : R) (s : dict (ndarray scalar)) :
  (forall f data, np_load fs f = Some data -> rectangular (Npz.x data)) ->
  PUDataset.dr_adj self = Some dr ->
  dr <> 0 ->
  In s (Gen.yielded (PUDataset.__iter__ fs self g)) ->
  exists f data i Ni x am,
    In f (PUDataset._files self) /\
    np_load fs f = Some data /\
    nth_error (Npz.N data) i = Some Ni /\
    nth_error (map (slice_to (PUDataset.n_particles self)) (Npz.x data)) i
      = Some x /\
    lookup s "x" = Some (of_matR x) /\
    lookup s "adj_mask" = Some (of_matZ am) /\
    forall a b ra rb ea pa eb pb,
      nth_error x a = Some ra -> nth_error x b = Some rb ->
      nth_error ra 1 = Some ea -> nth_error ra 2 = Some pa ->
      nth_error rb 1 = Some eb -> nth_error rb 2 = Some pb ->
      exists v, entry am a b = Some v /\
        (v = 0%Z \/ v = 1%Z) /\
        (v = 1%Z <->
         (Z.of_nat a < Ni)%Z /\ (Z.of_nat b < Ni)%Z /\
         (ea - eb) * (ea - eb) + (pa - pb) * (pa - pb) <= dr * dr).
Proof.
  intros Hrect Hdr Hnz H.
  apply PU_iter_event in H as (files & f & data & i & Hf & Hd & H).
  apply PU_event_fields in H
    as (Ni & x & Yi & y & oy & adj & HN & Hx & _ & Hadj & _ & Lx & _ & La & _).
  cbn [PUDataset.sliced Npz.x PUDataset.set_files PUDataset.n_particles]
    in Hx, Hadj.
  rewrite <- (rectangular_row i (rectangular_slice _ (Hrect f data Hd)) Hx)
    in Hadj.
  unfold PUDataset.adjacency in Hadj; simpl in Hadj, Hdr; rewrite Hdr in Hadj.
  apply obind_some in Hadj as (x1 & H1 & Hadj).
  apply obind_some in Hadj as (x2 & H2 & Hadj).
  apply obind_some in Hadj as (A & HA & Hadj).
  apply obind_some in Hadj as (m & Hm & Hadj).
  injection Hadj as <-.
  assert (L1 : length x1 = length x) by (eapply mapM_length; exact H1).
  assert (L2 : length x2 = length x) by (eapply mapM_length; exact H2).
  destruct (cone_adj_shape x1 x2 dr) as (A' & HA' & Hl & Hrows);
    [congruence|].
  rewrite HA in HA'; injection HA' as <-.
  rewrite L1 in Hl, Hrows.
  rewrite cone_adj_nonzero in HA by congruence; injection HA as <-.
  rewrite map_map in Hm.
  rewrite (map_ext _ (fun k => (Z.of_nat k <? Ni)%Z)) in Hm
    by (intros k; apply truthyZ_int_of_bool).
  exists f, data, i, Ni, x, (map (map int_of_bool) m).
  repeat split; auto.
  intros a b ra rb ea pa eb pb Ha Hb Hea Hpa Heb Hpb.
  assert (La' : (a < length x)%nat) by (apply nth_error_Some; congruence).
  assert (Lb' : (b < length x)%nat) by (apply nth_error_Some; congruence).
  rewrite (@masked_adjacency_entry _ _ _ _ Hl Hrows Hm a b La' Lb').
  simpl; rewrite entry_map_map, entry_dr2.
  destruct (@column_nth_of _ _ _ _ _ _ H1 Ha) as [-> _].
  destruct (@column_nth_of _ _ _ _ _ _ H1 Hb) as [-> _].
  destruct (@column_nth_of _ _ _ _ _ _ H2 Ha) as [-> _].
  destruct (@column_nth_of _ _ _ _ _ _ H2 Hb) as [-> _].
  rewrite Hea, Heb, Hpa, Hpb; simpl.
  eexists; split; [reflexivity|].
  destruct (Rleb _ _) eqn:Ed, (Z.ltb_spec (Z.of_nat a) Ni),
           (Z.ltb_spec (Z.of_nat b) Ni); simpl;
    (split; [auto|]);
    try (apply Rleb_true_iff in Ed);
    try (assert (Ed' : ~ (ea - eb) * (ea - eb) + (pa - pb) * (pa - pb) <= dr * dr)
           by (intros Hc; apply Rleb_true_iff in Hc; congruence));
    split; try (intros (? & ? & ?)); try intros ?;
    try discriminate; try lia; try contradiction; auto.
Qed.

(** A run of X11 on the file of the second example, whose event has two
    real particles in four slots, with [dr_adj = 0.4]. *)
Lemma PU_adj_mask_cone_witness :
  let pu := PUDataset.Make ["data/b.npz"%string] (Some 10%Z) false (Some 4%Z)
                           (Some (4 / 10)) None 1 in
  exists s x am,
    nth_error (Gen.yielded (PUDataset.__iter__ Example2.fs pu [])) 0 = Some s /\
    nth_error (Npz.N Example2.data_b) 0 = Some 2%Z /\
    nth_error (map (slice_to (Some 4%Z)) (Npz.x Example2.data_b)) 0 = Some x /\
    length x = 4%nat /\
    lookup s "x" = Some (of_matR x) /\
    lookup s "adj_mask" = Some (of_matZ am) /\
    forall a b ra rb ea pa eb pb,
      nth_error x a = Some ra -> nth_error x b = Some rb ->
      nth_error ra 1 = Some ea -> nth_error ra 2 = Some pa ->
      nth_error rb 1 = Some eb -> nth_error rb 2 = Some pb ->
      exists v, entry am a b = Some v /\
        (v = 0%Z \/ v = 1%Z) /\
        (v = 1%Z <->
         (Z.of_nat a < 2)%Z /\ (Z.of_nat b < 2)%Z /\
         (ea - eb) * (ea - eb) + (pa - pb) * (pa - pb) <= 4 / 10 * (4 / 10)).
Proof.
  intros pu.
  assert (Hy : exists s,
    nth_error (Gen.yielded (PUDataset.__iter__ Example2.fs pu [])) 0 = Some s).
  { cbv -[Reqb Rleb IZR Rplus Rminus Rmult Rdiv].
    rewrite Reqb_cone.
    eexists; reflexivity. }
  destruct Hy as [s Hs].
  assert (Hnz : 4 / 10 <> 0) by lra.
  destruct (@PU_adj_mask_cone Example2.fs pu [] (4 / 10) s
              Example2_rectangular eq_refl Hnz (nth_error_In _ _ Hs))
    as (f & data & i & Ni & x & am & Hf & Hd & HN & Hx & Lx & La & H).
  destruct (@Example2_event _ _ _ _ Hf Hd HN) as (-> & -> & ->).
  assert (Hl : length x = 4%nat) by (injection Hx as <-; reflexivity).
  exists s, x, am; repeat split; auto.
Defined.

(** X12: without [dr_adj], every sample yielded by either dataset is the
    sample of an event [i] of a file of the dataset, and holds the particle
    mask of that event in place of an adjacency matrix: a vector with one
    entry per particle slot of [x = X[i]], 1 below the particle count
    [N[i]] and 0 from there on. *)
Theorem adj_mask_without_dr_adj (fs : filesystem) (g : Rng.rng) :
  (forall f data, np_load fs f = Some data -> rectangular (Npz.x data)) ->
  (forall self s,
     PUDataset.dr_adj self = None ->
     In s (Gen.yielded (PUDataset.__iter__ fs self g)) ->
     exists f data i Ni x,
       In f (PUDataset._files self) /\
       np_load fs f = Some data /\
       nth_error (Npz.N data) i = Some Ni /\
       nth_error (map (slice_to (PUDataset.n_particles self)) (Npz.x data)) i
         = Some x /\
       lookup s "x" = Some (of_matR x) /\
       lookup s "adj_mask" = lookup s "mask" /\
       lookup s "adj_mask" =
       Some (of_vecZ (map (fun k => int_of_bool (Z.of_nat k <? Ni)%Z)
                          (seq 0 (length x))))) /\
  (forall self s,
     METDataset.dr_adj self = None ->
     In s (Gen.yielded (METDataset.__iter__ fs self g)) ->
     exists f data X i Ni x,
       In f (METDataset._files self) /\
       np_load fs f = Some data /\
       METDataset._transform_x (Npz.x data) = Some X /\
       nth_error (Npz.N data) i = Some Ni /\
       nth_error
         (map (slice_to
                 (Some (if (METDataset.training_mode self =? 0)%Z
                        then 50%Z else 200%Z))) X) i = Some x /\
       nth_error s 0 = Some (of_matR x) /\
       nth_error s 1 =
       Some (of_vecZ (map (fun k => int_of_bool (Z.of_nat k <? Ni)%Z)
                          (seq 0 (length x))))).
Proof.
  intros Hrect; split; intros self s Hdr H.
  - apply PU_iter_event in H as (files & f & data & i & Hf & Hd & H).
    apply PU_event_fields in H
      as (Ni & x & Yi & y & oy & adj & HN & Hx & _ & Hadj & _ & Lx & _ & La & _ & Lm).
    cbn [PUDataset.sliced Npz.x PUDataset.set_files PUDataset.n_particles]
      in Hx, Hadj, Lm.
    rewrite <- (rectangular_row i (rectangular_slice _ (Hrect f data Hd)) Hx)
      in Hadj, Lm.
    unfold PUDataset.adjacency in Hadj; simpl in Hadj, Hdr; rewrite Hdr in Hadj.
    injection Hadj as <-.
    exists f, data, i, Ni, x; repeat split; auto; congruence.
  - apply MET_iter_event in H
      as (files & f & data & X0 & P0 & P2 & cm & mets & i
          & Hf & Hd & HX & _ & _ & _ & _ & H).
    apply MET_event_fields in H as (Ni & x & adj & HN & Hx & Hadj & Lx & La).
    assert (Hr : rectangular
                   (map (slice_to
                           (Some (if (METDataset.training_mode self =? 0)%Z
                                  then 50%Z else 200%Z))) X0)).
    { apply rectangular_slice.
      eapply same_rows_rectangular;
        [apply transform_x_same_rows; exact HX | eapply Hrect; eauto]. }
    rewrite <- (rectangular_row i Hr Hx) in Hadj.
    unfold METDataset.adjacency in Hadj; simpl in Hadj, Hdr; rewrite Hdr in Hadj.
    injection Hadj as <-.
    exists f, data, X0, i, Ni, x; repeat split; auto.
    rewrite La, map_map; reflexivity.
Qed.

(** A run of X12 on the file of the second example, whose event has two
    real particles in four slots, for both datasets. *)
Lemma adj_mask_without_dr_adj_witness :
  let pu := PUDataset.Make ["data/b.npz"%string] None false (Some 4%Z) None
                           None 1 in
  let met := METDataset.Make ["data/b.npz"%string] false None 1 None None 0 in
  (exists s x,
     nth_error (Gen.yielded (PUDataset.__iter__ Example2.fs pu [])) 0 = Some s /\
     nth_error (Npz.N Example2.data_b) 0 = Some 2%Z /\
     nth_error (map (slice_to (Some 4%Z)) (Npz.x Example2.data_b)) 0 = Some x /\
     lookup s "x" = Some (of_matR x) /\
     lookup s "adj_mask" = lookup s "mask" /\
     lookup s "adj_mask" = Some (of_vecZ [1; 1; 0; 0]%Z)) /\
  (exists s X x,
     nth_error (Gen.yielded (METDataset.__iter__ Example2.fs met [])) 0 = Some s /\
     METDataset._transform_x (Npz.x Example2.data_b) = Some X /\
     nth_error (Npz.N Example2.data_b) 0 = Some 2%Z /\
     nth_error (map (slice_to (Some 50%Z)) X) 0 = Some x /\
     nth_error s 0 = Some (of_matR x) /\
     nth_error s 1 = Some (of_vecZ [1; 1; 0; 0]%Z)).
Proof.
  intros pu met.
  destruct (@adj_mask_without_dr_adj Example2.fs [] Example2_rectangular)
    as [HPU HMET].
  split.
  - assert (Hy : exists s,
      nth_error (Gen.yielded (PUDataset.__iter__ Example2.fs pu [])) 0 = Some s).
    { vm_compute; eexists; reflexivity. }
    destruct Hy as [s Hs].
    destruct (HPU pu s eq_refl (nth_error_In _ _ Hs))
      as (f & data & i & Ni & x & Hf & Hd & HN & Hx & Lx & Lm & La).
    destruct (@Example2_event _ _ _ _ Hf Hd HN) as (-> & -> & ->).
    assert (Hl : length x = 4%nat) by (injection Hx as <-; reflexivity).
    rewrite Hl in La.
    exists s, x; repeat split; auto.
  - assert (Hy : exists s,
      nth_error (Gen.yielded (METDataset.__iter__ Example2.fs met [])) 0 = Some s).
    { cbv -[IZR Rplus Rminus Rmult Rdiv cos sin sqrt]; eexists; reflexivity. }
    destruct Hy as [s Hs].
    destruct (HMET met s eq_refl (nth_error_In _ _ Hs))
      as (f & data & X & i & Ni & x & Hf & Hd & HX & HN & Hx & Lx & La).
    destruct (@Example2_event _ _ _ _ Hf Hd HN) as (-> & -> & ->).
    pose proof (@Example2_transformed X 50 x HX ltac:(lia) Hx) as Hl.
    rewrite Hl in La.
    exists s, X, x; repeat split; auto.
Defined.

(** ** The coordinate transform, on rows that are too short *)

Lemma mapM_raises {A B : Type} (f : A -> option B) (l : list A) (a : A) :
  In a l -> f a = None -> mapM f l = None.
Proof.
  intros Hin Ha; induction l as [|b l IH]; [destruct Hin|]; simpl.
  destruct Hin as [->|Hin]; [rewrite Ha; reflexivity|].
  rewrite (IH Hin); destruct (f b); reflexivity.
Qed.

(** X13: [METDataset._transform_x] raises on an array that holds a particle
    row with fewer than the three features [pt, eta, phi]. *)
Theorem transform_x_short_row_raises (x : list (list (list R)))
    (ev : list (list R)) (row : list R) :
  In ev x -> In row ev -> (length row < 3)%nat ->
  METDataset._transform_x x = None.
Proof.
  intros Hev Hrow Hlen; unfold METDataset._transform_x.
  assert (H2 : METDataset.plane 2 x = None).
  { unfold METDataset.plane; apply mapM_raises with (a := ev); [exact Hev|].
    unfold column; apply mapM_raises with (a := row); [exact Hrow|].
    apply nth_error_None; lia. }
  destruct (METDataset.plane 0 x); simpl; [|reflexivity].
  destruct (METDataset.plane 1 x); simpl; [|reflexivity].
  rewrite H2; reflexivity.
Qed.

(** A run of X13: the second particle has no [phi]. *)
Lemma transform_x_short_row_raises_witness :
  METDataset._transform_x [[[2; 1; 0; 7]; [3; 1]]] = None.
Proof.
  apply (@transform_x_short_row_raises _ [[2; 1; 0; 7]; [3; 1]] [3; 1]);
    simpl; auto.
Defined.

(** ** Standardised values *)

Section Float64Standardize.

Import Floats.
Local Open Scope float_scope.

(** A zero divided by a float other than zero and NaN is a zero. *)
Lemma div_zero_l (y : float) :
  is_nan y = false -> (y =? 0) = false -> (0 / y =? 0) = true.
Proof.
  rewrite is_nan_false_SF, !eqb_spec, div_spec.
  change (Prim2SF 0) with (S754_zero false).
  destruct (Prim2SF y) as [s|s| |s m e]; intros Hn Hz.
  - discriminate.
  - reflexivity.
  - congruence.
  - reflexivity.
Qed.

Lemma sub_nan_l (x y : float) : is_nan x = true -> is_nan (x - y) = true.
Proof.
  rewrite !is_nan_SF, sub_spec; intros ->; reflexivity.
Qed.

Lemma div_nan_l (x y : float) : is_nan x = true -> is_nan (x / y) = true.
Proof.
  rewrite !is_nan_SF, div_spec; intros ->; reflexivity.
Qed.

(** X16: on floats, with [mean_met] and [std_met] set, [standardize_met]
    returns as many values as it is given, the rounded
    [(v - mean_met) / std_met] of each; it sends a NaN to NaN, and it sends
    the value [mean_met] to a zero when [mean_met] is finite and [std_met] is
    neither zero nor NaN. *)
Theorem standardize_met_centre (mean std : float) (met : list float) :
  exists s,
    Float64.METDataset.standardize_met (Some mean) (Some std) met = Some s /\
    length s = length met /\
    (forall k m, nth_error met k = Some m ->
       nth_error s k = Some ((m - mean) / std)) /\
    (forall k m, nth_error met k = Some m -> is_nan m = true ->
       exists z, nth_error s k = Some z /\ is_nan z = true) /\
    (forall k, nth_error met k = Some mean ->
       is_finite mean = true -> is_nan std = false -> (std =? 0) = false ->
       exists z, nth_error s k = Some z /\ (z =? 0) = true).
Proof.
  eexists; split; [reflexivity|].
  split; [apply length_map|].
  assert (He : forall k m, nth_error met k = Some m ->
            nth_error (map (fun m => (m - mean) / std) met) k
            = Some ((m - mean) / std))
    by (intros k m H; rewrite nth_error_map, H; reflexivity).
  split; [exact He|]. split.
  - intros k m Hk Hm; eexists; split; [apply He; exact Hk|].
    apply div_nan_l, sub_nan_l; exact Hm.
  - intros k Hk Hf Hn Hz; eexists; split; [apply He; exact Hk|].
    rewrite (sub_diag mean Hf); apply div_zero_l; assumption.
Qed.

(** A run of X16 with mean 50 and standard deviation 20. *)
Lemma standardize_met_centre_witness :
  exists s,
    Float64.METDataset.standardize_met (Some 50) (Some 20) [50; nan; 10]
      = Some s /\
    length s = 3%nat /\
    (exists z, nth_error s 1 = Some z /\ is_nan z = true) /\
    (exists z, nth_error s 0 = Some z /\ (z =? 0) = true).
Proof.
  destruct (standardize_met_centre 50 20 [50; nan; 10])
    as (s & H & Hl & _ & Hn & Hz).
  exists s; split; [exact H|]. split; [exact Hl|]. split.
  - apply (Hn 1%nat nan); reflexivity.
  - apply (Hz 0%nat); reflexivity.
Defined.

End Float64Standardize.

(** ** Batches that cannot be stacked, and the shape of those that can *)

Lemma stack_raises {A : Type} (col : list (ndarray A)) (a0 a : ndarray A) :
  nth_error col 0 = Some a0 -> In a col -> shape a <> shape a0 ->
  stack col = None.
Proof.
  intros H0 Hin Hne; unfold stack.
  destruct col as [|a1 rest]; [discriminate|].
  simpl in H0; injection H0 as ->.
  destruct (forallb _ (a0 :: rest)) eqn:E; [|reflexivity].
  rewrite forallb_forall in E; specialize (E a Hin).
  destruct (list_eq_dec Nat.eq_dec (shape a) (shape a0)); [contradiction|].
  discriminate.
Qed.

Lemma mapM_head {A B : Type} (f : A -> option B) (l : list A) (l' : list B)
    (a : A) :
  mapM f l = Some l' -> nth_error l 0 = Some a ->
  exists b, nth_error l' 0 = Some b /\ f a = Some b.
Proof. intros H H0; eapply mapM_nth; eauto. Qed.

(** X17: [collate_fn] raises on an empty batch, on a sample that lacks a key
    (or a tuple position) of the first sample, and on a sample whose array
    under a key of the first sample has another shape than the first
    sample's. *)
Theorem collate_fn_raises {A : Type} :
  PUDataset.collate_fn (A := A) [] = None /\
  METDataset.collate_fn (A := A) [] = None /\
  (forall (samples : list (dict (ndarray A))) s0 s k,
     nth_error samples 0 = Some s0 -> In k (keys s0) ->
     In s samples -> lookup s k = None ->
     PUDataset.collate_fn samples = None) /\
  (forall (samples : list (dict (ndarray A))) s0 s k a0 a,
     nth_error samples 0 = Some s0 -> In k (keys s0) ->
     lookup s0 k = Some a0 ->
     In s samples -> lookup s k = Some a -> shape a <> shape a0 ->
     PUDataset.collate_fn samples = None) /\
  (forall (samples : list (list (ndarray A))) s0 s i,
     nth_error samples 0 = Some s0 -> (i < length s0)%nat ->
     In s samples -> nth_error s i = None ->
     METDataset.collate_fn samples = None).
Proof.
  split; [reflexivity|]. split; [reflexivity|]. split; [|split].
  - intros samples s0 s k H0 Hk Hs Hl.
    unfold PUDataset.collate_fn; rewrite H0; simpl.
    apply mapM_raises with (a := k); [exact Hk|].
    rewrite (mapM_raises _ _ _ Hs Hl); reflexivity.
  - intros samples s0 s k a0 a H0 Hk Hl0 Hs Hl Hne.
    unfold PUDataset.collate_fn; rewrite H0; simpl.
    apply mapM_raises with (a := k); [exact Hk|].
    destruct (mapM (fun s1 => lookup s1 k) samples) as [col|] eqn:E;
      [|reflexivity].
    simpl.
    destruct (mapM_head _ _ E H0) as (b0 & Hb0 & Eb0).
    rewrite Hl0 in Eb0; injection Eb0 as <-.
    apply In_nth_error in Hs as [j Hj].
    destruct (mapM_nth _ _ _ E Hj) as (b & Hb & Eb).
    rewrite Hl in Eb; injection Eb as <-.
    rewrite (@stack_raises _ col a0 a Hb0 (nth_error_In _ _ Hb) Hne); reflexivity.
  - intros samples s0 s i H0 Hi Hs Hl.
    unfold METDataset.collate_fn; rewrite H0; simpl.
    apply mapM_raises with (a := i); [apply in_seq; lia|].
    rewrite (mapM_raises _ _ _ Hs Hl); reflexivity.
Qed.

(** A run of X17: a sample without the key ["y"], one with a longer ["y"],
    and a tuple that is too short. *)
Lemma collate_fn_raises_witness :
  let d0 : dict (ndarray Z) := [("y"%string, Arr [Item 1%Z; Item 0%Z])] in
  let d1 : dict (ndarray Z) := [("x"%string, Arr [Item 0%Z])] in
  let d2 : dict (ndarray Z) := [("y"%string, Arr [Item 1%Z; Item 0%Z; Item 0%Z])] in
  let t0 : list (ndarray Z) := [Item 1%Z; Item 7%Z] in
  let t1 : list (ndarray Z) := [Item 0%Z] in
  PUDataset.collate_fn [d0; d1] = None /\
  PUDataset.collate_fn [d0; d2] = None /\
  METDataset.collate_fn [t0; t1] = None.
Proof.
  intros d0 d1 d2 t0 t1.
  destruct (@collate_fn_raises Z) as (_ & _ & Hkey & Hshape & Htuple).
  split; [|split].
  - apply (Hkey [d0; d1] d0 d1 "y"%string); simpl; auto.
  - apply (Hshape [d0; d2] d0 d2 "y"%string
                  (Arr [Item 1%Z; Item 0%Z]) (Arr [Item 1%Z; Item 0%Z; Item 0%Z]));
      simpl; auto; discriminate.
  - apply (Htuple [t0; t1] t0 t1 1%nat); simpl; auto.
Defined.

Lemma lookup_In_keys {V : Type} (d : dict V) (k : string) (v : V) :
  lookup d k = Some v -> In k (keys d).
Proof.
  induction d as [|[k' v'] d IH]; simpl; [discriminate|].
  destruct (String.eqb_spec k' k) as [->|Hne]; [left; reflexivity|].
  intros H; right; exact (IH H).
Qed.

Lemma stacked_shape {A : Type} (col : list (ndarray A)) (a0 b : ndarray A) :
  nth_error col 0 = Some a0 -> stack col = Some b ->
  shape b = length col :: shape a0.
Proof.
  intros H0 H; apply stack_shape in H; subst b.
  destruct col as [|a1 rest]; [discriminate|].
  simpl in H0; injection H0 as ->; reflexivity.
Qed.

(** X18: in the batch that [collate_fn] returns, every array has the batch
    size as its leading axis, followed by the shape the first sample has
    under that key (or at that tuple position). *)
Theorem collate_fn_shape {A : Type} :
  (forall (samples : list (dict (ndarray A))) batch s0 k a0 b,
     PUDataset.collate_fn samples = Some batch ->
     nth_error samples 0 = Some s0 ->
     lookup s0 k = Some a0 -> lookup batch k = Some b ->
     shape b = length samples :: shape a0) /\
  (forall (samples : list (list (ndarray A))) batch s0 i a0 b,
     METDataset.collate_fn samples = Some batch ->
     nth_error samples 0 = Some s0 ->
     nth_error s0 i = Some a0 -> nth_error batch i = Some b ->
     shape b = length samples :: shape a0).
Proof.
  split.
  - intros samples batch s0 k a0 b H H0 Hl0 Hb.
    unfold PUDataset.collate_fn in H; rewrite H0 in H; simpl in H.
    set (g := fun k : string =>
                obind (mapM (fun s : dict (ndarray A) => lookup s k) samples)
                      (fun col => stack col)).
    rewrite (mapM_ext _ (fun k => obind (g k) (fun a => Some (k, a)))) in H
      by (intros k'; unfold g; destruct (mapM _ samples); reflexivity).
    destruct (@lookup_comprehension _ g (keys s0) batch k H
                (lookup_In_keys _ _ Hl0)) as (b' & Hb' & Hg).
    rewrite Hb in Hb'; injection Hb' as <-.
    unfold g in Hg; apply obind_some in Hg as (col & Hcol & Hst).
    destruct (mapM_head _ _ Hcol H0) as (c0 & Hc0 & Ec0).
    rewrite Hl0 in Ec0; injection Ec0 as <-.
    rewrite (stacked_shape _ Hc0 Hst), (mapM_length _ _ Hcol); reflexivity.
  - intros samples batch s0 i a0 b H H0 Hi Hb.
    unfold METDataset.collate_fn in H; rewrite H0 in H; simpl in H.
    destruct (mapM_nth_inv _ _ _ H Hb) as (i' & Hi' & Hg).
    rewrite nth_error_seq in Hi'.
    destruct (i <? length s0)%nat; [|discriminate].
    simpl in Hi'; injection Hi' as <-.
    apply obind_some in Hg as (col & Hcol & Hst).
    destruct (mapM_head _ _ Hcol H0) as (c0 & Hc0 & Ec0).
    rewrite Hi in Ec0; injection Ec0 as <-.
    rewrite (stacked_shape _ Hc0 Hst), (mapM_length _ _ Hcol); reflexivity.
Qed.

(** A run of X18 on two samples with a vector of two labels each. *)
Lemma collate_fn_shape_witness :
  let d0 : dict (ndarray Z) := [("y"%string, Arr [Item 1%Z; Item 0%Z])] in
  let d1 : dict (ndarray Z) := [("y"%string, Arr [Item 0%Z; Item (-1)%Z])] in
  exists batch b,
    PUDataset.collate_fn [d0; d1] = Some batch /\
    lookup batch "y" = Some b /\
    shape b = [2; 2]%nat.
Proof.
  intros d0 d1.
  eexists; eexists; split; [reflexivity|]. split; [reflexivity|].
  exact (proj1 (@collate_fn_shape Z) [d0; d1] _ d0 "y"%string _ _
               eq_refl eq_refl eq_refl eq_refl).
Defined.

(** ** [cone_adj] and its arguments *)

Section Float64ConeAdj.

Import Floats.
Local Open Scope float_scope.

Lemma eqb_nan_l (x y : float) : is_nan x = true -> (x =? y) = false.
Proof.
  rewrite is_nan_SF, eqb_spec; intros ->; reflexivity.
Qed.

(** The squared distance of two particles at one point: [+0] when [eta]
    and [phi] are finite, NaN when one of them is not. *)
Lemma F64_same_point_distance (e p : float) :
  ((e - e) * (e - e) + (p - p) * (p - p) =? 0) =
  (is_finite e && is_finite p)%bool.
Proof.
  destruct (is_finite e) eqn:Fe.
  - rewrite (sub_diag e Fe).
    destruct (is_finite p) eqn:Fp.
    + rewrite (sub_diag p Fp); reflexivity.
    + apply eqb_nan_l, add_nan_r, mul_nan, sub_diag_nan; exact Fp.
  - apply eqb_nan_l, add_nan_l, mul_nan, sub_diag_nan; exact Fe.
Qed.

(** X19: on float arrays [eta] and [phi] of one length,
    [METDataset.cone_adj] returns, whatever the cone, the boolean matrix whose
    entry (i, j) is the comparison of the rounded squared distance
    [(eta_i - eta_j)^2 + (phi_i - phi_j)^2] with 0.  The matrix is symmetric,
    and two particles with the same [eta] and the same [phi], a particle and
    itself among them, are adjacent exactly when that [eta] and that [phi]
    are finite. *)
Theorem MET_cone_adj_same_point (eta phi : list float) (cone : float) :
  length eta = length phi ->
  exists adj,
    Float64.METDataset.cone_adj eta phi cone = Some (Float64.BoolMat adj) /\
    length adj = length eta /\
    (forall i j ei ej pi pj,
       nth_error eta i = Some ei -> nth_error eta j = Some ej ->
       nth_error phi i = Some pi -> nth_error phi j = Some pj ->
       entry adj i j =
       Some ((ei - ej) * (ei - ej) + (pi - pj) * (pi - pj) =? 0)) /\
    (forall i j, entry adj i j = entry adj j i) /\
    (forall i j e p,
       nth_error eta i = Some e -> nth_error eta j = Some e ->
       nth_error phi i = Some p -> nth_error phi j = Some p ->
       entry adj i j = Some (is_finite e && is_finite p)%bool).
Proof.
  intros Hlen; unfold Float64.METDataset.cone_adj.
  rewrite (F64_dr2_defined _ _ Hlen).
  eexists; split; [reflexivity|].
  assert (He : forall i j,
    entry (map (map (fun d => d =? 0))
             (zip_with (zip_with add)
                (Float64.square2 (Float64.outer_sub eta))
                (Float64.square2 (Float64.outer_sub phi)))) i j =
    match nth_error eta i, nth_error eta j, nth_error phi i, nth_error phi j with
    | Some ei, Some ej, Some pi, Some pj =>
        Some ((ei - ej) * (ei - ej) + (pi - pj) * (pi - pj) =? 0)
    | _, _, _, _ => None
    end).
  { intros i j; rewrite entry_map_map, entry_zip2, !F64_entry_sq_outer.
    destruct (nth_error eta i), (nth_error eta j),
             (nth_error phi i), (nth_error phi j); reflexivity. }
  split; [|split; [|split]].
  - rewrite length_map, zip_with_length; rewrite !F64_sq_outer_length; auto.
  - intros i j ei ej pi pj Hei Hej Hpi Hpj.
    rewrite He, Hei, Hej, Hpi, Hpj; reflexivity.
  - intros i j; rewrite !He.
    destruct (nth_error eta i) as [ei|], (nth_error eta j) as [ej|],
             (nth_error phi i) as [pi|], (nth_error phi j) as [pj|];
      try reflexivity.
    rewrite (sub_swap_square ei ej), (sub_swap_square pi pj); reflexivity.
  - intros i j e p Hei Hej Hpi Hpj.
    rewrite He, Hei, Hej, Hpi, Hpj, F64_same_point_distance; reflexivity.
Qed.

(** A run of X19 on three particles, two of them at one point. *)
Lemma MET_cone_adj_same_point_witness :
  exists adj,
    Float64.METDataset.cone_adj [0; 1; 0] [2; 5; 2] 0.5
      = Some (Float64.BoolMat adj) /\
    length adj = 3%nat /\
    entry adj 0 2 = Some true /\
    entry adj 0 1 = Some false /\
    (forall i j, entry adj i j = entry adj j i).
Proof.
  destruct (@MET_cone_adj_same_point [0; 1; 0] [2; 5; 2] 0.5 eq_refl)
    as (adj & H & Hl & He & Hs & Hp).
  exists adj; split; [exact H|]. split; [exact Hl|].
  split; [exact (Hp 0%nat 2%nat 0 2 eq_refl eq_refl eq_refl eq_refl)|].
  split; [exact (He 0%nat 1%nat 0 1 2 5 eq_refl eq_refl eq_refl eq_refl)|].
  exact Hs.
Defined.

End Float64ConeAdj.

(** X20: [PUDataset.cone_adj] grows with the cone: on arrays of one length,
    every pair that is adjacent for a positive cone is adjacent for every
    larger cone. *)
Theorem cone_adj_monotone (eta phi : list R) (c1 c2 : R) :
  length eta = length phi ->
  0 < c1 <= c2 ->
  exists adj1 adj2,
    PUDataset.cone_adj eta phi c1 = Some adj1 /\
    PUDataset.cone_adj eta phi c2 = Some adj2 /\
    forall i j, truth_at adj1 i j = Some true -> truth_at adj2 i j = Some true.
Proof.
  intros Hlen [H1 H2].
  do 2 eexists.
  split; [apply cone_adj_nonzero; [exact Hlen | lra]|].
  split; [apply cone_adj_nonzero; [exact Hlen | lra]|].
  intros i j; simpl; rewrite !entry_map_map.
  destruct (entry _ i j) as [d|]; simpl; [|discriminate].
  intros H; injection H as H; f_equal.
  apply Rleb_true_iff in H; apply Rleb_true_iff; nra.
Qed.

(** A run of X20 with the cones 0.4 and 2. *)
Lemma cone_adj_monotone_witness :
  exists adj1 adj2,
    PUDataset.cone_adj [0; 1] [2; 2] (4 / 10) = Some adj1 /\
    PUDataset.cone_adj [0; 1] [2; 2] 2 = Some adj2 /\
    forall i j, truth_at adj1 i j = Some true -> truth_at adj2 i j = Some true.
Proof.
  apply (@cone_adj_monotone [0; 1] [2; 2] (4 / 10) 2); [reflexivity | lra].
Defined.

Lemma broadcast_raises {A B C : Type} (f : A -> B -> option C)
    (a : list A) (b : list B) :
  length a <> length b -> length a <> 1%nat -> length b <> 1%nat ->
  broadcast f a b = None.
Proof.
  intros Hne Ha Hb; unfold broadcast.
  apply Nat.eqb_neq in Hne; rewrite Hne.
  destruct b as [|y [|y' b]]; simpl in *; try congruence;
    destruct a as [|x [|x' a]]; simpl in *; congruence.
Qed.

(** X21: with a nonzero cone, [PUDataset.cone_adj] raises on arrays of
    different lengths, neither of them of length 1; with cone 0 it does not
    look at [phi] and returns the identity of the size of [eta]. *)
Theorem cone_adj_length_mismatch (eta phi : list R) (cone : R) :
  length eta <> length phi ->
  length eta <> 1%nat -> length phi <> 1%nat ->
  (cone <> 0 -> PUDataset.cone_adj eta phi cone = None) /\
  PUDataset.cone_adj eta phi 0 = Some (FloatMat (eye (length eta))).
Proof.
  intros Hne He Hp; split; [|apply cone_adj_zero].
  intros Hc; unfold PUDataset.cone_adj.
  apply Reqb_false_iff in Hc; rewrite Hc.
  unfold add2; rewrite broadcast_raises; [reflexivity | | |];
    rewrite ?sq_outer_length; assumption.
Qed.

(** A run of X21 on two values of [eta] and three of [phi]. *)
Lemma cone_adj_length_mismatch_witness :
  PUDataset.cone_adj [0; 1] [2; 2; 3] (4 / 10) = None /\
  PUDataset.cone_adj [0; 1] [2; 2; 3] 0 = Some (FloatMat (eye 2)).
Proof.
  destruct (@cone_adj_length_mismatch [0; 1] [2; 2; 3] (4 / 10)) as [H1 H2];
    try (simpl; lia).
  split; [apply H1; lra | exact H2].
Defined.

(** ** A pass yields every event once *)

(** What a loop over events yields when it completes: the sample of each
    index, in the order of the indices. *)
Lemma event_loop_complete {Y : Type} (ev : nat -> option Y) (idx : list nat) :
  forall g,
  Gen.result
    (Gen.for_each idx (fun i =>
       Gen.bind (Gen.lift (ev i)) (fun to_yield => Gen.yield to_yield)) g)
    = Some tt ->
  map Some
    (Gen.yielded
       (Gen.for_each idx (fun i =>
          Gen.bind (Gen.lift (ev i)) (fun to_yield => Gen.yield to_yield)) g))
  = map ev idx.
Proof.
  induction idx as [|i idx IH]; intros g H; [reflexivity|].
  simpl in H |- *.
  apply bind_result in H as ([] & Hi & H & ->).
  rewrite map_app, (IH _ H); f_equal.
  clear - Hi; unfold Gen.bind, Gen.lift, Gen.yield in *; simpl in *.
  destruct (ev i) as [s|]; [reflexivity | discriminate].
Qed.

(** A loop whose bodies each yield a permutation of their share yields a
    permutation of the shares put together. *)
Lemma for_each_Permutation {Y A B : Type} (body : A -> Gen.t Y unit)
    (view : Y -> B) (share : A -> list B) (l : list A) :
  (forall a g, In a l -> Gen.result (body a g) = Some tt ->
     Permutation (map view (Gen.yielded (body a g))) (share a)) ->
  forall g, Gen.result (Gen.for_each l body g) = Some tt ->
    Permutation (map view (Gen.yielded (Gen.for_each l body g)))
                (flat_map share l).
Proof.
  induction l as [|a l IH]; intros Hb g H; [reflexivity|].
  simpl in H |- *.
  apply bind_result in H as ([] & Ha & H & ->).
  rewrite map_app; apply Permutation_app.
  - apply Hb; [left; reflexivity | exact Ha].
  - apply IH; [intros a' g' Hin; apply Hb; right; exact Hin | exact H].
Qed.

(** The samples of one file, up to their order. *)
Lemma PU_file_pass_events (fs : filesystem) (self : PUDataset.t) (f : string)
    (g : Rng.rng) :
  Gen.result (PUDataset.file_pass fs self f g) = Some tt ->
  Permutation
    (map Some (Gen.yielded (PUDataset.file_pass fs self f g)))
    match np_load fs f with
    | Some data =>
        let d := PUDataset.sliced self data in
        map (PUDataset.event self d (seq 0 (shape1 (Npz.x d))))
            (seq 0 (length (Npz.x d)))
    | None => []
    end.
Proof.
  intros H; unfold PUDataset.file_pass in *.
  apply bind_result in H as (data & Hd & H & ->).
  apply bind_result in H as (idx & Hidx & H & ->).
  rewrite shuffled_run in *; simpl in *.
  injection Hidx as <-.
  unfold Gen.lift in Hd; simpl in Hd; rewrite Hd.
  rewrite (event_loop_complete _ _ _ H).
  apply Permutation_map, Permutation_sym, shuffle_Permutation.
Qed.

(** X22: a pass of [PUDataset.__iter__] over all files that completes
    yields every event of every file of the dataset exactly once: its
    samples are, up to their order, the samples of the events of the files. *)
Theorem PU_pass_covers_events (fs : filesystem) (self self' : PUDataset.t)
    (g : Rng.rng) :
  PUDataset.num_max_files self = None ->
  Gen.result (PUDataset.__iter__ fs self g) = Some self' ->
  Permutation
    (map Some (Gen.yielded (PUDataset.__iter__ fs self g)))
    (flat_map
       (fun f =>
          match np_load fs f with
          | Some data =>
              let d := PUDataset.sliced self data in
              map (PUDataset.event self d (seq 0 (shape1 (Npz.x d))))
                  (seq 0 (length (Npz.x d)))
          | None => []
          end)
       (PUDataset._files self)).
Proof.
  intros Hall H; unfold PUDataset.__iter__ in *.
  apply bind_result in H as (files & Hf & H & ->).
  rewrite shuffled_run in *; simpl in *; injection Hf as <-.
  apply bind_result in H as ([] & Hloop & _ & ->).
  rewrite Hall in *; simpl in *.
  rewrite app_nil_r.
  etransitivity.
  { apply for_each_Permutation
      with (share := fun f =>
          match np_load fs f with
          | Some data =>
              let d := PUDataset.sliced self data in
              map (PUDataset.event self d (seq 0 (shape1 (Npz.x d))))
                  (seq 0 (length (Npz.x d)))
          | None => []
          end); [|exact Hloop].
    intros f g' _ Hf; apply (PU_file_pass_events _ _ _ _ Hf). }
  apply Permutation_flat_map, Permutation_sym, shuffle_Permutation.
Qed.

(** A run of X22 on the two files of the second example: three events. *)
Lemma PU_pass_covers_events_witness :
  let self := PUDataset.Make ["data/b.npz"%string; "data/a.npz"%string] None
                             false (Some 4%Z) None None 3 in
  length (Gen.yielded (PUDataset.__iter__ Example2.fs self [1%nat])) = 3%nat /\
  Permutation
    (map Some (Gen.yielded (PUDataset.__iter__ Example2.fs self [1%nat])))
    (flat_map
       (fun f =>
          match np_load Example2.fs f with
          | Some data =>
              let d := PUDataset.sliced self data in
              map (PUDataset.event self d (seq 0 (shape1 (Npz.x d))))
                  (seq 0 (length (Npz.x d)))
          | None => []
          end)
       (PUDataset._files self)).
Proof.
  intros self; split; [vm_compute; reflexivity|].
  eapply (@PU_pass_covers_events Example2.fs self _ [1%nat]);
    [reflexivity | vm_compute; reflexivity].
Defined.

(** ** The shapes of a sample *)

Lemma labels_lengths (self : PUDataset.t) (x : list (list R))
    (Yi mask y orig_y : list Z) :
  PUDataset.labels self x Yi mask = Some (y, orig_y) ->
  length y = length Yi /\ length orig_y = length Yi.
Proof.
  intros H.
  destruct (labels_frame _ _ _ _ H) as [Hlen _].
  unfold PUDataset.labels in H.
  apply obind_some in H as (y0 & Hy0 & H).
  apply obind_some in H as (y1 & _ & H).
  injection H as _ <-.
  unfold put_at in Hy0; destruct (mapM _ _); [|discriminate].
  injection Hy0 as <-.
  rewrite Hlen; split; apply fold_set_nth_length.
Qed.

Lemma slice_to_length2 {A B : Type} (stop : option Z) (a : list A) (b : list B) :
  length a = length b -> length (slice_to stop a) = length (slice_to stop b).
Proof.
  intros H; unfold slice_to; destruct stop as [k|]; [|exact H].
  destruct (k <? 0)%Z; rewrite !length_firstn, H; reflexivity.
Qed.

(** X23: over files whose particle array is rectangular and whose label
    rows are as long as their particle rows, every sample yielded by
    [PUDataset.__iter__] has one label, one original label and one mask
    entry per particle row of ['x'], and at most [num_max_particles] rows
    when that is a number from 0 on. *)
Theorem PU_sample_shapes (fs : filesystem) (self : PUDataset.t) (g : Rng.rng)
    (s : dict (ndarray scalar)) :
  (forall f data, np_load fs f = Some data -> rectangular (Npz.x data)) ->
  (forall f data i xi yi,
     np_load fs f = Some data ->
     nth_error (Npz.x data) i = Some xi -> nth_error (Npz.y data) i = Some yi ->
     length yi = length xi) ->
  In s (Gen.yielded (PUDataset.__iter__ fs self g)) ->
  exists x y orig_y mask,
    lookup s "x" = Some (of_matR x) /\
    lookup s "y" = Some (of_vecZ y) /\
    lookup s "orig_y" = Some (of_vecZ orig_y) /\
    lookup s "mask" = Some (of_vecZ mask) /\
    length y = length x /\ length orig_y = length x /\ length mask = length x /\
    forall k, PUDataset.n_particles self = Some k -> (0 <= k)%Z ->
      (Z.of_nat (length x) <= k)%Z.
Proof.
  intros Hrect Hxy H.
  apply PU_iter_yielded in H as (files & f & data & i & Hd & H).
  apply PU_event_fields in H
    as (Ni & x & Yi & y & oy & adj & _ & Hx & HY & _ & Hl & Lx & Ly & _ & Lo & Lm).
  cbn [PUDataset.sliced Npz.x Npz.y PUDataset.set_files PUDataset.n_particles]
    in Hx, HY, Lm.
  rewrite <- (rectangular_row i (rectangular_slice _ (Hrect f data Hd)) Hx) in Lm.
  rewrite nth_error_map in Hx, HY.
  destruct (nth_error (Npz.x data) i) as [xi|] eqn:Exi; [|discriminate].
  destruct (nth_error (Npz.y data) i) as [yi|] eqn:Eyi; [|discriminate].
  simpl in Hx, HY; injection Hx as <-; injection HY as <-.
  apply labels_lengths in Hl as [Hy Ho].
  pose proof (slice_to_length2 (PUDataset.n_particles self) _ _
                (Hxy f data i xi yi Hd Exi Eyi)) as Hs.
  do 4 eexists; repeat split; try eassumption; try congruence.
  - rewrite length_map, length_seq; reflexivity.
  - intros k Hk Hk0; rewrite Hk; unfold slice_to.
    destruct (Z.ltb_spec k 0); [lia|].
    rewrite length_firstn; lia.
Qed.

(** A run of X23 on the example files, cut to three particle slots. *)
Lemma PU_sample_shapes_witness :
  let self := PUDataset.Make ["data/a.npz"%string] None false (Some 3%Z) None
                             None 2 in
  exists s x y orig_y mask,
    nth_error (Gen.yielded (PUDataset.__iter__ Example.fs self [])) 0 = Some s /\
    lookup s "x" = Some (of_matR x) /\
    lookup s "y" = Some (of_vecZ y) /\
    lookup s "orig_y" = Some (of_vecZ orig_y) /\
    lookup s "mask" = Some (of_vecZ mask) /\
    length y = length x /\ length orig_y = length x /\ length mask = length x /\
    forall k, PUDataset.n_particles self = Some k -> (0 <= k)%Z ->
      (Z.of_nat (length x) <= k)%Z.
Proof.
  intros self.
  assert (Hy : exists s,
    nth_error (Gen.yielded (PUDataset.__iter__ Example.fs self [])) 0 = Some s).
  { vm_compute; eexists; reflexivity. }
  destruct Hy as [s Hs].
  assert (Hxy : forall f data i xi yi,
    np_load Example.fs f = Some data ->
    nth_error (Npz.x data) i = Some xi -> nth_error (Npz.y data) i = Some yi ->
    length yi = length xi).
  { intros f data i xi yi; simpl.
    destruct (String.eqb f "data/a.npz"); [|discriminate].
    intros H; injection H as <-.
    destruct i as [|[|i]]; simpl; intros Hx Hy';
      try (destruct i; discriminate);
      injection Hx as <-; injection Hy' as <-; reflexivity. }
  destruct (@PU_sample_shapes Example.fs self [] s Example_rectangular Hxy
              (nth_error_In _ _ Hs)) as (x & y & oy & mask & H).
  exists s, x, y, oy, mask; split; [exact Hs | exact H].
Defined.

(** ** The target of a [METDataset] sample *)

Lemma column_values {A : Type} (k : nat) (d : A) (x : list (list A))
    (col : list A) :
  column k x = Some col -> col = map (fun row => nth k row d) x.
Proof.
  unfold column; revert col; induction x as [|row x IH]; simpl; intros col H.
  - injection H as <-; reflexivity.
  - destruct (nth_error row k) as [v|] eqn:E; [|discriminate].
    destruct (mapM _ x) as [col'|]; [|discriminate].
    injection H as <-; f_equal; [|apply IH; reflexivity].
    symmetry; apply nth_error_nth; exact E.
Qed.

(** X24: without standardisation, every sample yielded by
    [METDataset.__iter__] is the sample of an event [i] of a file of the
    dataset: a tuple of four entries, the first 50 (mode 0) or 200 particle
    slots [x] of the transformed event, the adjacency mask, the target, and
    ['pfmet'] at [i].  In the training modes 0 and 1 the target is the
    missing energy of the particles yielded, the square root of the squared
    sums of their features 0 and 2; in every other mode it is ['met'] at
    [i]. *)
Theorem MET_sample_target (fs : filesystem) (self : METDataset.t)
    (g : Rng.rng) (s : list (ndarray scalar)) :
  METDataset.mean_met self = None ->
  In s (Gen.yielded (METDataset.__iter__ fs self g)) ->
  exists f data X i x adj_mask target pf,
    In f (METDataset._files self) /\
    np_load fs f = Some data /\
    METDataset._transform_x (Npz.x data) = Some X /\
    nth_error
      (map (slice_to
              (Some (if (METDataset.training_mode self =? 0)%Z
                     then 50%Z else 200%Z))) X) i = Some x /\
    nth_error (Npz.pfmet data) i = Some pf /\
    s = [of_matR x; adj_mask; of_R target; of_R pf] /\
    (Z.of_nat (length x)
       <= if (METDataset.training_mode self =? 0)%Z then 50 else 200)%Z /\
    (METDataset.training_mode self = 0%Z \/ METDataset.training_mode self = 1%Z ->
     target = sqrt (pow (fold_right Rplus 0 (map (fun row => nth 0 row 0) x)) 2
                    + pow (fold_right Rplus 0 (map (fun row => nth 2 row 0) x)) 2)) /\
    (METDataset.training_mode self <> 0%Z -> METDataset.training_mode self <> 1%Z ->
     nth_error (Npz.met data) i = Some target).
Proof.
  intros Hmean H.
  apply MET_iter_event in H
    as (files & f & data & X0 & P0 & P2 & calcmet & mets & i
        & Hf & Hd & HX & HP0 & HP2 & Hc & Hm & H).
  rewrite Hmean in Hm; injection Hm as <-; simpl in H.
  set (stop := if (METDataset.training_mode self =? 0)%Z then 50%Z else 200%Z) in *.
  unfold METDataset.event in H.
  apply obind_some in H as (Ni & HN & H).
  apply obind_some in H as (x & Hx & H).
  apply obind_some in H as (adj & Hadj & H).
  change (METDataset.training_mode (METDataset.set_files self files))
    with (METDataset.training_mode self) in H.
  assert (Hlen : (Z.of_nat (length x) <= stop)%Z).
  { rewrite nth_error_map in Hx.
    destruct (nth_error X0 i) as [x0|]; [|discriminate].
    simpl in Hx; injection Hx as <-.
    unfold slice_to. replace (stop <? 0)%Z with false
      by (unfold stop; destruct (_ =? 0)%Z; reflexivity).
    rewrite length_firstn.
    assert (0 <= stop)%Z by (unfold stop; destruct (_ =? 0)%Z; lia). lia. }
  destruct ((METDataset.training_mode self =? 0)%Z
            || (METDataset.training_mode self =? 1)%Z)%bool eqn:Emode.
  - apply obind_some in H as (ci & Hci & H).
    apply obind_some in H as (pf & Hpf & H).
    injection H as <-.
    exists f, data, X0, i, x, adj, ci, pf; repeat split; auto.
    + intros _.
      destruct (mapM_nth _ _ _ HP0 Hx) as (c0 & Hc0 & E0).
      destruct (mapM_nth _ _ _ HP2 Hx) as (c2 & Hc2 & E2).
      apply (column_values 0 0) in E0; apply (column_values 2 0) in E2.
      unfold METDataset._compute_met in Hc.
      rewrite (broadcast_same_length _ (fun mx my => sqrt (mx ^ 2 + my ^ 2)))
        in Hc;
        [|unfold sum_last; rewrite !length_map;
          rewrite (mapM_length _ _ HP0), (mapM_length _ _ HP2); reflexivity
         |reflexivity].
      injection Hc as <-.
      rewrite nth_error_zip_with in Hci; unfold sum_last in Hci.
      rewrite !nth_error_map, Hc0, Hc2 in Hci; simpl in Hci.
      injection Hci as <-; subst c0 c2; reflexivity.
    + intros H0 H1; apply orb_true_iff in Emode as [E|E];
        apply Z.eqb_eq in E; contradiction.
  - apply obind_some in H as (gi & Hgi & H).
    apply obind_some in H as (pf & Hpf & H).
    injection H as <-.
    exists f, data, X0, i, x, adj, gi, pf; repeat split; auto.
    intros [E|E]; rewrite E in Emode; discriminate.
Qed.

(** A run of X24 on the example files, in training mode 0. *)
Lemma MET_sample_target_witness :
  let met := METDataset.Make ["data/a.npz"%string] false None 2 None None 0 in
  exists s f data X i x adj_mask target pf,
    nth_error (Gen.yielded (METDataset.__iter__ Example.fs met [])) 0 = Some s /\
    np_load Example.fs f = Some data /\
    METDataset._transform_x (Npz.x data) = Some X /\
    nth_error (map (slice_to (Some 50%Z)) X) i = Some x /\
    nth_error (Npz.pfmet data) i = Some pf /\
    s = [of_matR x; adj_mask; of_R target; of_R pf] /\
    (Z.of_nat (length x) <= 50)%Z /\
    target = sqrt (pow (fold_right Rplus 0 (map (fun row => nth 0 row 0) x)) 2
                   + pow (fold_right Rplus 0 (map (fun row => nth 2 row 0) x)) 2).
Proof.
  intros met.
  assert (Hy : exists s,
    nth_error (Gen.yielded (METDataset.__iter__ Example.fs met [])) 0 = Some s).
  { cbv -[IZR Rplus Rminus Rmult Rdiv cos sin sqrt]; eexists; reflexivity. }
  destruct Hy as [s Hs].
  destruct (@MET_sample_target Example.fs met [] s eq_refl (nth_error_In _ _ Hs))
    as (f & data & X & i & x & adj & target & pf
        & Hf & Hd & HX & Hx & Hpf & Es & Hlen & Ht & _).
  exists s, f, data, X, i, x, adj, target, pf.
  repeat split; auto.
Defined.

(** ** The files of a [METDataset] *)

Lemma Sorted_firstn {A : Type} (R : A -> A -> Prop) (l : list A) (n : nat) :
  Sorted R l -> Sorted R (firstn n l).
Proof.
  intros H; revert n; induction H as [|a l Hs IH Hd]; intros [|n]; simpl;
    try constructor; auto.
  destruct Hd as [|b l' Hab]; destruct n; simpl; constructor; exact Hab.
Qed.

(** X25: the files of a [METDataset] are files that [glob] lists for the
    pattern, in name order, all of them loadable; there are at most
    [num_max_files] of them when that is a number from 0 on, and without
    [num_max_files] they are all the files listed; the length of the dataset
    is the number of particle counts ['N'] in these files. *)
Theorem MET_init_files (fs : filesystem) (pattern : string) (config : Config.t)
    (mean_met std_met : option R) (training_mode : Z) (self : METDataset.t) :
  METDataset.__init__ fs pattern config mean_met std_met training_mode = Some self ->
  Sorted (fun a b => is_true (String.leb a b)) (METDataset._files self) /\
  (forall f, In f (METDataset._files self) ->
     In f (glob fs pattern) /\ np_load fs f <> None) /\
  (forall k, Config.num_max_files config = Some k -> (0 <= k)%Z ->
     (Z.of_nat (length (METDataset._files self)) <= k)%Z) /\
  (Config.num_max_files config = None ->
   Permutation (glob fs pattern) (METDataset._files self)) /\
  METDataset.__len__ self =
  list_sum (map (fun f => match np_load fs f with
                          | Some data => length (Npz.N data)
                          | None => 0%nat
                          end) (METDataset._files self)).
Proof.
  intros H; unfold METDataset.__init__ in H.
  apply obind_some in H as (n & Hn & H); injection H as <-.
  apply MET_get_len_sum in Hn as [-> Hload]; simpl.
  destruct (slice_to_firstn (Config.num_max_files config)
              (StringSort.sort (glob fs pattern))) as [m Em].
  split; [|split; [|split; [|split]]].
  - rewrite Em; apply Sorted_firstn, StringSort.Sorted_sort.
  - intros f Hf; split; [|apply Hload; exact Hf].
    rewrite Em in Hf; apply In_firstn in Hf.
    eapply Permutation_in;
      [apply Permutation_sym, StringSort.Permuted_sort | exact Hf].
  - intros k Hk Hk0; rewrite Hk; unfold slice_to.
    destruct (Z.ltb_spec k 0); [lia|].
    rewrite length_firstn; lia.
  - intros Hnone; rewrite Hnone; simpl; apply StringSort.Permuted_sort.
  - reflexivity.
Qed.

(** A run of X25 on the two files of the second example, which [glob]
    lists out of order. *)
Lemma MET_init_files_witness :
  let config := Config.Make [] (Some 1%Z) false None None None in
  exists self,
    METDataset.__init__ Example2.fs "data/*.npz" config None None 0 = Some self /\
    METDataset._files self = ["data/a.npz"%string] /\
    METDataset.__len__ self = 2%nat /\
    Sorted (fun a b => is_true (String.leb a b)) (METDataset._files self) /\
    (forall f, In f (METDataset._files self) ->
       In f (glob Example2.fs "data/*.npz") /\ np_load Example2.fs f <> None) /\
    (Z.of_nat (length (METDataset._files self)) <= 1)%Z.
Proof.
  intros config.
  eexists; split; [vm_compute; reflexivity|].
  split; [reflexivity|]. split; [reflexivity|].
  destruct (@MET_init_files Example2.fs "data/*.npz" config None None 0%Z _
              eq_refl) as (Hs & Hin & Hk & _ & _).
  split; [exact Hs|]. split; [exact Hin|].
  apply (Hk 1%Z); [reflexivity | lia].
Defined.

(** ** Standardised targets *)

(** The missing energy computed for the event at index [i]. *)
Lemma calcmet_at (X : list (list (list R))) (P0 P2 : list (list R))
    (calcmet : list R) (i : nat) (x : list (list R)) :
  METDataset.plane 0 X = Some P0 -> METDataset.plane 2 X = Some P2 ->
  METDataset._compute_met P0 P2 = Some calcmet ->
  nth_error X i = Some x ->
  nth_error calcmet i =
  Some (sqrt (pow (fold_right Rplus 0 (map (fun row => nth 0 row 0) x)) 2
              + pow (fold_right Rplus 0 (map (fun row => nth 2 row 0) x)) 2)).
Proof.
  intros HP0 HP2 Hc Hx.
  destruct (mapM_nth _ _ _ HP0 Hx) as (c0 & Hc0 & E0).
  destruct (mapM_nth _ _ _ HP2 Hx) as (c2 & Hc2 & E2).
  apply (column_values 0 0) in E0; apply (column_values 2 0) in E2.
  unfold METDataset._compute_met in Hc.
  rewrite (broadcast_same_length _ (fun mx my => sqrt (mx ^ 2 + my ^ 2))) in Hc;
    [|unfold sum_last; rewrite !length_map;
      rewrite (mapM_length _ _ HP0), (mapM_length _ _ HP2); reflexivity
     |reflexivity].
  injection Hc as <-.
  rewrite nth_error_zip_with; unfold sum_last.
  rewrite !nth_error_map, Hc0, Hc2; simpl; subst c0 c2; reflexivity.
Qed.

(** X26: with [mean_met] and [std_met] set, every sample yielded by
    [METDataset.__iter__] is the sample of an event [i] of a file of the
    dataset, and its target and its last entry are the standardised values
    [(v - mean_met) / std_met] of the missing energy computed from the
    particles [x] yielded (training modes 0 and 1) or of ['met'] at [i]
    (other modes), and of ['pfmet'] at [i]; with [mean_met] set and
    [std_met] missing no sample is yielded. *)
Theorem MET_sample_standardized (fs : filesystem) (self : METDataset.t)
    (g : Rng.rng) (mean : R) :
  METDataset.mean_met self = Some mean ->
  (METDataset.std_met self = None ->
   Gen.yielded (METDataset.__iter__ fs self g) = []) /\
  (forall std s,
     METDataset.std_met self = Some std ->
     In s (Gen.yielded (METDataset.__iter__ fs self g)) ->
     exists f data X i x adj_mask target pf,
       In f (METDataset._files self) /\
       np_load fs f = Some data /\
       METDataset._transform_x (Npz.x data) = Some X /\
       nth_error
         (map (slice_to
                 (Some (if (METDataset.training_mode self =? 0)%Z
                        then 50%Z else 200%Z))) X) i = Some x /\
       nth_error (Npz.pfmet data) i = Some pf /\
       s = [of_matR x; adj_mask; of_R ((target - mean) / std);
            of_R ((pf - mean) / std)] /\
       (METDataset.training_mode self = 0%Z \/ METDataset.training_mode self = 1%Z ->
        target = sqrt (pow (fold_right Rplus 0 (map (fun row => nth 0 row 0) x)) 2
                       + pow (fold_right Rplus 0 (map (fun row => nth 2 row 0) x)) 2)) /\
       (METDataset.training_mode self <> 0%Z ->
        METDataset.training_mode self <> 1%Z ->
        nth_error (Npz.met data) i = Some target)).
Proof.
  intros Hmean.
  assert (Hinv : forall s,
    In s (Gen.yielded (METDataset.__iter__ fs self g)) ->
    exists files f data X0 P0 P2 calcmet mets i,
      let stop := if (METDataset.training_mode self =? 0)%Z then 50%Z else 200%Z in
      let X := map (slice_to (Some stop)) X0 in
      In f (METDataset._files self) /\
      np_load fs f = Some data /\
      METDataset._transform_x (Npz.x data) = Some X0 /\
      METDataset.plane 0 X = Some P0 /\ METDataset.plane 2 X = Some P2 /\
      METDataset._compute_met P0 P2 = Some calcmet /\
      obind (METDataset.standardize_met self (Npz.met data)) (fun genmet =>
      obind (METDataset.standardize_met self calcmet) (fun calcmet =>
      obind (METDataset.standardize_met self (Npz.pfmet data)) (fun pfmet =>
      Some (genmet, calcmet, pfmet)))) = Some mets /\
      METDataset.event (METDataset.set_files self files) X (Npz.N data)
        (fst (fst mets)) (snd (fst mets)) (snd mets) (seq 0 (shape1 X)) i
      = Some s).
  { intros s H.
    apply MET_iter_event in H
      as (files & f & data & X0 & P0 & P2 & calcmet & mets & i
          & Hf & Hd & HX & HP0 & HP2 & Hc & Hm & H).
    rewrite Hmean in Hm.
    exists files, f, data, X0, P0, P2, calcmet, mets, i;
      repeat split; assumption. }
  split.
  - intros Hstd.
    destruct (Gen.yielded (METDataset.__iter__ fs self g)) as [|s l] eqn:E;
      [reflexivity|].
    destruct (Hinv s (or_introl eq_refl))
      as (files & f & data & X0 & P0 & P2 & calcmet & mets & i
          & _ & _ & _ & _ & _ & _ & Hm & _).
    unfold METDataset.standardize_met in Hm.
    rewrite Hmean, Hstd in Hm; discriminate.
  - intros std s Hstd H.
    destruct (Hinv s H)
      as (files & f & data & X0 & P0 & P2 & calcmet & mets & i
          & Hf & Hd & HX & HP0 & HP2 & Hc & Hm & He).
    unfold METDataset.standardize_met in Hm; simpl in Hm.
    rewrite Hmean, Hstd in Hm; simpl in Hm; injection Hm as <-.
    unfold METDataset.event in He; simpl in He.
    apply obind_some in He as (Ni & HN & He).
    apply obind_some in He as (x & Hx & He).
    apply obind_some in He as (adj & Hadj & He).
    pose proof (calcmet_at _ _ HP0 HP2 Hc Hx) as Hcalc.
    destruct ((METDataset.training_mode self =? 0)%Z
              || (METDataset.training_mode self =? 1)%Z)%bool eqn:Emode.
    + apply obind_some in He as (ci & Hci & He).
      apply obind_some in He as (pf & Hpf & He).
      injection He as <-.
      rewrite nth_error_map, Hcalc in Hci; simpl in Hci; injection Hci as <-.
      rewrite nth_error_map in Hpf.
      destruct (nth_error (Npz.pfmet data) i) as [pf0|] eqn:Epf; [|discriminate].
      simpl in Hpf; injection Hpf as <-.
      exists f, data, X0, i, x, adj; do 2 eexists.
      repeat split; try eassumption; try reflexivity.
      intros H0 H1; apply orb_true_iff in Emode as [E|E];
        apply Z.eqb_eq in E; contradiction.
    + apply obind_some in He as (gi & Hgi & He).
      apply obind_some in He as (pf & Hpf & He).
      injection He as <-.
      rewrite nth_error_map in Hgi, Hpf.
      destruct (nth_error (Npz.met data) i) as [g0|] eqn:Eg; [|discriminate].
      destruct (nth_error (Npz.pfmet data) i) as [pf0|] eqn:Epf; [|discriminate].
      simpl in Hgi, Hpf; injection Hgi as <-; injection Hpf as <-.
      exists f, data, X0, i, x, adj, g0, pf0; repeat split; auto.
      intros [E|E]; rewrite E in Emode; discriminate.
Qed.

(** A run of X26 on the example files, with mean 50 and standard deviation
    20, in training mode 2. *)
Lemma MET_sample_standardized_witness :
  let met := METDataset.Make ["data/a.npz"%string] false None 2 (Some 50)
                             (Some 20) 2 in
  exists s f data X i x adj_mask target pf,
    nth_error (Gen.yielded (METDataset.__iter__ Example.fs met [])) 0 = Some s /\
    np_load Example.fs f = Some data /\
    METDataset._transform_x (Npz.x data) = Some X /\
    nth_error (map (slice_to (Some 200%Z)) X) i = Some x /\
    nth_error (Npz.pfmet data) i = Some pf /\
    s = [of_matR x; adj_mask; of_R ((target - 50) / 20); of_R ((pf - 50) / 20)] /\
    nth_error (Npz.met data) i = Some target.
Proof.
  intros met.
  assert (Hy : exists s,
    nth_error (Gen.yielded (METDataset.__iter__ Example.fs met [])) 0 = Some s).
  { cbv -[IZR Rplus Rminus Rmult Rdiv cos sin sqrt]; eexists; reflexivity. }
  destruct Hy as [s Hs].
  destruct (@MET_sample_standardized Example.fs met [] 50 eq_refl) as [_ H].
  destruct (H 20 s eq_refl (nth_error_In _ _ Hs))
    as (f & data & X & i & x & adj & target & pf
        & Hf & Hd & HX & Hx & Hpf & Es & _ & Ht).
  exists s, f, data, X, i, x, adj, target, pf.
  repeat split; auto.
  apply Ht; simpl; lia.
Defined.
